(** * Sentinel ETL core: dataset version control

    A shallow embedding of the version store ([utils.py],
    [version_manager.py]), the comparator ([comparison.py]) and the rollback
    manager ([rollback.py]), with the Python library functions they call
    ([int], [float], [str.strip], [str.lower], [csv.reader],
    [csv.DictReader], [list.sort]).

    Modelling conventions.
    - Text is ASCII: a Python [str] is a [string].  Unicode digits and
      Unicode white space, which [int], [float] and [str.strip] also accept,
      are not represented; files are taken as already decoded.
    - [os.listdir] gives the entries of a directory in a fixed order, a
      new entry coming last.
    - A file written by [json.dump] is represented by the JSON value it
      holds ([FJson]); any other content is raw text ([FText]) on which
      [json.load] raises.  Non-finite floats are not represented.
    - Path names are single components below their directory; the input
      file of [create_version] is looked up by its whole path.  The index,
      the current-version marker and the rollback log are files of their
      own, kept apart from the entries of the versions directory: they are
      regular files, which every function of the listing skips.
    - The operating system never fails on its own (no permission or disk
      errors): the only exceptions are the ones the code or the modelled
      library functions raise.
    - Logging calls are recorded in order in the state, whatever the
      configured level.
    - The library functions follow CPython 3.11 with its defaults: the
      [excel] dialect and the field size limit 131072 of [csv], files
      opened in text mode with universal newlines, and the limit of 4300
      digits on the literals [int] converts, which applies to the values
      of a dataset.  The name of a directory entry is within 255 bytes, so
      the limit is out of reach of the version numbers, read from such
      names and written with [str].
    - A Python [set] is a list without duplicates, in the order of first
      occurrence; the order in which Python iterates a set is not
      modelled, and no property below depends on it.
    - The comparator reads the metadata fields with the types
      [create_version] writes; on a field of another type the model raises
      [TypeError], where Python may raise another exception or none. *)

From Stdlib Require Import List String Ascii ZArith QArith Bool Lia Arith.
From Stdlib Require Import Permutation Sorted.
From Stdlib Require Import DecimalString DecimalPos DecimalZ.
Import ListNotations.

#[local] Close Scope Q_scope.
#[local] Open Scope string_scope.
#[local] Open Scope list_scope.

(* ================================================================= *)
(** ** Python strings *)

Module Py.

(** [str.isspace] on one ASCII character, which is what [str.strip]
    removes: TAB, LF, VT, FF, CR, the separators 0x1c..0x1f and the space. *)
Definition isspace (c : ascii) : bool :=
  let n := nat_of_ascii c in
  ((9 <=? n) && (n <=? 13) || (28 <=? n) && (n <=? 32))%nat.

(** The white space [int] and [float] skip around an ASCII literal: the C
    locale's, which leaves out 0x1c..0x1f. *)
Definition isspace_c (c : ascii) : bool :=
  let n := nat_of_ascii c in
  ((9 <=? n) && (n <=? 13) || (n =? 32))%nat.

Definition isdigit (c : ascii) : bool :=
  let n := nat_of_ascii c in ((48 <=? n) && (n <=? 57))%nat.

Section Strip.
Variable space : ascii -> bool.

Fixpoint lstrip_by (s : string) : string :=
  match s with
  | EmptyString => EmptyString
  | String c r => if space c then lstrip_by r else s
  end.

Fixpoint rstrip_by (s : string) : string :=
  match s with
  | EmptyString => EmptyString
  | String c r =>
      match rstrip_by r with
      | EmptyString => if space c then EmptyString else String c EmptyString
      | r' => String c r'
      end
  end.

Definition strip_by (s : string) : string := rstrip_by (lstrip_by s).
End Strip.

(** [s.strip()] *)
Definition strip : string -> string := strip_by isspace.

Definition lower_char (c : ascii) : ascii :=
  let n := nat_of_ascii c in
  if ((65 <=? n) && (n <=? 90))%nat then ascii_of_nat (n + 32) else c.

(** [s.lower()] *)
Fixpoint lower (s : string) : string :=
  match s with
  | EmptyString => EmptyString
  | String c r => String (lower_char c) (lower r)
  end.

(** [s.startswith(p)] *)
Definition startswith (p s : string) : bool := String.prefix p s.

(** [s.endswith(p)]: [p] is [s] or ends a tail of [s]. *)
Fixpoint endswith (p s : string) : bool :=
  String.eqb p s
  || match s with
     | EmptyString => false
     | String _ r => endswith p r
     end.

(** [c in s] for a one-character [c] *)
Fixpoint contains_char (c : ascii) (s : string) : bool :=
  match s with
  | EmptyString => false
  | String d r => Ascii.eqb c d || contains_char c r
  end.

(** [s[1:]] *)
Definition tail1 (s : string) : string :=
  match s with
  | EmptyString => EmptyString
  | String _ r => r
  end.

(** [x in l] for a list of strings *)
Definition str_in (x : string) (l : list string) : bool :=
  existsb (String.eqb x) l.

(** The grammar [digitpart ::= digit (["_"] digit)*] of the numeric
    literals accepted by [int] and [float]: [digitpart s] is the decimal
    number read when the whole of [s] is a digitpart. *)
Fixpoint digitpart (s : string) : option Decimal.uint :=
  match s with
  | EmptyString => None
  | String c r =>
      match r with
      | EmptyString => uint_of_char c (Some Decimal.Nil)
      | String "_"%char r' => uint_of_char c (digitpart r')
      | _ => uint_of_char c (digitpart r)
      end
  end.

(** An optional sign in front of a literal. *)
Definition split_sign (s : string) : bool * string :=
  match s with
  | String "-"%char r => (true, r)
  | String "+"%char r => (false, r)
  | _ => (false, s)
  end.

(** [int(s)] on a text within the limit CPython sets on the digits of a
    literal (see [int_limited]); [None] stands for [ValueError].  The
    names of directory entries are such texts: a file system keeps a name
    within 255 bytes. *)
Definition int (s : string) : option Z :=
  let (neg, body) := split_sign (strip_by isspace_c s) in
  match digitpart body with
  | Some d => Some (if neg then Z.opp (Z.of_uint d) else Z.of_uint d)
  | None => None
  end.

(** The digits of a text. *)
Fixpoint count_digits (s : string) : nat :=
  match s with
  | EmptyString => O
  | String c r => if isdigit c then S (count_digits r) else count_digits r
  end.

(** [sys.int_info.default_max_str_digits] *)
Definition default_max_str_digits : nat := 4300.

(** [int(s)] on any text: a literal of more than 4300 digits, underscores
    not counted, raises [ValueError] as a malformed one does. *)
Definition int_limited (s : string) : option Z :=
  if (count_digits s <=? default_max_str_digits)%nat then int s else None.

(** [str(n)] for an integer. *)
Definition str_of_int (n : Z) : string :=
  NilZero.string_of_int (Z.to_int n).

(** Longest prefix of [s] that is a digitpart; the rest of [s] is
    returned, [None] when [s] does not start with a digit. *)
Fixpoint eat_digitpart (s : string) : option string :=
  match s with
  | EmptyString => None
  | String c r =>
      if isdigit c then
        match r with
        | String "_"%char r' =>
            match eat_digitpart r' with
            | Some rest => Some rest
            | None => Some r
            end
        | _ =>
            match eat_digitpart r with
            | Some rest => Some rest
            | None => Some r
            end
        end
      else None
  end.

(** [exponent ::= ("e" | "E") [sign] digitpart], up to the end of the
    text; the empty text is the absent exponent. *)
Definition exponent_ok (s : string) : bool :=
  match s with
  | EmptyString => true
  | String c r =>
      if Ascii.eqb (lower_char c) "e"%char then
        match eat_digitpart (snd (split_sign r)) with
        | Some EmptyString => true
        | _ => false
        end
      else false
  end.

(** [floatnumber ::= ([digitpart] "." digitpart | digitpart ["."]) [exponent]] *)
Definition floatnumber_ok (s : string) : bool :=
  match eat_digitpart s with
  | Some rest =>
      match rest with
      | String "."%char r2 =>
          match eat_digitpart r2 with
          | Some r3 => exponent_ok r3
          | None => exponent_ok r2
          end
      | _ => exponent_ok rest
      end
  | None =>
      match s with
      | String "."%char r2 =>
          match eat_digitpart r2 with
          | Some r3 => exponent_ok r3
          | None => false
          end
      | _ => false
      end
  end.

(** [float(s)] returns (rather than raising [ValueError]). *)
Definition float_ok (s : string) : bool :=
  let body := snd (split_sign (strip_by isspace_c s)) in
  str_in (lower body) ["inf"; "infinity"; "nan"] || floatnumber_ok body.

End Py.


(* ================================================================= *)
(** ** Text files and the [csv] module *)

Module Csv.

Definition LF : ascii := "010"%char.
Definition CR : ascii := "013"%char.

(** A file opened with [open(path, 'r')] translates every line ending to
    LF (universal newlines). *)
Fixpoint universal_newlines (s : string) : string :=
  match s with
  | EmptyString => EmptyString
  | String c r =>
      if Ascii.eqb c CR then
        match r with
        | String "010"%char r' => String LF (universal_newlines r')
        | _ => String LF (universal_newlines r)
        end
      else String c (universal_newlines r)
  end.

(** The lines a text file yields when iterated: each one keeps its LF; the
    last one has none when the text does not end with LF. *)
Fixpoint splitlines (s : string) : list string :=
  match s with
  | EmptyString => []
  | String c r =>
      if Ascii.eqb c LF then String c EmptyString :: splitlines r
      else match splitlines r with
           | [] => [String c EmptyString]
           | l :: ls => String c l :: ls
           end
  end.

Definition file_lines (text : string) : list string :=
  splitlines (universal_newlines text).

(** The states of the parser of [_csv.c] that the default dialect
    ([excel]: comma as delimiter, double quote as quote character, doubled
    quotes, no escape character, not strict) can reach. *)
Inductive ParserState :=
| START_RECORD | START_FIELD | IN_FIELD
| IN_QUOTED_FIELD | QUOTE_IN_QUOTED_FIELD | EAT_CRNL.

Record Reader := {
  state : ParserState;
  fields : list string;        (* the fields saved for the current record *)
  field : list ascii;          (* the current field, last character first *)
  field_len : N
}.

(** [csv.field_size_limit()] *)
Definition field_limit : N := 131072.

(** A character of the line, or the end-of-line mark the reader feeds
    after each line. *)
Inductive Sym := Ch (c : ascii) | EOL.

Definition delimiter : ascii := ","%char.
Definition quotechar : ascii := "034"%char.

Definition is_nl (c : ascii) : bool := Ascii.eqb c LF || Ascii.eqb c CR.

Definition set_state (st : ParserState) (r : Reader) : Reader :=
  {| state := st; fields := fields r; field := field r; field_len := field_len r |}.

(** [parse_add_char]: [None] is [csv.Error] (field larger than field limit). *)
Definition parse_add_char (r : Reader) (c : ascii) : option Reader :=
  if (field_limit <=? field_len r)%N then None
  else Some {| state := state r; fields := fields r;
               field := c :: field r; field_len := N.succ (field_len r) |}.

Definition parse_save_field (r : Reader) : Reader :=
  {| state := state r;
     fields := fields r ++ [string_of_list_ascii (rev (field r))];
     field := []; field_len := 0 |}.

Definition parse_reset (r : Reader) : Reader :=
  {| state := START_RECORD; fields := []; field := []; field_len := 0 |}.

Definition end_of_line (c : Sym) (r : Reader) : Reader :=
  set_state (match c with EOL => START_RECORD | Ch _ => EAT_CRNL end)
            (parse_save_field r).

(** The [START_FIELD] case of [parse_process_char]. *)
Definition start_field (r : Reader) (c : Sym) : option Reader :=
  match c with
  | EOL => Some (end_of_line c r)
  | Ch ch =>
      if is_nl ch then Some (end_of_line c r)
      else if Ascii.eqb ch quotechar then Some (set_state IN_QUOTED_FIELD r)
      else if Ascii.eqb ch delimiter then Some (parse_save_field r)
      else option_map (set_state IN_FIELD) (parse_add_char r ch)
  end.

(** [parse_process_char]: one step of the parser; [None] is [csv.Error]. *)
Definition parse_process_char (r : Reader) (c : Sym) : option Reader :=
  match state r with
  | START_RECORD =>
      match c with
      | EOL => Some r
      | Ch ch =>
          if is_nl ch then Some (set_state EAT_CRNL r)
          else start_field (set_state START_FIELD r) c
      end
  | START_FIELD => start_field r c
  | IN_FIELD =>
      match c with
      | EOL => Some (end_of_line c r)
      | Ch ch =>
          if is_nl ch then Some (end_of_line c r)
          else if Ascii.eqb ch delimiter
               then Some (set_state START_FIELD (parse_save_field r))
          else parse_add_char r ch
      end
  | IN_QUOTED_FIELD =>
      match c with
      | EOL => Some r
      | Ch ch =>
          if Ascii.eqb ch quotechar then Some (set_state QUOTE_IN_QUOTED_FIELD r)
          else parse_add_char r ch
      end
  | QUOTE_IN_QUOTED_FIELD =>
      match c with
      | EOL => Some (end_of_line c r)
      | Ch ch =>
          if Ascii.eqb ch quotechar
          then option_map (set_state IN_QUOTED_FIELD) (parse_add_char r ch)
          else if Ascii.eqb ch delimiter
               then Some (set_state START_FIELD (parse_save_field r))
          else if is_nl ch then Some (end_of_line c r)
          else option_map (set_state IN_FIELD) (parse_add_char r ch)
      end
  | EAT_CRNL =>
      match c with
      | EOL => Some (set_state START_RECORD r)
      | Ch ch => if is_nl ch then Some r else None
      end
  end.

(** The characters of one line, then the end-of-line mark. *)
Fixpoint feed_chars (r : Reader) (line : string) : option Reader :=
  match line with
  | EmptyString => parse_process_char r EOL
  | String c rest =>
      match parse_process_char r (Ch c) with
      | Some r' => feed_chars r' rest
      | None => None
      end
  end.

(** What iterating a reader gives: items, then the end of the input or an
    exception. *)
Inductive Iter (A : Type) :=
| Stop                                   (* StopIteration *)
| Raise                                  (* csv.Error *)
| Yield (a : A) (rest : Iter A).
Arguments Stop {A}.
Arguments Raise {A}.
Arguments Yield {A} a rest.

Definition Rows := Iter (list string).
Definition Row (r : list string) (rest : Rows) : Rows := Yield r rest.

(** [Reader_iternext], iterated: lines are fed until the parser is back in
    [START_RECORD]; at the end of the input a pending field closes the
    last record. *)
Fixpoint iterate (r : Reader) (lines : list string) : Rows :=
  match lines with
  | [] =>
      if negb (field_len r =? 0)%N
         || match state r with IN_QUOTED_FIELD => true | _ => false end
      then Yield (fields (parse_save_field r)) Stop
      else Stop
  | l :: rest =>
      match feed_chars r l with
      | None => Raise
      | Some r' =>
          match state r' with
          | START_RECORD => Yield (fields r') (iterate (parse_reset r') rest)
          | _ => iterate r' rest
          end
      end
  end.

(** [csv.reader(f)] on the text of [f]. *)
Definition reader (text : string) : Rows :=
  iterate (parse_reset {| state := START_RECORD; fields := []; field := []; field_len := 0 |})
          (file_lines text).

End Csv.


(* ================================================================= *)
(** ** JSON values and Python dictionaries *)

#[warnings="-register-all"]
Inductive json :=
| JNull
| JBool (b : bool)
| JInt (n : Z)
| JFloat (q : Q)
| JStr (s : string)
| JArr (items : list json)
| JObj (members : list (string * json)).

(** A [dict] keeps its keys in insertion order: an association list in which
    [d[k] = v] replaces the value of a present key in place and appends an
    absent one. *)
Section Dict.
Context {K V : Type} (eqb : K -> K -> bool).

Fixpoint dict_get (k : K) (d : list (K * V)) : option V :=
  match d with
  | [] => None
  | (k', v) :: rest => if eqb k k' then Some v else dict_get k rest
  end.

Fixpoint dict_set (k : K) (v : V) (d : list (K * V)) : list (K * V) :=
  match d with
  | [] => [(k, v)]
  | (k', v') :: rest =>
      if eqb k k' then (k', v) :: rest else (k', v') :: dict_set k v rest
  end.

Definition dict_has (k : K) (d : list (K * V)) : bool :=
  match dict_get k d with Some _ => true | None => false end.
End Dict.

(** [d.get(k)] and [d[k] = v] on the members of a JSON object, and on the
    files of a directory. *)
Definition lookup {V} (k : string) (d : list (string * V)) : option V :=
  dict_get String.eqb k d.
Definition store {V} (k : string) (v : V) (d : list (string * V)) : list (string * V) :=
  dict_set String.eqb k v d.

(* ================================================================= *)
(** ** The state of the system: files, clock and log records *)

(** A regular file: raw text, or the JSON value [json.dump] wrote. *)
Inductive File := FText (s : string) | FJson (j : json).

(** An entry of the versions directory: a regular file, or a directory with
    the regular files it holds, in [os.listdir] order. *)
Inductive Node := NFile (f : File) | NDir (files : list (string * File)).

Inductive Level := DEBUG | INFO | WARNING | ERROR.

Inductive Exn :=
| FileNotFoundError (msg : string)
| ValueError (msg : string)
| FileExistsError
| NotADirectoryError
| JSONDecodeError
| TypeError
| AttributeError
| KeyError (key : string)
| CsvError.

(** A logging call: level, message and, for [f"...{str(e)}"], the exception
    whose text ends the message. *)
Record LogRecord := { level : Level; message : string; cause : option Exn }.

Record World := {
  outside : list (string * string);            (* other files, by path: their text *)
  versions_dir : option (list (string * Node)); (* [None]: no such directory *)
  index_file : option File;
  current_version_file : option string;
  rollback_log_file : option File;             (* logs_dir/rollback_history.json *)
  clock : nat -> string;                       (* successive readings of the clock *)
  ticks : nat;
  logged : list LogRecord
}.

Definition with_versions_dir (d : option (list (string * Node))) (w : World) : World :=
  {| outside := outside w; versions_dir := d; index_file := index_file w;
     current_version_file := current_version_file w;
     rollback_log_file := rollback_log_file w;
     clock := clock w; ticks := ticks w; logged := logged w |}.

Definition with_index_file (f : option File) (w : World) : World :=
  {| outside := outside w; versions_dir := versions_dir w; index_file := f;
     current_version_file := current_version_file w;
     rollback_log_file := rollback_log_file w;
     clock := clock w; ticks := ticks w; logged := logged w |}.

Definition with_current_version_file (f : option string) (w : World) : World :=
  {| outside := outside w; versions_dir := versions_dir w; index_file := index_file w;
     current_version_file := f;
     rollback_log_file := rollback_log_file w;
     clock := clock w; ticks := ticks w; logged := logged w |}.

Definition with_rollback_log_file (f : option File) (w : World) : World :=
  {| outside := outside w; versions_dir := versions_dir w; index_file := index_file w;
     current_version_file := current_version_file w;
     rollback_log_file := f;
     clock := clock w; ticks := ticks w; logged := logged w |}.

Definition with_ticks (n : nat) (w : World) : World :=
  {| outside := outside w; versions_dir := versions_dir w; index_file := index_file w;
     current_version_file := current_version_file w;
     rollback_log_file := rollback_log_file w;
     clock := clock w; ticks := n; logged := logged w |}.

Definition with_logged (l : list LogRecord) (w : World) : World :=
  {| outside := outside w; versions_dir := versions_dir w; index_file := index_file w;
     current_version_file := current_version_file w;
     rollback_log_file := rollback_log_file w;
     clock := clock w; ticks := ticks w; logged := l |}.

(** The persisted data of the version store, which is what a failed
    operation must leave alone. *)
Definition persisted (w : World)
  : option (list (string * Node)) * option File * option string * option File :=
  (versions_dir w, index_file w, current_version_file w, rollback_log_file w).

(* ================================================================= *)
(** ** A state and exception monad for the Python code *)

Inductive Result (A : Type) := Ok (a : A) | Err (e : Exn).
Arguments Ok {A} a.
Arguments Err {A} e.

Definition M (A : Type) : Type := World -> Result A * World.

Definition ret {A} (a : A) : M A := fun w => (Ok a, w).

Definition bind {A B} (m : M A) (k : A -> M B) : M B :=
  fun w => match m w with
           | (Ok a, w') => k a w'
           | (Err e, w') => (Err e, w')
           end.

Definition raise {A} (e : Exn) : M A := fun w => (Err e, w).

(** [try: body  except Exception as e: handler e] *)
Definition try_except {A} (body : M A) (handler : Exn -> M A) : M A :=
  fun w => match body w with
           | (Ok a, w') => (Ok a, w')
           | (Err e, w') => handler e w'
           end.

Definition read {A} (f : World -> A) : M A := fun w => (Ok (f w), w).
Definition modify (f : World -> World) : M unit := fun w => (Ok tt, f w).

(** A function that returns or raises without touching the state. *)
Definition lift {A} (r : Result A) : M A := fun w => (r, w).

Declare Scope py_scope.
Delimit Scope py_scope with py.
Notation "x <- c1 ;; c2" := (bind c1 (fun x => c2))
  (at level 61, c1 at next level, right associativity) : py_scope.
Notation "c1 ;;; c2" := (bind c1 (fun _ => c2))
  (at level 61, right associativity) : py_scope.
#[local] Open Scope py_scope.

Definition logger (lvl : Level) (msg : string) (e : option Exn) : M unit :=
  modify (fun w => with_logged (logged w ++ [{| level := lvl; message := msg; cause := e |}]) w).

Definition logger_debug (msg : string) : M unit := logger DEBUG msg None.
Definition logger_info (msg : string) : M unit := logger INFO msg None.
Definition logger_warning (msg : string) (e : option Exn) : M unit := logger WARNING msg e.
Definition logger_error (msg : string) (e : option Exn) : M unit := logger ERROR msg e.

(* ================================================================= *)
(** ** Configuration ([config/versioning_config.yaml]) *)

Record Config := {
  storage_versions_dir : string;
  storage_index_file : string;
  storage_current_version_file : string;
  storage_logs_dir : string;
  metadata_include_row_count : bool;
  metadata_include_columns : bool;
  metadata_include_data_types : bool;
  metadata_include_file_hash : bool;
  metadata_include_file_size : bool;
  comparison_compare_row_count : bool;
  comparison_compare_columns : bool;
  comparison_compare_data_types : bool;
  comparison_include_sample_data : bool;
  comparison_sample_size : Z;
  version_management_backup_before_rollback : bool
}.

(** The files the system reads and writes. *)
Inductive Path :=
| InVersion (version name : string)   (* versions_dir/version/name *)
| IndexFile
| CurrentVersionFile
| RollbackLog                         (* logs_dir/rollback_history.json *)
| Outside (path : string).

(** [os.path.join] of a directory and a relative name. *)
Definition path_join (a b : string) : string :=
  match a with
  | EmptyString => b
  | _ => if Py.endswith "/" a then (a ++ b)%string else (a ++ "/" ++ b)%string
  end.

(** [os.path.basename] *)
Fixpoint basename (p : string) : string :=
  match p with
  | EmptyString => EmptyString
  | String c r =>
      if Py.contains_char "/"%char r then basename r
      else if Ascii.eqb c "/"%char then r else p
  end.

(** [str(x)] for an optional string. *)
Definition str_opt (x : option string) : string :=
  match x with Some s => s | None => "None" end.

Definition json_opt (x : option string) : json :=
  match x with Some s => JStr s | None => JNull end.

(** [round(difference / row_count1 * 100, 2) if row_count1 > 0 else 0]: the
    floating-point expression is kept symbolic. *)
Inductive Percentage :=
| PctZero
| PctRound2 (difference row_count1 : Z).

(** What the objects of the system share besides the state: the
    configuration and four library functions left uninterpreted,
    [hashlib.sha256(data).hexdigest()], the text [json.dump] writes, [str]
    of a percentage, and [os.path.exists] on a path given as text, which
    may name anything on the file system. *)
Record System := {
  config : Config;
  sha256_hexdigest : string -> string;
  json_dumps : json -> string;
  str_of_percentage : Percentage -> string;
  os_path_exists : string -> World -> bool
}.

Section System.

Variable self : System.

Definition path_str (p : Path) : string :=
  match p with
  | InVersion v name => path_join (path_join (storage_versions_dir (config self)) v) name
  | IndexFile => storage_index_file (config self)
  | CurrentVersionFile => storage_current_version_file (config self)
  | RollbackLog => path_join (storage_logs_dir (config self)) "rollback_history.json"
  | Outside p => p
  end.

Definition file_text (f : File) : string :=
  match f with FText s => s | FJson j => (json_dumps self) j end.

(** The regular file at a path, if there is one. *)
Definition file_at (p : Path) (w : World) : option File :=
  match p with
  | InVersion v name =>
      match versions_dir w with
      | Some entries =>
          match lookup v entries with
          | Some (NDir files) => lookup name files
          | _ => None
          end
      | None => None
      end
  | IndexFile => index_file w
  | CurrentVersionFile => option_map FText (current_version_file w)
  | RollbackLog => rollback_log_file w
  | Outside p => option_map FText (lookup p (outside w))
  end.

(** [os.path.exists] on the path of a file. *)
Definition exists_file (p : Path) : M bool :=
  read (fun w => match file_at p w with Some _ => true | None => false end).

(* ----------------------------------------------------------------- *)
(** *** utils.py *)

Definition get_timestamp : M string :=
  fun w => (Ok (clock w (ticks w)), with_ticks (S (ticks w)) w).

(** [ensure_directory] on a version directory: [os.makedirs(..., exist_ok=True)]. *)
Definition ensure_directory (version : string) : M unit :=
  fun w =>
    match versions_dir w with
    | None => (Ok tt, with_versions_dir (Some [(version, NDir [])]) w)
    | Some entries =>
        match lookup version entries with
        | None => (Ok tt, with_versions_dir (Some (entries ++ [(version, NDir [])])) w)
        | Some (NDir _) => (Ok tt, w)
        | Some (NFile _) => (Err FileExistsError, w)
        end
    end.

(** [open(path, 'w')] followed by the write of the whole content. *)
Definition write_file (p : Path) (f : File) : M unit :=
  fun w =>
    match p with
    | InVersion v name =>
        match versions_dir w with
        | Some entries =>
            match lookup v entries with
            | Some (NDir files) =>
                (Ok tt, with_versions_dir
                          (Some (store v (NDir (store name f files)) entries)) w)
            | Some (NFile _) => (Err NotADirectoryError, w)
            | None => (Err (FileNotFoundError (path_str p)), w)
            end
        | None => (Err (FileNotFoundError (path_str p)), w)
        end
    | IndexFile => (Ok tt, with_index_file (Some f) w)
    | CurrentVersionFile => (Ok tt, with_current_version_file (Some (file_text f)) w)
    | RollbackLog => (Ok tt, with_rollback_log_file (Some f) w)
    | Outside path =>
        (Ok tt, {| outside := store path (file_text f) (outside w);
                   versions_dir := versions_dir w; index_file := index_file w;
                   current_version_file := current_version_file w;
                   rollback_log_file := rollback_log_file w;
                   clock := clock w; ticks := ticks w; logged := logged w |})
    end.

Definition ensure_parent (p : Path) : M unit :=
  match p with
  | InVersion v _ => ensure_directory v
  | _ => ret tt
  end.

Definition load_json (p : Path) : M json :=
  present <- exists_file p ;;
  if negb present
  then raise (FileNotFoundError ("JSON file not found: " ++ path_str p))
  else f <- read (file_at p) ;;
       match f with
       | Some (FJson j) => ret j
       | _ => raise JSONDecodeError
       end.

Definition save_json (data : json) (p : Path) : M unit :=
  ensure_parent p ;;;
  write_file p (FJson data).

(** [open(file_path, 'r')] and [f.read()]: the text of the file with its
    line endings translated to LF. *)
Definition read_text_file (p : Path) : M string :=
  present <- exists_file p ;;
  if negb present
  then raise (FileNotFoundError ("Text file not found: " ++ path_str p))
  else f <- read (file_at p) ;;
       match f with
       | Some f => ret (Csv.universal_newlines (file_text f))
       | None => raise (FileNotFoundError (path_str p))
       end.

(** [shutil.copy2(src, dst)]: the file is copied as it is, byte for
    byte. *)
Definition copy2 (src dst : Path) : M unit :=
  f <- read (file_at src) ;;
  match f with
  | Some f => write_file dst (FText (file_text f))
  | None => raise (FileNotFoundError (path_str src))
  end.

Definition write_text_file (content : string) (p : Path) : M unit :=
  ensure_parent p ;;;
  write_file p (FText content).

Definition isdir (n : Node) : bool :=
  match n with NDir _ => true | NFile _ => false end.

(** [max] of a non-empty list of integers. *)
Definition py_max (x : Z) (l : list Z) : Z := fold_left Z.max l x.

(** The [for item in os.listdir(versions_dir)] loop of
    [get_next_version_number]. *)
Fixpoint existing_version_numbers (entries : list (string * Node)) : list Z :=
  match entries with
  | [] => []
  | (item, node) :: rest =>
      if Py.startswith "v" item && isdir node then
        match Py.int (Py.tail1 item) with
        | Some version_num => version_num :: existing_version_numbers rest
        | None => existing_version_numbers rest
        end
      else existing_version_numbers rest
  end.

Definition get_next_version_number : M Z :=
  read (fun w =>
    match versions_dir w with
    | None => 1%Z
    | Some entries =>
        match existing_version_numbers entries with
        | [] => 1%Z
        | x :: l => (py_max x l + 1)%Z
        end
    end).

(** [os.path.join(a, b)] for any [b]: an absolute [b] replaces [a]. *)
Definition os_path_join (a b : string) : string :=
  if Py.startswith "/" b then b else path_join a b.

(** [validate_version_exists]: the name is any text (it may be empty, a
    dot, hold separators or be absolute), so the path it forms need not be
    an entry of the versions directory: whether it exists is left to
    [os_path_exists]. *)
Definition validate_version_exists (version_name : string) : M bool :=
  let version_path := os_path_join (storage_versions_dir (config self)) version_name in
  present <- read (os_path_exists self version_path) ;;
  if negb present then
    logger_error ("Version '" ++ version_name ++ "' does not exist at "
                  ++ version_path) None ;;;
    ret false
  else ret true.

(* ----------------------------------------------------------------- *)
(** *** csv.DictReader *)

(** A row of [csv.DictReader]: the values under the field names ([None]
    where the record is short) and, under the key [None], the values beyond
    the field names. *)
Record DictRow := {
  named : list (string * option string);
  restkey : option (list string)
}.

(** [d = dict(zip(self.fieldnames, row))] and the two adjustments for
    records longer or shorter than the field names. *)
Definition make_row (names row : list string) : DictRow :=
  let d := fold_left (fun d kv => store (fst kv) (Some (snd kv)) d) (combine names row) [] in
  let lf := List.length names in
  let lr := List.length row in
  if (lf <? lr)%nat then {| named := d; restkey := Some (skipn lf row) |}
  else {| named := fold_left (fun d key => store key None d) (skipn lr names) d;
          restkey := None |}.

(** [DictReader.__next__] once the field names are known: blank records
    are skipped, the others become dictionaries. *)
Fixpoint dict_rows (names : list string) (rows : Csv.Rows) : Csv.Iter DictRow :=
  match rows with
  | Csv.Stop => Csv.Stop
  | Csv.Raise => Csv.Raise
  | Csv.Yield [] rest => dict_rows names rest
  | Csv.Yield row rest => Csv.Yield (make_row names row) (dict_rows names rest)
  end.

(** [csv.DictReader(f)]: the first record, blank or not, gives the field
    names. *)
Definition DictReader (text : string) : Csv.Iter DictRow :=
  match Csv.reader text with
  | Csv.Stop => Csv.Stop
  | Csv.Raise => Csv.Raise
  | Csv.Yield header rest => dict_rows header rest
  end.

(** [[next(reader, None) for _ in range(n)]] *)
Fixpoint take_rows (n : nat) (reader : Csv.Iter DictRow) : Result (list (option DictRow)) :=
  match n with
  | O => Ok []
  | S n' =>
      match reader with
      | Csv.Raise => Err CsvError
      | Csv.Stop =>
          match take_rows n' Csv.Stop with
          | Err e => Err e
          | Ok l => Ok (None :: l)
          end
      | Csv.Yield row rest =>
          match take_rows n' rest with
          | Err e => Err e
          | Ok l => Ok (Some row :: l)
          end
      end
  end.

(** [bool(row)] and [col in row] *)
Definition row_truthy (row : DictRow) : bool :=
  match named row, restkey row with
  | [], None => false
  | _, _ => true
  end.

(* ----------------------------------------------------------------- *)
(** *** version_manager.py: metadata extraction *)

Definition _is_integer (value : string) : bool :=
  match Py.int_limited value with Some _ => true | None => false end.

Definition _is_float (value : string) : bool :=
  Py.float_ok value && Py.contains_char "."%char value.

Definition _is_boolean (value : string) : bool :=
  Py.str_in (Py.lower value) ["true"; "false"; "yes"; "no"; "1"; "0"].

(** The classification of one sampled value ([None] is Python's [None]):
    the name added to [types_found]. *)
Definition classify (value : option string) : string :=
  match value with
  | None => "null"
  | Some value =>
      if String.eqb value "" || String.eqb (Py.strip value) "" then "null"
      else if _is_integer value then "integer"
      else if _is_float value then "float"
      else if _is_boolean value then "boolean"
      else "string"
  end.

(** The values of column [col] in the sampled rows: the inner [for row in
    sample_rows] loop, keeping the rows that pass [row and col in row]. *)
Fixpoint sampled_values (col : string) (sample_rows : list (option DictRow))
  : list (option string) :=
  match sample_rows with
  | [] => []
  | None :: rest => sampled_values col rest
  | Some row :: rest =>
      if row_truthy row then
        match lookup col (named row) with
        | Some value => value :: sampled_values col rest
        | None => sampled_values col rest
        end
      else sampled_values col rest
  end.

(** The [if 'float' in types_found ... else] chain. *)
Definition final_type (types_found : list string) : string :=
  if Py.str_in "float" types_found then "float"
  else if Py.str_in "integer" types_found then "integer"
  else if Py.str_in "boolean" types_found then "boolean"
  else "string".

Definition column_type (col : string) (sample_rows : list (option DictRow)) : string :=
  final_type (map classify (sampled_values col sample_rows)).

(** [_analyze_csv]: [columns] is assigned before [row_count] is computed,
    so an exception raised while counting leaves the header in [columns]. *)
Fixpoint count_rows (rows : Csv.Rows) : Result nat :=
  match rows with
  | Csv.Stop => Ok O
  | Csv.Raise => Err CsvError
  | Csv.Yield _ rest =>
      match count_rows rest with
      | Ok n => Ok (S n)
      | Err e => Err e
      end
  end.

Definition analyze_rows (rows : Csv.Rows) : nat * list string * option Exn :=
  match rows with
  | Csv.Stop => (O, [], None)                   (* next(reader, []) *)
  | Csv.Raise => (O, [], Some CsvError)
  | Csv.Yield columns rest =>
      match count_rows rest with
      | Ok row_count => (row_count, columns, None)
      | Err e => (O, columns, Some e)
      end
  end.

Definition _analyze_csv (csv_path : Path) : M (nat * list string) :=
  f <- read (file_at csv_path) ;;
  match f with
  | None =>
      logger_warning "Error analyzing CSV: " (Some (FileNotFoundError (path_str csv_path))) ;;;
      ret (O, [])
  | Some f =>
      match analyze_rows (Csv.reader (file_text f)) with
      | (row_count, columns, None) =>
          logger_debug ("CSV analysis: " ++ Py.str_of_int (Z.of_nat row_count) ++ " rows, "
                        ++ Py.str_of_int (Z.of_nat (List.length columns)) ++ " columns") ;;;
          ret (row_count, columns)
      | (row_count, columns, Some e) =>
          logger_warning "Error analyzing CSV: " (Some e) ;;;
          ret (row_count, columns)
      end
  end.

(** [{col: "string" for col in columns}] *)
Definition default_types (columns : list string) : list (string * json) :=
  fold_left (fun d col => store col (JStr "string") d) columns [].

Definition infer_from_rows (columns : list string) (reader : Csv.Iter DictRow)
  : list (string * json) * option Exn :=
  let data_types := default_types columns in
  match take_rows (Nat.min 100 100) reader with
  | Err e => (data_types, Some e)
  | Ok sample_rows =>
      (fold_left (fun d col => store col (JStr (column_type col sample_rows)) d)
                 columns data_types, None)
  end.

Definition _infer_data_types (csv_path : Path) (columns : list string)
  : M (list (string * json)) :=
  f <- read (file_at csv_path) ;;
  match f with
  | None =>
      logger_warning "Error inferring data types: "
                     (Some (FileNotFoundError (path_str csv_path))) ;;;
      ret (default_types columns)
  | Some f =>
      match infer_from_rows columns (DictReader (file_text f)) with
      | (data_types, None) => ret data_types
      | (data_types, Some e) =>
          logger_warning "Error inferring data types: " (Some e) ;;;
          ret data_types
      end
  end.

(** [get_file_hash] and [get_file_size] *)
Definition get_file_hash (p : Path) : M string :=
  f <- read (file_at p) ;;
  match f with
  | None => raise (FileNotFoundError ("File not found: " ++ path_str p))
  | Some f => ret ((sha256_hexdigest self) (file_text f))
  end.

Definition get_file_size (p : Path) : M Z :=
  f <- read (file_at p) ;;
  match f with
  | None => raise (FileNotFoundError ("File not found: " ++ path_str p))
  | Some f => ret (Z.of_nat (String.length (file_text f)))
  end.

(** [if cond: metadata[key] = value] *)
Definition set_if (cond : bool) (key : string) (value : json)
  (metadata : list (string * json)) : list (string * json) :=
  if cond then store key value metadata else metadata.

Definition _generate_metadata (version_name : string) (dataset_path : Path)
  (source_file : string) (quality_score : option Q) : M (list (string * json)) :=
  created_at <- get_timestamp ;;
  let metadata := [("version", JStr version_name);
                   ("created_at", JStr created_at);
                   ("source_file", JStr source_file)] in
  metadata <-
    (if Py.endswith ".csv" (path_str dataset_path) then
       rc <- _analyze_csv dataset_path ;;
       let (row_count, columns) := (rc : nat * list string) in
       let metadata :=
         set_if (metadata_include_row_count (config self)) "row_count"
                (JInt (Z.of_nat row_count)) metadata in
       let metadata :=
         set_if (metadata_include_columns (config self)) "column_count"
                (JInt (Z.of_nat (List.length columns)))
           (set_if (metadata_include_columns (config self)) "columns"
                   (JArr (map JStr columns)) metadata) in
       if metadata_include_data_types (config self) then
         data_types <- _infer_data_types dataset_path columns ;;
         ret (store "data_types" (JObj data_types) metadata)
       else ret metadata
     else ret metadata) ;;
  metadata <-
    (if metadata_include_file_hash (config self) then
       h <- get_file_hash dataset_path ;;
       ret (store "file_hash" (JStr h) metadata)
     else ret metadata) ;;
  metadata <-
    (if metadata_include_file_size (config self) then
       n <- get_file_size dataset_path ;;
       ret (store "file_size_bytes" (JInt n) metadata)
     else ret metadata) ;;
  ret (match quality_score with
       | Some q => store "quality_score" (JFloat q) metadata
       | None => metadata
       end).

(* ----------------------------------------------------------------- *)
(** *** version_manager.py: the version store *)

(** [index["versions"].append(entry)] and the like: append to the list
    under [key] of a loaded JSON document. *)
Definition append_under (key : string) (entry : json) (doc : json) : Result json :=
  match doc with
  | JObj members =>
      match lookup key members with
      | None => Err (KeyError key)
      | Some (JArr items) => Ok (JObj (store key (JArr (items ++ [entry])) members))
      | Some _ => Err AttributeError
      end
  | _ => Err TypeError
  end.

(** [metadata.get(key)] on the dictionary being built. *)
Definition get_or_null (key : string) (metadata : list (string * json)) : json :=
  match lookup key metadata with Some v => v | None => JNull end.

Definition _update_index (version_name : string) (metadata : list (string * json)) : M unit :=
  present <- exists_file IndexFile ;;
  index <- (if present then load_json IndexFile
            else created_at <- get_timestamp ;;
                 ret (JObj [("versions", JArr []); ("created_at", JStr created_at)])) ;;
  let version_entry :=
    JObj [("version", JStr version_name);
          ("created_at", get_or_null "created_at" metadata);
          ("row_count", get_or_null "row_count" metadata);
          ("column_count", get_or_null "column_count" metadata);
          ("quality_score", get_or_null "quality_score" metadata);
          ("file_hash", get_or_null "file_hash" metadata)] in
  index <- lift (append_under "versions" version_entry index) ;;
  last_updated <- get_timestamp ;;
  index <- lift (match index with
                 | JObj members => Ok (JObj (store "last_updated" (JStr last_updated) members))
                 | _ => Err TypeError
                 end) ;;
  save_json index IndexFile ;;;
  logger_info ("Updated versions index with " ++ version_name).

Definition _set_current_version (version_name : string) : M unit :=
  write_text_file version_name CurrentVersionFile ;;;
  logger_info ("Set current version to " ++ version_name).

Definition get_current_version : M (option string) :=
  present <- exists_file CurrentVersionFile ;;
  if negb present then ret None
  else content <- read_text_file CurrentVersionFile ;;
       ret (Some (Py.strip content)).

(** [list.sort(key=...)]: the keys are computed first, then the items are
    sorted on them, items with equal keys keeping their order. *)
Fixpoint insert_by_key {A} (k : Z) (x : A) (l : list (Z * A)) : list (Z * A) :=
  match l with
  | [] => [(k, x)]
  | (k', y) :: rest =>
      if (k <? k')%Z then (k, x) :: l else (k', y) :: insert_by_key k x rest
  end.

Fixpoint decorate {A} (key : A -> Result Z) (l : list A) : Result (list (Z * A)) :=
  match l with
  | [] => Ok []
  | x :: rest =>
      match key x with
      | Err e => Err e
      | Ok k =>
          match decorate key rest with
          | Err e => Err e
          | Ok d => Ok ((k, x) :: d)
          end
      end
  end.

Definition sort_by_key {A} (key : A -> Result Z) (l : list A) : Result (list A) :=
  match decorate key l with
  | Err e => Err e
  | Ok d => Ok (map snd (fold_left (fun acc kx => insert_by_key (fst kx) (snd kx) acc) d []))
  end.

(** [lambda x: int(x[1:])] *)
Definition version_key (x : string) : Result Z :=
  match Py.int (Py.tail1 x) with
  | Some n => Ok n
  | None => Err (ValueError "invalid literal for int() with base 10")
  end.

(** The [for item in os.listdir(self.versions_dir)] loop of [get_all_versions]. *)
Fixpoint version_items (entries : list (string * Node)) : list string :=
  match entries with
  | [] => []
  | (item, node) :: rest =>
      if Py.startswith "v" item && isdir node then
        match Py.int (Py.tail1 item) with
        | Some _ => item :: version_items rest
        | None => version_items rest
        end
      else version_items rest
  end.

Definition get_all_versions : M (list string) :=
  w <- read (fun w => w) ;;
  match versions_dir w with
  | None => ret []
  | Some entries => lift (sort_by_key version_key (version_items entries))
  end.

Definition get_version_metadata (version_name : string) : M json :=
  present <- exists_file (InVersion version_name "metadata.json") ;;
  if negb present then
    logger_error ("Metadata file not found for " ++ version_name) None ;;;
    raise (FileNotFoundError ("Metadata file not found for " ++ version_name))
  else load_json (InVersion version_name "metadata.json").

(** The first file of the directory whose name ends with [.csv]. *)
Fixpoint first_csv (files : list (string * File)) : option string :=
  match files with
  | [] => None
  | (file, _) :: rest => if Py.endswith ".csv" file then Some file else first_csv rest
  end.

Definition get_version_dataset_path (version_name : string) : M Path :=
  w <- read (fun w => w) ;;
  let version_path := path_join (storage_versions_dir (config self)) version_name in
  match match versions_dir w with
        | Some entries => lookup version_name entries
        | None => None
        end with
  | None =>
      logger_error ("Version directory not found: " ++ version_path) None ;;;
      raise (FileNotFoundError ("Version directory not found: " ++ version_path))
  | Some (NFile _) => raise NotADirectoryError
  | Some (NDir files) =>
      match first_csv files with
      | Some file => ret (InVersion version_name file)
      | None => raise (FileNotFoundError ("No dataset file found in " ++ version_path))
      end
  end.

(** [0 <= quality_score <= 100] *)
Definition quality_in_range (q : Q) : bool :=
  (Qle_bool 0 q && Qle_bool q 100)%Q.

Definition create_version (input_file : string) (quality_score : option Q) : M string :=
  present <- exists_file (Outside input_file) ;;
  if negb present then
    logger_error ("Input file not found: " ++ input_file) None ;;;
    raise (FileNotFoundError ("Input file not found: " ++ input_file))
  else if match quality_score with Some q => negb (quality_in_range q) | None => false end then
    logger_error "Invalid quality score: " None ;;;
    raise (ValueError "Quality score must be between 0 and 100")
  else
    version_number <- get_next_version_number ;;
    let version_name := ("v" ++ Py.str_of_int version_number)%string in
    ensure_directory version_name ;;;
    let dataset_filename := basename input_file in
    let versioned_dataset_path := InVersion version_name dataset_filename in
    copy2 (Outside input_file) versioned_dataset_path ;;;
    logger_info ("Copied dataset to " ++ path_str versioned_dataset_path) ;;;
    metadata <- _generate_metadata version_name versioned_dataset_path
                                   input_file quality_score ;;
    save_json (JObj metadata) (InVersion version_name "metadata.json") ;;;
    logger_info ("Created metadata for " ++ version_name) ;;;
    _update_index version_name metadata ;;;
    _set_current_version version_name ;;;
    logger_info ("Version '" ++ version_name ++ "' created successfully") ;;;
    ret version_name.

(* ----------------------------------------------------------------- *)
(** *** comparison.py

    The comparator reads metadata with the types [create_version] writes:
    an integer [row_count], a list of strings [columns], an object of
    strings [data_types].  On a document with other types in these fields
    the embedding raises [TypeError]; Python's dynamic typing gives some
    of those documents a meaning, which is not represented. *)

Record RowCountComparison := {
  version1_row_count : Z;
  version2_row_count : Z;
  difference : Z;
  percentage_change : Percentage;
  direction : string
}.

Record ColumnComparison := {
  version1_column_count : nat;
  version2_column_count : nat;
  added_columns : list string;
  removed_columns : list string;
  common_columns : list string;
  columns_added_count : nat;
  columns_removed_count : nat
}.

Record DataTypeComparison := {
  changed_columns : list (string * (string * string));  (* column, version1_type, version2_type *)
  total_changes : nat
}.

Record SampleDataComparison := {
  version1_sample : list DictRow;
  version2_sample : list DictRow;
  sample_size : Z
}.

Record Summary := {
  total_differences : nat;
  key_changes : list string
}.

Record Comparison := {
  comparison_timestamp : string;
  version1 : string;
  version2 : string;
  version1_created_at : json;
  version2_created_at : json;
  row_count_comparison : option RowCountComparison;
  column_comparison : option ColumnComparison;
  data_type_comparison : option DataTypeComparison;
  sample_data_comparison : option SampleDataComparison
}.

(** [metadata.get(key, default)] on a loaded document. *)
Definition metadata_get (key : string) (default : json) (metadata : json) : Result json :=
  match metadata with
  | JObj members =>
      Ok (match lookup key members with Some v => v | None => default end)
  | _ => Err AttributeError
  end.

Definition as_int (v : json) : Result Z :=
  match v with JInt n => Ok n | _ => Err TypeError end.

Fixpoint as_strings (items : list json) : Result (list string) :=
  match items with
  | [] => Ok []
  | JStr s :: rest =>
      match as_strings rest with
      | Ok l => Ok (s :: l)
      | Err e => Err e
      end
  | _ => Err TypeError
  end.

Definition as_string_list (v : json) : Result (list string) :=
  match v with JArr items => as_strings items | _ => Err TypeError end.

Fixpoint as_string_dict (members : list (string * json)) : Result (list (string * string)) :=
  match members with
  | [] => Ok []
  | (k, JStr s) :: rest =>
      match as_string_dict rest with
      | Ok l => Ok ((k, s) :: l)
      | Err e => Err e
      end
  | _ => Err TypeError
  end.

Definition as_type_map (v : json) : Result (list (string * string)) :=
  match v with JObj members => as_string_dict members | _ => Err TypeError end.

Definition rbind {A B} (r : Result A) (k : A -> Result B) : Result B :=
  match r with Ok a => k a | Err e => Err e end.

Definition _compare_row_counts (metadata1 metadata2 : json) : Result RowCountComparison :=
  rbind (rbind (metadata_get "row_count" (JInt 0) metadata1) as_int) (fun row_count1 =>
  rbind (rbind (metadata_get "row_count" (JInt 0) metadata2) as_int) (fun row_count2 =>
  let difference := (row_count2 - row_count1)%Z in
  let percentage_change :=
    if (0 <? row_count1)%Z then PctRound2 difference row_count1 else PctZero in
  Ok {| version1_row_count := row_count1;
        version2_row_count := row_count2;
        difference := difference;
        percentage_change := percentage_change;
        direction := if (0 <? difference)%Z then "increase"
                     else if (difference <? 0)%Z then "decrease"
                     else "no change" |})).

(** [set(l)]: the distinct elements (a Python set has no order; the order
    of first occurrence is used). *)
Fixpoint py_set (l : list string) : list string :=
  match l with
  | [] => []
  | x :: rest => x :: filter (fun y => negb (String.eqb x y)) (py_set rest)
  end.

(** [a - b] and [a & b] on sets *)
Definition set_diff (a b : list string) : list string :=
  filter (fun x => negb (Py.str_in x b)) a.
Definition set_inter (a b : list string) : list string :=
  filter (fun x => Py.str_in x b) a.

Definition _compare_columns (metadata1 metadata2 : json) : Result ColumnComparison :=
  rbind (rbind (metadata_get "columns" (JArr []) metadata1) as_string_list) (fun l1 =>
  rbind (rbind (metadata_get "columns" (JArr []) metadata2) as_string_list) (fun l2 =>
  let columns1 := py_set l1 in
  let columns2 := py_set l2 in
  let added_columns := set_diff columns2 columns1 in
  let removed_columns := set_diff columns1 columns2 in
  let common_columns := set_inter columns1 columns2 in
  Ok {| version1_column_count := List.length columns1;
        version2_column_count := List.length columns2;
        added_columns := added_columns;
        removed_columns := removed_columns;
        common_columns := common_columns;
        columns_added_count := List.length added_columns;
        columns_removed_count := List.length removed_columns |})).

(** The [for column in types1] loop. *)
Fixpoint changed_types_loop (types1 types2 : list (string * string))
  (changed_types : list (string * (string * string))) : list (string * (string * string)) :=
  match types1 with
  | [] => changed_types
  | (column, t1) :: rest =>
      changed_types_loop rest types2
        (match dict_get String.eqb column types2 with
         | Some t2 =>
             if negb (String.eqb t1 t2)
             then dict_set String.eqb column (t1, t2) changed_types
             else changed_types
         | None => changed_types
         end)
  end.

Definition _compare_data_types (metadata1 metadata2 : json) : Result DataTypeComparison :=
  rbind (rbind (metadata_get "data_types" (JObj []) metadata1) as_type_map) (fun types1 =>
  rbind (rbind (metadata_get "data_types" (JObj []) metadata2) as_type_map) (fun types2 =>
  let changed_types := changed_types_loop types1 types2 [] in
  Ok {| changed_columns := changed_types;
        total_changes := List.length changed_types |})).

(** The [for i, row in enumerate(reader)] loop of [_read_csv_sample]: the
    rows appended before an exception stay in [sample]. *)
Fixpoint sample_loop (sample_size i : Z) (reader : Csv.Iter DictRow)
  : list DictRow * option Exn :=
  match reader with
  | Csv.Stop => ([], None)
  | Csv.Raise => ([], Some CsvError)
  | Csv.Yield row rest =>
      if (sample_size <=? i)%Z then ([], None)
      else let (sample, e) := sample_loop sample_size (i + 1)%Z rest in
           (row :: sample, e)
  end.

Definition _read_csv_sample (csv_path : Path) (sample_size : Z) : M (list DictRow) :=
  f <- read (file_at csv_path) ;;
  match f with
  | None =>
      logger_warning "Error reading CSV sample: "
                     (Some (FileNotFoundError (path_str csv_path))) ;;;
      ret []
  | Some f =>
      match sample_loop sample_size 0%Z (DictReader (file_text f)) with
      | (sample, None) => ret sample
      | (sample, Some e) =>
          logger_warning "Error reading CSV sample: " (Some e) ;;;
          ret sample
      end
  end.

Definition _compare_sample_data (dataset_path1 dataset_path2 : Path) : M SampleDataComparison :=
  let sample_size := comparison_sample_size (config self) in
  sample1 <- _read_csv_sample dataset_path1 sample_size ;;
  sample2 <- _read_csv_sample dataset_path2 sample_size ;;
  ret {| version1_sample := sample1;
         version2_sample := sample2;
         sample_size := sample_size |}.

(** [_generate_summary]: the dictionary is threaded through the four
    [if] blocks. *)
Definition count_change (cond : bool) (text : string) (summary : Summary) : Summary :=
  if cond then {| total_differences := total_differences summary + 1;
                  key_changes := key_changes summary ++ [text] |}
  else summary.

Definition _generate_summary (comparison : Comparison) : Summary :=
  let summary := {| total_differences := 0; key_changes := [] |} in
  let summary :=
    match row_count_comparison comparison with
    | Some rc =>
        count_change (negb (difference rc =? 0)%Z)
          ("Row count changed by " ++ Py.str_of_int (difference rc) ++ " ("
           ++ (str_of_percentage self) (percentage_change rc) ++ "%)") summary
    | None => summary
    end in
  let summary :=
    match column_comparison comparison with
    | Some col_comp =>
        count_change (0 <? columns_removed_count col_comp)%nat
          (Py.str_of_int (Z.of_nat (columns_removed_count col_comp)) ++ " columns removed")
          (count_change (0 <? columns_added_count col_comp)%nat
             (Py.str_of_int (Z.of_nat (columns_added_count col_comp)) ++ " columns added")
             summary)
    | None => summary
    end in
  let summary :=
    match data_type_comparison comparison with
    | Some dt =>
        count_change (0 <? total_changes dt)%nat
          (Py.str_of_int (Z.of_nat (total_changes dt)) ++ " data types changed") summary
    | None => summary
    end in
  if (total_differences summary =? 0)%nat
  then {| total_differences := total_differences summary;
          key_changes := key_changes summary ++ ["No significant differences found"] |}
  else summary.

(** [if cond: comparison[key] = f(...)] *)
Definition when {A} (cond : bool) (m : M A) : M (option A) :=
  if cond then (a <- m ;; ret (Some a)) else ret None.

Definition compare_versions (version1 version2 : string) : M (Comparison * Summary) :=
  logger_info ("Comparing versions " ++ version1 ++ " and " ++ version2) ;;;
  metadata1 <- get_version_metadata version1 ;;
  metadata2 <- get_version_metadata version2 ;;
  dataset_path1 <- get_version_dataset_path version1 ;;
  dataset_path2 <- get_version_dataset_path version2 ;;
  timestamp <- get_timestamp ;;
  created1 <- lift (metadata_get "created_at" JNull metadata1) ;;
  created2 <- lift (metadata_get "created_at" JNull metadata2) ;;
  rc <- when (comparison_compare_row_count (config self))
             (lift (_compare_row_counts metadata1 metadata2)) ;;
  cc <- when (comparison_compare_columns (config self))
             (lift (_compare_columns metadata1 metadata2)) ;;
  dt <- when (comparison_compare_data_types (config self))
             (lift (_compare_data_types metadata1 metadata2)) ;;
  sd <- when (comparison_include_sample_data (config self))
             (_compare_sample_data dataset_path1 dataset_path2) ;;
  let comparison :=
    {| comparison_timestamp := timestamp;
       version1 := version1;
       version2 := version2;
       version1_created_at := created1;
       version2_created_at := created2;
       row_count_comparison := rc;
       column_comparison := cc;
       data_type_comparison := dt;
       sample_data_comparison := sd |} in
  let summary := _generate_summary comparison in
  logger_info ("Comparison complete for " ++ version1 ++ " and " ++ version2) ;;;
  ret (comparison, summary).

(* ----------------------------------------------------------------- *)
(** *** rollback.py *)

(** [metadata["backups"]] is created when absent, then appended to. *)
Definition add_backup (backup_info : json) (metadata : json) : Result json :=
  match metadata with
  | JObj members =>
      let members :=
        if negb (dict_has String.eqb "backups" members)
        then store "backups" (JArr []) members else members in
      append_under "backups" backup_info (JObj members)
  | _ => Err TypeError
  end.

Definition _create_rollback_backup (version_name : option string) : M unit :=
  try_except
    (backup_timestamp <- get_timestamp ;;
     let backup_info :=
       JObj [("backup_timestamp", JStr backup_timestamp);
             ("backed_up_version", json_opt version_name);
             ("reason", JStr "Pre-rollback backup")] in
     (* os.path.join(versions_dir, None, "metadata.json") raises TypeError *)
     name <- lift (match version_name with Some v => Ok v | None => Err TypeError end) ;;
     let metadata_file := InVersion name "metadata.json" in
     present <- exists_file metadata_file ;;
     (if present then
        metadata <- load_json metadata_file ;;
        metadata <- lift (add_backup backup_info metadata) ;;
        save_json metadata metadata_file
      else ret tt) ;;;
     logger_info ("Created backup for " ++ str_opt version_name))
    (fun e => logger_warning "Failed to create backup: " (Some e)).

Definition _log_rollback_event (from_version : option string) (to_version : string) : M unit :=
  try_except
    (present <- exists_file RollbackLog ;;
     rollback_history <- (if present then load_json RollbackLog
                          else ret (JObj [("rollbacks", JArr [])])) ;;
     timestamp <- get_timestamp ;;
     let rollback_event :=
       JObj [("timestamp", JStr timestamp);
             ("from_version", json_opt from_version);
             ("to_version", JStr to_version)] in
     rollback_history <- lift (append_under "rollbacks" rollback_event rollback_history) ;;
     save_json rollback_history RollbackLog ;;;
     logger_info ("Logged rollback event: " ++ str_opt from_version ++ " -> " ++ to_version))
    (fun e => logger_warning "Failed to log rollback event: " (Some e)).

Definition rollback_to_version (target_version : string) (create_backup : bool) : M bool :=
  all_versions <- get_all_versions ;;
  if negb (Py.str_in target_version all_versions) then
    logger_error ("Target version '" ++ target_version ++ "' does not exist") None ;;;
    raise (FileNotFoundError ("Target version '" ++ target_version ++ "' does not exist"))
  else
    current_version <- get_current_version ;;
    if match current_version with
       | Some c => String.eqb c target_version
       | None => false
       end
    then
      logger_warning ("Already at version " ++ target_version) None ;;;
      raise (ValueError ("Already at version " ++ target_version))
    else
      logger_info ("Starting rollback from " ++ str_opt current_version
                   ++ " to " ++ target_version) ;;;
      (if create_backup && version_management_backup_before_rollback (config self)
       then _create_rollback_backup current_version
       else ret tt) ;;;
      _set_current_version target_version ;;;
      _log_rollback_event current_version target_version ;;;
      logger_info ("Successfully rolled back to " ++ target_version) ;;;
      ret true.

(** [get_rollback_history]: whatever is stored under ["rollbacks"]. *)
Definition get_rollback_history : M json :=
  try_except
    (present <- exists_file RollbackLog ;;
     if present then
       history <- load_json RollbackLog ;;
       lift (metadata_get "rollbacks" (JArr []) history)
     else ret (JArr []))
    (fun e =>
       logger_error "Failed to read rollback history: " (Some e) ;;;
       ret (JArr [])).

Definition get_version_history : M json :=
  try_except
    (present <- exists_file IndexFile ;;
     if present then
       index <- load_json IndexFile ;;
       lift (metadata_get "versions" (JArr []) index)
     else ret (JArr []))
    (fun e =>
       logger_error "Failed to read version history: " (Some e) ;;;
       ret (JArr [])).

Definition is_safe_to_rollback (target_version : string) : M (bool * string) :=
  all_versions <- get_all_versions ;;
  if negb (Py.str_in target_version all_versions) then
    ret (false, ("Version '" ++ target_version ++ "' does not exist")%string)
  else
    current_version <- get_current_version ;;
    if match current_version with
       | Some c => String.eqb c target_version
       | None => false
       end
    then ret (false, ("Already at version " ++ target_version)%string)
    else
      present <- exists_file (InVersion target_version "metadata.json") ;;
      if negb present
      then ret (false, ("Metadata file not found for " ++ target_version)%string)
      else ret (true, "Safe to rollback").

End System.

(* ================================================================= *)
(** * Notions used to state the properties *)

(** What [os.listdir(versions_dir)] gives; nothing when the directory does
    not exist. *)
Definition listdir (w : World) : list (string * Node) :=
  match versions_dir w with Some entries => entries | None => [] end.

(** The naming pattern of versions: [v] followed by an integer literal. *)
Definition version_pattern (name : string) : bool :=
  Py.startswith "v" name
  && match Py.int (Py.tail1 name) with Some _ => true | None => false end.

(** The integer after the [v] of a version name. *)
Definition version_number (name : string) : Z :=
  match Py.int (Py.tail1 name) with Some n => n | None => 0%Z end.

(** The entries of the listing that are directories named as versions. *)
Definition version_directories (entries : list (string * Node)) : list string :=
  map fst (filter (fun e => isdir (snd e) && version_pattern (fst e)) entries).

Definition numerically_le (a b : string) : Prop :=
  (version_number a <= version_number b)%Z.

(** A state in which only the versions directory holds something. *)
Definition world_with_listing (entries : list (string * Node)) : World :=
  {| outside := []; versions_dir := Some entries; index_file := None;
     current_version_file := None; rollback_log_file := None;
     clock := fun _ => EmptyString; ticks := 0; logged := [] |}.

Definition empty_dir (name : string) : string * Node := (name, NDir []).

(** The number [get_next_version_number] computes from a listing. *)
Definition next_number (entries : list (string * Node)) : Z :=
  match existing_version_numbers entries with
  | [] => 1%Z
  | x :: l => (py_max x l + 1)%Z
  end.

(** Two states with the same files (they may differ in clock and log). *)
Definition same_files (w w' : World) : Prop :=
  persisted w' = persisted w /\ outside w' = outside w.

(** The dictionary [_generate_metadata] builds for a dataset whose text is
    [text], when the clock reads [created_at]. *)
Definition metadata_for (self : System) (version_name : string) (dataset_path : Path)
  (source_file : string) (quality_score : option Q) (text created_at : string)
  : list (string * json) :=
  let metadata := [("version", JStr version_name);
                   ("created_at", JStr created_at);
                   ("source_file", JStr source_file)] in
  let metadata :=
    if Py.endswith ".csv" (path_str self dataset_path) then
      let '(row_count, columns, _) := analyze_rows (Csv.reader text) in
      let metadata :=
        set_if (metadata_include_row_count (config self)) "row_count"
               (JInt (Z.of_nat row_count)) metadata in
      let metadata :=
        set_if (metadata_include_columns (config self)) "column_count"
               (JInt (Z.of_nat (List.length columns)))
          (set_if (metadata_include_columns (config self)) "columns"
                  (JArr (map JStr columns)) metadata) in
      if metadata_include_data_types (config self)
      then store "data_types"
                 (JObj (fst (infer_from_rows columns (DictReader text)))) metadata
      else metadata
    else metadata in
  let metadata :=
    if metadata_include_file_hash (config self)
    then store "file_hash" (JStr (sha256_hexdigest self text)) metadata
    else metadata in
  let metadata :=
    if metadata_include_file_size (config self)
    then store "file_size_bytes" (JInt (Z.of_nat (String.length text))) metadata
    else metadata in
  match quality_score with
  | Some q => store "quality_score" (JFloat q) metadata
  | None => metadata
  end.

(** A JSON document to whose list under [key] an entry can be appended. *)
Definition appendable (key : string) (f : option File) : bool :=
  match f with
  | None => true
  | Some (FJson (JObj members)) =>
      match lookup key members with Some (JArr _) => true | _ => false end
  | Some _ => false
  end.


(** An instance of the shared parameters and a configuration with every
    option switched on, to run the system on concrete states. *)
Definition sample_config : Config :=
  {| storage_versions_dir := "versions";
     storage_index_file := "versions/index.json";
     storage_current_version_file := "versions/current_version.txt";
     storage_logs_dir := "logs";
     metadata_include_row_count := true;
     metadata_include_columns := true;
     metadata_include_data_types := true;
     metadata_include_file_hash := true;
     metadata_include_file_size := true;
     comparison_compare_row_count := true;
     comparison_compare_columns := true;
     comparison_compare_data_types := true;
     comparison_include_sample_data := true;
     comparison_sample_size := 5;
     version_management_backup_before_rollback := true |}.

Definition sample_system : System :=
  {| config := sample_config;
     sha256_hexdigest := fun _ => "0000";
     json_dumps := fun _ => "{}";
     str_of_percentage := fun _ => "0.0";
     os_path_exists := fun _ _ => false |}.

Definition line (s : string) : string := (s ++ String Csv.LF "")%string.

(** A state with one input file and nothing else. *)
Definition world_with_input (path text : string) : World :=
  {| outside := [(path, text)]; versions_dir := None; index_file := None;
     current_version_file := None; rollback_log_file := None;
     clock := fun n => ("T" ++ Py.str_of_int (Z.of_nat n))%string;
     ticks := 0; logged := [] |}.






(** The first [n] rows a reader yields. *)
Fixpoint first_rows {A} (n : nat) (reader : Csv.Iter A) : list A :=
  match n, reader with
  | S n', Csv.Yield row rest => row :: first_rows n' rest
  | _, _ => []
  end.

(** The records a reader yields when it is read to the end without
    raising. *)
Fixpoint records_read {A} (reader : Csv.Iter A) : option (list A) :=
  match reader with
  | Csv.Stop => Some []
  | Csv.Raise => None
  | Csv.Yield row rest => option_map (cons row) (records_read rest)
  end.


(** A text of [n] times the character [c]. *)
Fixpoint repeat_char (c : ascii) (n : nat) : string :=
  match n with O => EmptyString | S n' => String c (repeat_char c n') end.

(** The header the analysis has read when it stops. *)
Definition header_read (rows : Csv.Rows) : list string :=
  match rows with Csv.Yield header _ => header | _ => [] end.

(** The record a line makes on its own: the parser, started on the line,
    is back at the start of a record at its end. *)
Definition initial_reader : Csv.Reader :=
  {| Csv.state := Csv.START_RECORD; Csv.fields := []; Csv.field := [];
     Csv.field_len := 0 |}.

Definition line_record (l : string) : option (list string) :=
  match Csv.feed_chars initial_reader l with
  | Some r =>
      match Csv.state r with
      | Csv.START_RECORD => Some (Csv.fields r)
      | _ => None
      end
  | None => None
  end.

Definition complete_lines (text : string) : Prop :=
  Forall (fun l => line_record l <> None) (Csv.file_lines text).

Fixpoint rows_of (records : list (option (list string))) : Csv.Rows :=
  match records with
  | [] => Csv.Stop
  | Some r :: rest => Csv.Yield r (rows_of rest)
  | None :: rest => Csv.Raise
  end.

(** A CSV file whose second record has a field one character beyond
    [csv.field_size_limit()]. *)
Definition oversize_text : string :=
  (line "a,b" ++ line (repeat_char "x" (N.to_nat 131073)))%string.

(** What [get_current_version] reads: the text of the marker, its line
    endings translated by the reading, stripped. *)
Definition current_version (w : World) : option string :=
  option_map (fun content => Py.strip (Csv.universal_newlines content))
             (current_version_file w).

(** The list under [key] of a JSON document; empty when there is none. *)
Definition list_under (key : string) (j : json) : list json :=
  match j with
  | JObj members =>
      match lookup key members with
      | Some (JArr items) => items
      | _ => []
      end
  | _ => []
  end.

(** The rollback events recorded in the log file. *)
Definition recorded_rollbacks (w : World) : list json :=
  match rollback_log_file w with
  | Some (FJson j) => list_under "rollbacks" j
  | _ => []
  end.

(** The backup annotations in the metadata of a version. *)
Definition recorded_backups (version : string) (w : World) : list json :=
  match file_at (InVersion version "metadata.json") w with
  | Some (FJson j) => list_under "backups" j
  | _ => []
  end.

(** The metadata of a version can take a backup annotation: it is a JSON
    object whose [backups], if present, is a list. *)
Definition annotatable (version : string) (w : World) : bool :=
  match file_at (InVersion version "metadata.json") w with
  | Some (FJson (JObj members)) =>
      match lookup "backups" members with
      | None | Some (JArr _) => true
      | Some _ => false
      end
  | _ => false
  end.

Definition rollback_event (timestamp : string) (from_version : option string)
  (to_version : string) : json :=
  JObj [("timestamp", JStr timestamp);
        ("from_version", json_opt from_version);
        ("to_version", JStr to_version)].

Definition backup_info (timestamp : string) (version : option string) : json :=
  JObj [("backup_timestamp", JStr timestamp);
        ("backed_up_version", json_opt version);
        ("reason", JStr "Pre-rollback backup")].

Definition is_list (j : json) : bool :=
  match j with JArr _ => true | _ => false end.

(** What [get_rollback_history] returns for a log file. *)
Definition stored_history (f : option File) : json :=
  match f with
  | Some (FJson (JObj members)) =>
      match lookup "rollbacks" members with
      | Some v => v
      | None => JArr []
      end
  | _ => JArr []
  end.

(** Two versions with minimal metadata, the second one current, and a
    given rollback log. *)
Definition two_versions (log : option File) : World :=
  {| outside := [];
     versions_dir :=
       Some [("v1", NDir [("data.csv", FText (line "id" ++ line "1"));
                          ("metadata.json", FJson (JObj [("version", JStr "v1")]))]);
             ("v2", NDir [("data.csv", FText (line "id" ++ line "1" ++ line "2"));
                          ("metadata.json", FJson (JObj [("version", JStr "v2")]))])];
     index_file := None;
     current_version_file := Some "v2";
     rollback_log_file := log;
     clock := fun n => ("T" ++ Py.str_of_int (Z.of_nat n))%string;
     ticks := 0; logged := [] |}.

(** Metadata with the types [create_version] writes in the fields the
    comparator reads, each key of [data_types] occurring once. *)
Definition well_typed_metadata (metadata : json) : Prop :=
  (exists row_count,
     rbind (metadata_get "row_count" (JInt 0) metadata) as_int = Ok row_count) /\
  (exists columns,
     rbind (metadata_get "columns" (JArr []) metadata) as_string_list = Ok columns) /\
  (exists types,
     rbind (metadata_get "data_types" (JObj []) metadata) as_type_map = Ok types /\
     NoDup (map fst types)).

(** A dictionary of strings in which each key occurs once. *)
Definition string_dict (d : list (string * json)) : Prop :=
  NoDup (map fst d) /\ Forall (fun kv => exists s, snd kv = JStr s) d.

(** The state after one [create_version] on a small file. *)
Definition one_version : World :=
  Eval vm_compute in
    snd (create_version sample_system "data/sales.csv" None
           (world_with_input "data/sales.csv"
              (line "id,amount" ++ line "1,10" ++ line "2,2.5"))).

(** Order of the decorated items of a sort. *)
Definition key_le {A} (a b : Z * A) : Prop := (fst a <= fst b)%Z.

(** ** Notions for the further properties *)

(** The entry [_update_index] appends to the index for a version with this
    metadata. *)
Definition index_entry (version_name : string) (metadata : list (string * json)) : json :=
  JObj [("version", JStr version_name);
        ("created_at", get_or_null "created_at" metadata);
        ("row_count", get_or_null "row_count" metadata);
        ("column_count", get_or_null "column_count" metadata);
        ("quality_score", get_or_null "quality_score" metadata);
        ("file_hash", get_or_null "file_hash" metadata)].

(** The entries of the index file. *)
Definition indexed_versions (w : World) : list json :=
  match index_file w with
  | Some (FJson j) => list_under "versions" j
  | _ => []
  end.

(** What the marker file gives back for a name written to it: the line
    endings translated to LF by the reading, the white space around
    stripped. *)
Definition read_back (name : string) : string :=
  Py.strip (Csv.universal_newlines name).

(** The versions directory of [w'] is that of [w], but for the metadata
    file of [version], which may have been rewritten with another list
    under [backups]. *)
Definition metadata_rewritten (version : option string) (w w' : World) : Prop :=
  versions_dir w' = versions_dir w \/
  exists v entries files members backups,
    version = Some v /\
    versions_dir w = Some entries /\
    lookup v entries = Some (NDir files) /\
    lookup "metadata.json" files = Some (FJson (JObj members)) /\
    versions_dir w'
    = Some (store v (NDir (store "metadata.json"
                             (FJson (JObj (store "backups" (JArr backups) members)))
                             files)) entries).

(** A computation that leaves every file as it is, whether it returns or
    raises; it may read the clock and log. *)
Definition read_only {A} (m : M A) : Prop :=
  forall w, same_files w (snd (m w)).

(** The fields of the metadata as the comparator reads them, with the
    defaults of [metadata.get]. *)
Definition row_count_of (metadata : json) : Result Z :=
  rbind (metadata_get "row_count" (JInt 0) metadata) as_int.

Definition columns_of (metadata : json) : Result (list string) :=
  rbind (metadata_get "columns" (JArr []) metadata) as_string_list.

Definition data_types_of (metadata : json) : Result (list (string * string)) :=
  rbind (metadata_get "data_types" (JObj []) metadata) as_type_map.

(** The lines [_generate_summary] writes for a report, in order. *)
Definition change_lines (self : System) (c : Comparison) : list string :=
  match row_count_comparison c with
  | Some rc =>
      if (difference rc =? 0)%Z then []
      else [("Row count changed by " ++ Py.str_of_int (difference rc) ++ " ("
             ++ str_of_percentage self (percentage_change rc) ++ "%)")%string]
  | None => []
  end ++
  match column_comparison c with
  | Some cc =>
      (if (0 <? columns_added_count cc)%nat
       then [(Py.str_of_int (Z.of_nat (columns_added_count cc)) ++ " columns added")%string]
       else []) ++
      (if (0 <? columns_removed_count cc)%nat
       then [(Py.str_of_int (Z.of_nat (columns_removed_count cc)) ++ " columns removed")%string]
       else [])
  | None => []
  end ++
  match data_type_comparison c with
  | Some dt =>
      if (0 <? total_changes dt)%nat
      then [(Py.str_of_int (Z.of_nat (total_changes dt)) ++ " data types changed")%string]
      else []
  | None => []
  end.

(** The change of type of one column between two type maps, if any. *)
Definition type_change (types2 : list (string * string)) (entry : string * string)
  : list (string * (string * string)) :=
  match dict_get String.eqb (fst entry) types2 with
  | Some t2 => if String.eqb (snd entry) t2 then [] else [(fst entry, (snd entry, t2))]
  | None => []
  end.

(* ================================================================= *)
(** * Properties *)

(** ** The library functions on examples, checked against CPython 3.11 *)

Example int_examples :
  Py.int "42" = Some 42%Z /\ Py.int " -7 " = Some (-7)%Z /\
  Py.int "1_000" = Some 1000%Z /\ Py.int "007" = Some 7%Z /\
  Py.int "" = None /\ Py.int "1.0" = None /\ Py.int "1__0" = None /\
  Py.int "_1" = None /\ Py.int "1_" = None /\ Py.int "+ 1" = None /\
  Py.int "x" = None /\ Py.str_of_int 10 = "10" /\ Py.str_of_int (-3) = "-3" /\ Py.str_of_int 0 = "0".
Proof. repeat split; reflexivity. Qed.

Example float_examples :
  map Py.float_ok ["1.5"; "2.0"; "1."; ".5"; "1e5"; "1.e5"; " -1_0.2_5E+1_0 "; "inf"; "-Infinity"; "NaN"; "7"; "+.5e-3"; "-nan"]
    = repeat true 13 /\
  map Py.float_ok [""; "."; ".e5"; "1_.5"; "1._5"; "1e"; "1e+"; "1e5x"; "x"; "1.5.2"; "- 1"; "1 2"; "in f"; "true"; "1_e5"; "1e_5"; "infinit"]
    = repeat false 17.
Proof. split; reflexivity. Qed.

Example reader_examples :
  let nl := String Csv.LF "" in
  let q := String Csv.quotechar "" in
  Csv.reader "" = Csv.Stop /\
  Csv.reader ("a,b" ++ nl ++ "1,2" ++ nl)%string = Csv.Row ["a"; "b"] (Csv.Row ["1"; "2"] Csv.Stop) /\
  Csv.reader ("a,b" ++ nl ++ "1,2")%string = Csv.Row ["a"; "b"] (Csv.Row ["1"; "2"] Csv.Stop) /\
  Csv.reader ("a,b" ++ nl ++ nl ++ "1,2" ++ nl ++ nl)%string
    = Csv.Row ["a"; "b"] (Csv.Row [] (Csv.Row ["1"; "2"] (Csv.Row [] Csv.Stop))) /\
  Csv.reader ("a,b" ++ nl ++ q ++ "x" ++ nl ++ "y" ++ q ++ ",2" ++ nl)%string
    = Csv.Row ["a"; "b"] (Csv.Row [("x" ++ nl ++ "y")%string; "2"] Csv.Stop) /\
  Csv.reader ("a,b" ++ String Csv.CR nl ++ "1,2" ++ String Csv.CR "")%string
    = Csv.Row ["a"; "b"] (Csv.Row ["1"; "2"] Csv.Stop) /\
  Csv.reader (q ++ "a" ++ q ++ "b,c" ++ nl)%string = Csv.Row ["ab"; "c"] Csv.Stop /\
  Csv.reader (q ++ "a" ++ q ++ q ++ "b" ++ q ++ ",c" ++ nl)%string = Csv.Row [("a" ++ q ++ "b")%string; "c"] Csv.Stop /\
  Csv.reader ("," ++ nl)%string = Csv.Row [""; ""] Csv.Stop /\
  Csv.reader (q ++ nl)%string = Csv.Row [nl] Csv.Stop /\
  Csv.reader ("a,b" ++ nl ++ q ++ "x")%string = Csv.Row ["a"; "b"] (Csv.Row ["x"] Csv.Stop).
Proof. repeat split; reflexivity. Qed.

Example int_limit_examples :
  (exists n, Py.int_limited (repeat_char "1" 4300) = Some n) /\
  Py.int_limited (repeat_char "1" 4301) = None /\
  Py.int_limited (repeat_char "0" 4301) = None /\
  classify (Some (repeat_char "1" 4301)) = "string".
Proof. split; [eexists; vm_compute; reflexivity|]. repeat split; vm_compute; reflexivity. Qed.

(** The limit is out of reach of a text of at most 4300 characters, as
    the name of a directory entry is. *)
Lemma int_limited_short (s : string) :
  (String.length s <= Py.default_max_str_digits)%nat -> Py.int_limited s = Py.int s.
Proof.
  intros H. unfold Py.int_limited.
  assert (Hc : (Py.count_digits s <= String.length s)%nat).
  { clear H. induction s as [|c r IH]; simpl; [lia|].
    destruct (Py.isdigit c); lia. }
  destruct (Nat.leb_spec (Py.count_digits s) Py.default_max_str_digits); [reflexivity | lia].
Qed.

(** ** Python integers: [int(str(n)) = n] *)

Lemma rstrip_by_id (space : ascii -> bool) (s : string) :
  (forall c, Py.contains_char c s = true -> space c = false) ->
  Py.rstrip_by space s = s.
Proof.
  induction s as [|c r IH]; intros H; simpl; [reflexivity|].
  rewrite IH.
  - destruct r; [|reflexivity].
    rewrite (H c); [reflexivity|]. simpl. now rewrite Ascii.eqb_refl.
  - intros d Hd. apply H. simpl. rewrite Hd. apply orb_true_r.
Qed.

Lemma digits_of_uint (d : Decimal.uint) (c : ascii) :
  Py.contains_char c (NilEmpty.string_of_uint d) = true -> Py.isdigit c = true.
Proof.
  induction d; simpl; try discriminate;
    (intros H; apply orb_true_iff in H; destruct H as [H|H];
     [apply Ascii.eqb_eq in H; subst c; reflexivity | auto]).
Qed.

Lemma isdigit_not_space (c : ascii) :
  Py.isdigit c = true -> Py.isspace_c c = false.
Proof.
  unfold Py.isdigit, Py.isspace_c.
  intros H. apply andb_true_iff in H. destruct H as [H1 H2].
  apply Nat.leb_le in H1.
  apply orb_false_iff; split.
  - apply andb_false_iff. right. apply Nat.leb_gt. lia.
  - apply Nat.eqb_neq. lia.
Qed.

Lemma digitpart_cons (c0 c : ascii) (r : string) :
  c <> "_"%char ->
  Py.digitpart (String c0 (String c r)) = uint_of_char c0 (Py.digitpart (String c r)).
Proof.
  intros Hc.
  destruct c as [[|] [|] [|] [|] [|] [|] [|] [|]]; try reflexivity.
  now elim Hc.
Qed.

Lemma string_of_uint_head (d : Decimal.uint) :
  d <> Decimal.Nil ->
  exists c r, NilEmpty.string_of_uint d = String c r /\ c <> "_"%char
              /\ Py.isdigit c = true.
Proof.
  destruct d; intros Hd; try congruence; simpl;
    eexists; eexists; (split; [reflexivity | split; [discriminate | reflexivity]]).
Qed.

Lemma digitpart_of_uint (d : Decimal.uint) :
  d <> Decimal.Nil -> Py.digitpart (NilEmpty.string_of_uint d) = Some d.
Proof.
  induction d as [|d IH|d IH|d IH|d IH|d IH|d IH|d IH|d IH|d IH|d IH];
    intros Hd; try congruence;
    (destruct (Decimal.uint_eq_dec d Decimal.Nil) as [->|Hn];
     [ reflexivity
     | destruct (string_of_uint_head d Hn) as (c & r & E & Hc & _);
       cbn [NilEmpty.string_of_uint]; specialize (IH Hn); rewrite E in *;
       rewrite digitpart_cons by assumption; rewrite IH; reflexivity ]).
Qed.

Lemma int_of_digits (d : Decimal.uint) :
  d <> Decimal.Nil ->
  Py.int (NilEmpty.string_of_uint d) = Some (Z.of_uint d) /\
  Py.int (String "-" (NilEmpty.string_of_uint d)) = Some (- Z.of_uint d)%Z.
Proof.
  intros Hd.
  destruct (string_of_uint_head d Hd) as (c & r & E & Hc & Hdig).
  assert (Hns : forall s, Py.lstrip_by Py.isspace_c (String c s) = String c s).
  { intros s. simpl. now rewrite (isdigit_not_space c Hdig). }
  assert (Hr : Py.rstrip_by Py.isspace_c (NilEmpty.string_of_uint d)
               = NilEmpty.string_of_uint d).
  { apply rstrip_by_id. intros x Hx. apply isdigit_not_space.
    now apply digits_of_uint with d. }
  assert (Hsign : Py.split_sign (NilEmpty.string_of_uint d)
                  = (false, NilEmpty.string_of_uint d)).
  { rewrite E. unfold Py.split_sign.
    destruct c as [[|] [|] [|] [|] [|] [|] [|] [|]]; try reflexivity; discriminate. }
  split; unfold Py.int, Py.strip_by.
  - rewrite E, Hns, <- E, Hr, Hsign, digitpart_of_uint by assumption. reflexivity.
  - cbn [Py.lstrip_by]. change (Py.isspace_c "-") with false. cbv iota.
    rewrite rstrip_by_id.
    + cbn [Py.split_sign]. rewrite digitpart_of_uint by assumption. reflexivity.
    + intros x Hx. simpl in Hx. apply orb_true_iff in Hx. destruct Hx as [Hx|Hx].
      * apply Ascii.eqb_eq in Hx. subst x. reflexivity.
      * apply isdigit_not_space. now apply digits_of_uint with d.
Qed.

Lemma nilzero_nonnil (d : Decimal.uint) :
  d <> Decimal.Nil -> NilZero.string_of_uint d = NilEmpty.string_of_uint d.
Proof. destruct d; intros Hd; congruence || reflexivity. Qed.

(** [int(str(n)) == n] *)
Lemma int_str_of_int (n : Z) : Py.int (Py.str_of_int n) = Some n.
Proof.
  unfold Py.str_of_int.
  destruct n as [|p|p]; [reflexivity| |]; cbn [Z.to_int NilZero.string_of_int];
    assert (Hn := DecimalPos.Unsigned.to_uint_nonnil p);
    rewrite nilzero_nonnil by assumption.
  - rewrite (proj1 (int_of_digits _ Hn)). f_equal.
    unfold Z.of_uint. now rewrite DecimalPos.Unsigned.of_to.
  - rewrite (proj2 (int_of_digits _ Hn)). f_equal.
    unfold Z.of_uint. now rewrite DecimalPos.Unsigned.of_to.
Qed.

Lemma version_name_number (n : Z) :
  Py.startswith "v" ("v" ++ Py.str_of_int n) = true /\
  Py.int (Py.tail1 ("v" ++ Py.str_of_int n)) = Some n.
Proof.
  split; [|apply int_str_of_int].
  simpl. destruct (Py.str_of_int n); reflexivity.
Qed.

(** ** [list.sort(key=...)] sorts and permutes *)

Section SortByKey.
Context {A : Type}.

Lemma insert_by_key_perm (k : Z) (x : A) (l : list (Z * A)) :
  Permutation (insert_by_key k x l) ((k, x) :: l).
Proof.
  induction l as [|[k' y] l IH]; simpl; [reflexivity|].
  destruct (k <? k')%Z; [reflexivity|].
  rewrite IH. apply perm_swap.
Qed.

Lemma insert_by_key_sorted (k : Z) (x : A) (l : list (Z * A)) :
  StronglySorted key_le l -> StronglySorted key_le (insert_by_key k x l).
Proof.
  induction 1 as [|[k' y] l Hs IH Hall]; simpl.
  - repeat constructor.
  - destruct (k <? k')%Z eqn:E.
    + apply Z.ltb_lt in E. constructor; [constructor; assumption|].
      constructor; [unfold key_le; simpl; lia|].
      eapply Forall_impl; [|exact Hall].
      intros [k'' z]; unfold key_le; simpl; lia.
    + apply Z.ltb_ge in E. constructor; [assumption|].
      rewrite (Forall_forall (key_le (k', y))). intros e He.
      apply (Permutation_in _ (insert_by_key_perm k x l)) in He.
      destruct He as [<-|He]; [exact E|].
      now apply (proj1 (Forall_forall _ _) Hall).
Qed.

Lemma fold_insert_perm (d acc : list (Z * A)) :
  Permutation
    (fold_left (fun acc kx => insert_by_key (fst kx) (snd kx) acc) d acc)
    (acc ++ d).
Proof.
  revert acc. induction d as [|[k x] d IH]; intros acc; simpl.
  - now rewrite app_nil_r.
  - rewrite IH, insert_by_key_perm. simpl.
    apply Permutation_cons_app. reflexivity.
Qed.

Lemma fold_insert_sorted (d acc : list (Z * A)) :
  StronglySorted key_le acc ->
  StronglySorted key_le
    (fold_left (fun acc kx => insert_by_key (fst kx) (snd kx) acc) d acc).
Proof.
  revert acc. induction d as [|[k x] d IH]; intros acc Hs; simpl; [assumption|].
  apply IH. now apply insert_by_key_sorted.
Qed.
End SortByKey.

(** ** The listing of versions *)

Lemma version_items_filter (entries : list (string * Node)) :
  version_items entries = version_directories entries.
Proof.
  unfold version_directories, version_pattern.
  induction entries as [|[item node] rest IH]; simpl; [reflexivity|].
  rewrite IH.
  destruct (Py.startswith "v" item), (isdir node), (Py.int (Py.tail1 item));
    reflexivity.
Qed.

Lemma version_directories_pattern (entries : list (string * Node)) (x : string) :
  In x (version_directories entries) -> version_pattern x = true.
Proof.
  unfold version_directories. intros H. apply in_map_iff in H.
  destruct H as ([n nd] & <- & H). apply filter_In in H.
  destruct H as [_ H]. apply andb_true_iff in H. tauto.
Qed.

Lemma decorate_versions (l : list string) :
  Forall (fun x => version_pattern x = true) l ->
  decorate version_key l = Ok (map (fun x => (version_number x, x)) l).
Proof.
  induction 1 as [|x l Hx _ IH]; simpl; [reflexivity|].
  unfold version_key, version_number, version_pattern in *.
  apply andb_true_iff in Hx. destruct Hx as [_ Hx].
  destruct (Py.int (Py.tail1 x)); [|discriminate].
  now rewrite IH.
Qed.

Lemma sort_versions (l : list string) :
  Forall (fun x => version_pattern x = true) l ->
  exists sorted,
    sort_by_key version_key l = Ok sorted /\
    Permutation sorted l /\
    StronglySorted numerically_le sorted.
Proof.
  intros Hl. unfold sort_by_key. rewrite (decorate_versions l Hl).
  set (d := map (fun x => (version_number x, x)) l).
  set (r := fold_left _ d []).
  exists (map snd r). split; [reflexivity|].
  assert (Hp : Permutation r d) by apply (fold_insert_perm d []).
  split.
  - rewrite Hp. unfold d. rewrite map_map. simpl. now rewrite map_id.
  - assert (Hs : StronglySorted key_le r)
      by (apply fold_insert_sorted; constructor).
    assert (Hk : Forall (fun kx => fst kx = version_number (snd kx)) r).
    { rewrite Forall_forall. intros kx Hin.
      apply (Permutation_in _ Hp) in Hin. unfold d in Hin.
      apply in_map_iff in Hin. destruct Hin as (x & <- & _). reflexivity. }
    clearbody r. clear Hp d.
    induction Hs as [|kx r Hs IH Hall]; simpl; constructor.
    + apply IH. now inversion Hk.
    + inversion Hk as [|? ? Hkx Hkr]; subst.
      rewrite Forall_forall in *. intros y Hy.
      apply in_map_iff in Hy. destruct Hy as (ky & <- & Hy).
      unfold numerically_le. rewrite <- Hkx, <- (Hkr ky Hy).
      exact (Hall ky Hy).
Qed.

Lemma get_all_versions_run (w : World) :
  exists l,
    get_all_versions w = (Ok l, w) /\
    Permutation l (version_directories (listdir w)) /\
    StronglySorted numerically_le l.
Proof.
  unfold get_all_versions, bind, read, listdir.
  destruct (versions_dir w) as [entries|].
  - destruct (sort_versions (version_items entries)) as (l & Hl & Hp & Hs).
    + rewrite Forall_forall. intros x Hx. rewrite version_items_filter in Hx.
      now apply version_directories_pattern with entries.
    + exists l. unfold lift. rewrite Hl. rewrite version_items_filter in Hp. auto.
  - exists []. repeat split; constructor.
Qed.

(** C6, as stated, fails on a regular file whose name matches the pattern:
    it is an entry of the directory named like a version, and it is not
    returned. *)
Lemma all_versions_skips_regular_files :
  let w := world_with_listing [("v7", NFile (FText "not a directory"))] in
  In "v7" (map fst (listdir w)) /\
  version_pattern "v7" = true /\
  fst (get_all_versions w) = Ok [].
Proof. repeat split; [left; reflexivity]. Qed.

(** C6 (amended): for every content of the versions directory,
    [get_all_versions] returns exactly the names of the entries that are
    directories and match the pattern v<integer> (each one once per entry),
    sorted in ascending order of the integer after the [v], not in
    lexical order: the directories v1, v10, v2, v9, listed in that order,
    come out as v1, v2, v9, v10.  The state is left as it was. *)
Theorem get_all_versions_sorted_directories :
  (forall w : World,
     exists l,
       get_all_versions w = (Ok l, w) /\
       Permutation l (version_directories (listdir w)) /\
       StronglySorted numerically_le l) /\
  fst (get_all_versions
         (world_with_listing
            [empty_dir "v1"; empty_dir "v10"; ("notes.txt", NFile (FText ""));
             empty_dir "v2"; empty_dir "venv"; empty_dir "v9"]))
    = Ok ["v1"; "v2"; "v9"; "v10"].
Proof.
  split; [exact get_all_versions_run | reflexivity].
Qed.

(** ** Allocation of version numbers *)

Lemma existing_numbers_directories (entries : list (string * Node)) :
  existing_version_numbers entries
  = map version_number (version_directories entries).
Proof.
  unfold version_directories, version_pattern, version_number.
  induction entries as [|[item node] rest IH]; simpl; [reflexivity|].
  rewrite IH.
  destruct (Py.startswith "v" item), (isdir node); simpl; try reflexivity.
  destruct (Py.int (Py.tail1 item)) eqn:E; simpl; rewrite ?E; reflexivity.
Qed.

Lemma py_max_ge (l : list Z) (x : Z) :
  (x <= py_max x l)%Z /\ (forall y, In y l -> (y <= py_max x l)%Z).
Proof.
  unfold py_max. revert x. induction l as [|a l IH]; intros x; simpl.
  - split; [lia | tauto].
  - destruct (IH (Z.max x a)) as [H1 H2]. split; [lia|].
    intros y [<-|Hy]; [lia | auto].
Qed.

Lemma py_max_in (l : list Z) (x : Z) : In (py_max x l) (x :: l).
Proof.
  unfold py_max. revert x. induction l as [|a l IH]; intros x; simpl.
  - now left.
  - destruct (IH (Z.max x a)) as [H|H].
    + destruct (Z.max_spec x a) as [[_ E]|[_ E]]; rewrite E in *; auto.
    + auto.
Qed.

Lemma get_next_version_number_run (w : World) :
  get_next_version_number w = (Ok (next_number (listdir w)), w).
Proof.
  unfold get_next_version_number, read, next_number, listdir.
  destruct (versions_dir w); reflexivity.
Qed.

Lemma next_number_spec (entries : list (string * Node)) :
  (version_directories entries = [] -> next_number entries = 1%Z) /\
  (version_directories entries <> [] ->
   exists name, In name (version_directories entries) /\
                next_number entries = (version_number name + 1)%Z) /\
  (forall name, In name (version_directories entries) ->
                (version_number name < next_number entries)%Z).
Proof.
  unfold next_number. rewrite existing_numbers_directories.
  destruct (version_directories entries) as [|a l]; simpl.
  - repeat split; try tauto; congruence.
  - pose proof (py_max_ge (map version_number l) (version_number a)) as [H1 H2].
    pose proof (py_max_in (map version_number l) (version_number a)) as H3.
    repeat split.
    + discriminate.
    + intros _. destruct H3 as [H3|H3].
      * exists a. split; [now left | now rewrite <- H3].
      * apply in_map_iff in H3. destruct H3 as (name & E & Hin).
        exists name. split; [now right | now rewrite E].
    + intros name [<-|Hin]; [lia|].
      specialize (H2 (version_number name) (in_map _ _ _ Hin)). lia.
Qed.

(** ** Running the monad *)

Lemma bind_ok_inv {A B} (m : M A) (k : A -> M B) (w w' : World) (b : B) :
  bind m k w = (Ok b, w') ->
  exists a w1, m w = (Ok a, w1) /\ k a w1 = (Ok b, w').
Proof.
  unfold bind. destruct (m w) as [[a|e] w1]; intros H; [eauto | discriminate].
Qed.

Lemma bind_ok {A B} (m : M A) (k : A -> M B) (w w1 : World) (a : A) :
  m w = (Ok a, w1) -> bind m k w = k a w1.
Proof. unfold bind. now intros ->. Qed.

Lemma bind_err {A B} (m : M A) (k : A -> M B) (w w1 : World) (e : Exn) :
  m w = (Err e, w1) -> bind m k w = (Err e, w1).
Proof. unfold bind. now intros ->. Qed.

Lemma bind_assoc {A B C} (m : M A) (k1 : A -> M B) (k2 : B -> M C) (w : World) :
  bind (bind m k1) k2 w = bind m (fun a => bind (k1 a) k2) w.
Proof. unfold bind. destruct (m w) as [[a|e] w1]; reflexivity. Qed.

Lemma bind_ret {A B} (a : A) (k : A -> M B) (w : World) :
  bind (ret a) k w = k a w.
Proof. reflexivity. Qed.

Lemma same_files_refl (w : World) : same_files w w.
Proof. split; reflexivity. Qed.

Lemma same_files_trans (w1 w2 w3 : World) :
  same_files w1 w2 -> same_files w2 w3 -> same_files w1 w3.
Proof. intros [H1 H2] [H3 H4]. split; congruence. Qed.

Lemma same_files_logged (l : list LogRecord) (w : World) :
  same_files w (with_logged l w).
Proof. split; reflexivity. Qed.

Lemma same_files_ticks (n : nat) (w : World) : same_files w (with_ticks n w).
Proof. split; reflexivity. Qed.

Lemma same_files_versions (w w' : World) :
  same_files w w' -> versions_dir w' = versions_dir w.
Proof. intros [H _]. unfold persisted in H. congruence. Qed.

Lemma same_files_listdir (w w' : World) :
  same_files w w' -> listdir w' = listdir w.
Proof. intros H. unfold listdir. now rewrite (same_files_versions _ _ H). Qed.



Section Runs.
Variable self : System.

Lemma file_at_same (p : Path) (w w' : World) :
  same_files w w' -> file_at p w' = file_at p w.
Proof.
  intros [H1 H2]. unfold persisted in H1. inversion H1 as [[Hv Hi Hc Hr]].
  destruct p; simpl; rewrite ?Hv, ?Hi, ?Hc, ?Hr, ?H2; reflexivity.
Qed.

Lemma logger_run (lvl : Level) (msg : string) (e : option Exn) (w : World) :
  exists w', logger lvl msg e w = (Ok tt, w') /\ same_files w w'.
Proof. eexists; split; [reflexivity | apply same_files_logged]. Qed.

Lemma get_timestamp_run (w : World) :
  exists w', get_timestamp w = (Ok (clock w (ticks w)), w') /\ same_files w w'.
Proof. eexists; split; [reflexivity | apply same_files_ticks]. Qed.

Lemma analyze_csv_run (p : Path) (f : File) (w : World) :
  file_at p w = Some f ->
  exists w',
    _analyze_csv self p w
    = (Ok (fst (analyze_rows (Csv.reader (file_text self f)))), w') /\
    same_files w w' /\
    (forall e, snd (analyze_rows (Csv.reader (file_text self f))) = Some e ->
       logged w' = logged w ++ [{| level := WARNING;
                                   message := "Error analyzing CSV: ";
                                   cause := Some e |}]).
Proof.
  intros Hf. unfold _analyze_csv, bind, read. rewrite Hf.
  destruct (analyze_rows _) as [[rc cols] [e|]]; simpl;
    eexists; (split; [reflexivity|]); (split; [apply same_files_logged|]).
  - now intros e' [= <-].
  - discriminate.
Qed.

Lemma infer_data_types_run (p : Path) (f : File) (columns : list string) (w : World) :
  file_at p w = Some f ->
  exists w',
    _infer_data_types self p columns w
    = (Ok (fst (infer_from_rows columns (DictReader (file_text self f)))), w') /\
    same_files w w' /\
    (forall e, snd (infer_from_rows columns (DictReader (file_text self f))) = Some e ->
       logged w' = logged w ++ [{| level := WARNING;
                                   message := "Error inferring data types: ";
                                   cause := Some e |}]).
Proof.
  intros Hf. unfold _infer_data_types, bind, read. rewrite Hf.
  destruct (infer_from_rows _ _) as [dt [e|]]; simpl;
    eexists; (split; [reflexivity|]).
  - split; [apply same_files_logged | now intros e' [= <-]].
  - split; [apply same_files_refl | discriminate].
Qed.

End Runs.


Lemma generate_metadata_run (self : System) (version_name name source_file : string)
  (quality_score : option Q) (f : File) (w : World) :
  file_at (InVersion version_name name) w = Some f ->
  exists w',
    _generate_metadata self version_name (InVersion version_name name)
                       source_file quality_score w
    = (Ok (metadata_for self version_name (InVersion version_name name) source_file
                        quality_score (file_text self f) (clock w (ticks w))), w') /\
    same_files w w'.
Proof.
  intros Hf. unfold _generate_metadata, metadata_for.
  destruct (get_timestamp_run w) as (w1 & E1 & S1).
  rewrite (bind_ok _ _ _ _ _ E1).
  assert (Hf1 : file_at (InVersion version_name name) w1 = Some f)
    by now rewrite (file_at_same _ _ _ S1).
  assert (Htail : forall md w2, same_files w w2 ->
     exists w',
       (metadata <- (if metadata_include_file_hash (config self)
                     then h <- get_file_hash self (InVersion version_name name) ;;
                          ret (store "file_hash" (JStr h) md)
                     else ret md) ;;
        metadata0 <- (if metadata_include_file_size (config self)
                      then n <- get_file_size self (InVersion version_name name) ;;
                           ret (store "file_size_bytes" (JInt n) metadata)
                      else ret metadata) ;;
        ret match quality_score with
            | Some q => store "quality_score" (JFloat q) metadata0
            | None => metadata0
            end)%py w2
       = (Ok (let metadata := if metadata_include_file_hash (config self)
                              then store "file_hash" (JStr (sha256_hexdigest self (file_text self f))) md
                              else md in
              let metadata := if metadata_include_file_size (config self)
                              then store "file_size_bytes"
                                     (JInt (Z.of_nat (String.length (file_text self f)))) metadata
                              else metadata in
              match quality_score with
              | Some q => store "quality_score" (JFloat q) metadata
              | None => metadata
              end), w') /\ same_files w w').
  { intros md w2 S2. exists w2. split; [|assumption].
    assert (Hf2 : file_at (InVersion version_name name) w2 = Some f)
      by now rewrite (file_at_same _ _ _ S2).
    unfold get_file_hash, get_file_size, bind, read, ret.
    destruct (metadata_include_file_hash (config self)),
             (metadata_include_file_size (config self)); rewrite ?Hf2; reflexivity. }
  destruct (Py.endswith ".csv" _).
  - rewrite bind_assoc.
    destruct (analyze_csv_run self _ f w1 Hf1) as (w2 & E2 & S2 & _).
    rewrite (bind_ok _ _ _ _ _ E2).
    destruct (analyze_rows _) as [[rc cols] e]. cbn [fst].
    assert (S02 : same_files w w2) by (eapply same_files_trans; eassumption).
    destruct (metadata_include_data_types (config self)).
    + rewrite bind_assoc.
      assert (Hf2 : file_at (InVersion version_name name) w2 = Some f)
        by now rewrite (file_at_same _ _ _ S02).
      destruct (infer_data_types_run self _ f cols w2 Hf2) as (w3 & E3 & S3 & _).
      rewrite (bind_ok _ _ _ _ _ E3), bind_ret.
      apply Htail. eapply same_files_trans; eassumption.
    + rewrite bind_ret. now apply Htail.
  - rewrite bind_ret. now apply Htail.
Qed.

(** ** Files and directories *)

Lemma lookup_in {V} (k : string) (l : list (string * V)) (v : V) :
  lookup k l = Some v -> In (k, v) l.
Proof.
  unfold lookup. induction l as [|[k' v'] l IH]; simpl; [discriminate|].
  destruct (String.eqb_spec k k') as [->|_].
  - intros [= ->]. now left.
  - intros H. right. auto.
Qed.

Lemma lookup_app_absent {V} (k : string) (l : list (string * V)) (v : V) :
  lookup k l = None -> lookup k (l ++ [(k, v)]) = Some v.
Proof.
  unfold lookup. induction l as [|[k' v'] l IH]; simpl.
  - now rewrite String.eqb_refl.
  - destruct (String.eqb k k'); [discriminate | exact IH].
Qed.

Lemma store_app_absent {V} (k : string) (l : list (string * V)) (v v' : V) :
  lookup k l = None -> store k v' (l ++ [(k, v)]) = l ++ [(k, v')].
Proof.
  unfold lookup, store. induction l as [|[k0 v0] l IH]; simpl.
  - now rewrite String.eqb_refl.
  - destruct (String.eqb k k0); [discriminate|]. intros H. now rewrite IH.
Qed.

Lemma lookup_store_same {V} (k : string) (v : V) (l : list (string * V)) :
  lookup k (store k v l) = Some v.
Proof.
  unfold lookup, store. induction l as [|[k0 v0] l IH]; simpl.
  - now rewrite String.eqb_refl.
  - destruct (String.eqb k k0) eqn:E; simpl; rewrite E; [|exact IH].
    reflexivity.
Qed.

Lemma lookup_store_other {V} (k k' : string) (v : V) (l : list (string * V)) :
  String.eqb k k' = false -> lookup k (store k' v l) = lookup k l.
Proof.
  intros Hk. unfold lookup, store. induction l as [|[k0 v0] l IH]; simpl.
  - now rewrite Hk.
  - destruct (String.eqb k' k0) eqn:E; simpl.
    + apply String.eqb_eq in E. subst k0. now rewrite Hk.
    + now rewrite IH.
Qed.

Lemma new_version_absent (entries : list (string * Node)) (files : list (string * File)) :
  lookup ("v" ++ Py.str_of_int (next_number entries))%string entries <> Some (NDir files).
Proof.
  intros H. apply lookup_in in H.
  destruct (version_name_number (next_number entries)) as [Hv Hn].
  set (name := ("v" ++ Py.str_of_int (next_number entries))%string) in *.
  assert (Hin : In name (version_directories entries)).
  { unfold version_directories. apply in_map_iff.
    exists (name, NDir files). split; [reflexivity|].
    apply filter_In. split; [assumption|].
    unfold version_pattern. cbn [fst snd isdir]. now rewrite Hv, Hn. }
  destruct (next_number_spec entries) as (_ & _ & H3).
  specialize (H3 name Hin). unfold version_number in H3.
  rewrite Hn in H3. lia.
Qed.

Section Store.
Variable self : System.

Lemma load_json_run (p : Path) (w : World) :
  load_json self p w
  = (match file_at p w with
     | Some (FJson j) => Ok j
     | Some (FText _) => Err JSONDecodeError
     | None => Err (FileNotFoundError ("JSON file not found: " ++ path_str self p))
     end, w).
Proof.
  unfold load_json, bind, exists_file, read.
  destruct (file_at p w) as [[s|j]|] eqn:E; cbv beta iota delta [negb];
    rewrite ?E; reflexivity.
Qed.

Lemma update_index_run (version_name : string) (metadata : list (string * json))
  (w : World) :
  exists r w',
    _update_index self version_name metadata w = (r, w') /\
    versions_dir w' = versions_dir w /\
    current_version_file w' = current_version_file w /\
    rollback_log_file w' = rollback_log_file w /\
    outside w' = outside w /\
    (appendable "versions" (index_file w) = true -> r = Ok tt).
Proof.
  unfold _update_index. unfold bind at 1. unfold exists_file, read.
  cbn [file_at]. unfold appendable.
  destruct (index_file w) as [f|] eqn:Ei; cbv iota beta.
  - unfold bind at 1. rewrite load_json_run. cbn [file_at]. rewrite Ei.
    destruct f as [s|j]; cbv iota beta;
      [eexists; eexists; split; [reflexivity|]; repeat split; discriminate|].
    unfold lift, append_under.
    destruct j as [|b|n|q|s|items|members];
      try (eexists; eexists; split; [reflexivity|]; repeat split; discriminate).
    destruct (lookup "versions" members) as [[|b|n|q|s|items|ms]|];
      eexists; eexists; (split; [reflexivity|]); repeat split; discriminate.
  - eexists; eexists; split; [reflexivity|]. repeat split.
Qed.

Lemma set_current_version_run (version_name : string) (w : World) :
  exists w',
    _set_current_version self version_name w = (Ok tt, w') /\
    versions_dir w' = versions_dir w /\
    index_file w' = index_file w /\
    current_version_file w' = Some version_name /\
    rollback_log_file w' = rollback_log_file w /\
    outside w' = outside w.
Proof.
  eexists. split; [reflexivity|]. repeat split.
Qed.
End Store.

Section Files.
Variable self : System.

Lemma read_text_file_run (p : Path) (f : File) (w : World) :
  file_at p w = Some f ->
  read_text_file self p w = (Ok (Csv.universal_newlines (file_text self f)), w).
Proof.
  intros Hf. unfold read_text_file, bind, exists_file, read.
  cbv beta iota. rewrite Hf. cbv beta iota delta [negb]. now rewrite Hf.
Qed.

Lemma write_version_file_run (v name : string) (f : File)
  (entries : list (string * Node)) (files : list (string * File)) (w : World) :
  versions_dir w = Some entries ->
  lookup v entries = Some (NDir files) ->
  write_file self (InVersion v name) f w
  = (Ok tt, with_versions_dir
              (Some (store v (NDir (store name f files)) entries)) w).
Proof. intros Hv Hl. unfold write_file. now rewrite Hv, Hl. Qed.

Lemma copy2_run (src : Path) (v name : string) (f : File)
  (entries : list (string * Node)) (files : list (string * File)) (w : World) :
  file_at src w = Some f ->
  versions_dir w = Some entries ->
  lookup v entries = Some (NDir files) ->
  copy2 self src (InVersion v name) w
  = (Ok tt, with_versions_dir
              (Some (store v (NDir (store name (FText (file_text self f)) files)) entries))
              w).
Proof.
  intros Hf Hv Hl. unfold copy2, bind, read. rewrite Hf.
  now apply write_version_file_run.
Qed.

Lemma save_version_json_run (v name : string) (data : json)
  (entries : list (string * Node)) (files : list (string * File)) (w : World) :
  versions_dir w = Some entries ->
  lookup v entries = Some (NDir files) ->
  save_json self data (InVersion v name) w
  = (Ok tt, with_versions_dir
              (Some (store v (NDir (store name (FJson data) files)) entries)) w).
Proof.
  intros Hv Hl. unfold save_json, bind, ensure_parent, ensure_directory.
  rewrite Hv, Hl. now apply write_version_file_run.
Qed.

Lemma ensure_new_directory_run (v : string) (w : World) :
  lookup v (listdir w) = None ->
  ensure_directory v w
  = (Ok tt, with_versions_dir (Some (listdir w ++ [(v, NDir [])])) w).
Proof.
  unfold ensure_directory, listdir.
  destruct (versions_dir w); [now intros -> | reflexivity].
Qed.

Lemma ensure_directory_file_run (v : string) (f : File) (w : World) :
  lookup v (listdir w) = Some (NFile f) ->
  ensure_directory v w = (Err FileExistsError, w).
Proof.
  unfold ensure_directory, listdir.
  destruct (versions_dir w); [now intros -> | discriminate].
Qed.
End Files.

Lemma create_version_run (self : System) (input : string) (q : option Q)
  (w : World) (text : string) :
  lookup input (outside w) = Some text ->
  match q with Some q => quality_in_range q = true | None => True end ->
  let name := ("v" ++ Py.str_of_int (next_number (listdir w)))%string in
  let md := metadata_for self name (InVersion name (basename input)) input q text
                         (clock w (ticks w)) in
  exists r w',
    create_version self input q w = (r, w') /\
    outside w' = outside w /\
    rollback_log_file w' = rollback_log_file w /\
    (forall f, lookup name (listdir w) = Some (NFile f) ->
               r = Err FileExistsError /\ same_files w w') /\
    (lookup name (listdir w) = None ->
       versions_dir w'
       = Some (listdir w ++
               [(name, NDir (store "metadata.json" (FJson (JObj md))
                                   [(basename input, FText text)]))]) /\
       (appendable "versions" (index_file w) = true -> r = Ok name) /\
       (forall x, r = Ok x -> x = name /\ current_version_file w' = Some name)).
Proof.
  intros Hin Hq name md.
  unfold create_version.
  assert (E0 : exists_file (Outside input) w = (Ok true, w))
    by (unfold exists_file, read; cbn [file_at]; now rewrite Hin).
  rewrite (bind_ok _ _ _ _ _ E0). cbn [negb]. cbv iota.
  assert (Hq' : match q with Some q0 => negb (quality_in_range q0) | None => false end = false).
  { destruct q as [q0|]; [now rewrite Hq | reflexivity]. }
  rewrite Hq'. clear Hq'.
  rewrite (bind_ok _ _ _ _ _ (get_next_version_number_run w)).
  fold name.
  pose proof (new_version_absent (listdir w)) as Habs. fold name in Habs.
  destruct (lookup name (listdir w)) as [[f|files]|] eqn:El.
  - (* a regular file has the name of the new version *)
    rewrite (bind_err _ _ _ _ _ (ensure_directory_file_run name f w El)).
    eexists; eexists; split; [reflexivity|].
    repeat split; try discriminate.
  - now elim (Habs files).
  - rewrite (bind_ok _ _ _ _ _ (ensure_new_directory_run name w El)).
    set (w1 := with_versions_dir (Some (listdir w ++ [(name, NDir [])])) w).
    (* the copy of the dataset *)
    assert (Hin1 : file_at (Outside input) w1 = Some (FText text))
      by (unfold w1; cbn [file_at outside with_versions_dir]; now rewrite Hin).
    rewrite (bind_ok _ _ _ _ _
               (copy2_run self (Outside input) name (basename input) (FText text)
                  _ [] w1 Hin1 eq_refl (lookup_app_absent _ _ _ El))).
    cbn [file_text].
    rewrite (store_app_absent _ _ _ _ El). cbn [store dict_set].
    set (w2 := with_versions_dir _ w1).
    unfold logger_info at 1, logger. unfold bind at 1, modify.
    set (w3 := with_logged _ w2).
    (* the metadata *)
    assert (Hf3 : file_at (InVersion name (basename input)) w3 = Some (FText text)).
    { unfold w3, w2, w1.
      cbn [file_at versions_dir with_versions_dir with_logged].
      rewrite (lookup_app_absent _ _ _ El). unfold lookup. cbn [dict_get].
      now rewrite String.eqb_refl. }
    destruct (generate_metadata_run self name (basename input) input q _ w3 Hf3)
      as (w4 & E4 & S4).
    cbn [file_text] in E4.
    change (clock w3 (ticks w3)) with (clock w (ticks w)) in E4. fold md in E4.
    rewrite (bind_ok _ _ _ _ _ E4).
    assert (Hv4 : versions_dir w4
                  = Some (listdir w ++ [(name, NDir [(basename input, FText text)])])).
    { rewrite (same_files_versions _ _ S4). reflexivity. }
    rewrite (bind_ok _ _ _ _ _
               (save_version_json_run self name "metadata.json" (JObj md)
                  _ _ w4 Hv4 (lookup_app_absent _ _ _ El))).
    rewrite (store_app_absent _ _ _ _ El).
    set (w5 := with_versions_dir _ w4).
    unfold logger_info at 1, logger. unfold bind at 1, modify.
    set (w6 := with_logged _ w5).
    destruct (update_index_run self name md w6)
      as (r7 & w7 & E7 & Hv7 & Hc7 & Hr7 & Ho7 & Hok7).
    assert (Ho : outside w7 = outside w).
    { rewrite Ho7. cbn. destruct S4 as [_ S4]. rewrite S4. reflexivity. }
    assert (Hr : rollback_log_file w7 = rollback_log_file w).
    { rewrite Hr7. cbn. destruct S4 as [S4 _]. unfold persisted in S4.
      inversion S4. reflexivity. }
    assert (Hi : index_file w6 = index_file w).
    { cbn. destruct S4 as [S4 _]. unfold persisted in S4. inversion S4. reflexivity. }
    destruct r7 as [[]|e].
    + rewrite (bind_ok _ _ _ _ _ E7).
      destruct (set_current_version_run self name w7)
        as (w8 & E8 & Hv8 & Hi8 & Hc8 & Hr8 & Ho8).
      rewrite (bind_ok _ _ _ _ _ E8).
      unfold logger_info, logger, modify, ret, bind.
      eexists; eexists; split; [reflexivity|].
      cbn [outside rollback_log_file versions_dir current_version_file with_logged].
      rewrite Ho8, Hr8, Hv8, Hc8, Hv7.
      repeat split; try assumption; try discriminate; congruence.
    + rewrite (bind_err _ _ _ _ _ E7).
      eexists; eexists; split; [reflexivity|].
      rewrite Hv7. repeat split; try assumption; try discriminate.
      intros Ha. rewrite <- Hi in Ha. specialize (Hok7 Ha). discriminate.
Qed.

Lemma existing_numbers_app (a b : list (string * Node)) :
  existing_version_numbers (a ++ b)
  = existing_version_numbers a ++ existing_version_numbers b.
Proof.
  induction a as [|[item node] a IH]; simpl; [reflexivity|].
  destruct (Py.startswith "v" item && isdir node); [|exact IH].
  destruct (Py.int (Py.tail1 item)); [|exact IH].
  simpl. now rewrite IH.
Qed.

Lemma next_number_char (entries : list (string * Node)) (m : Z) :
  In m (existing_version_numbers entries) ->
  (forall y, In y (existing_version_numbers entries) -> (y <= m)%Z) ->
  next_number entries = (m + 1)%Z.
Proof.
  unfold next_number. destruct (existing_version_numbers entries) as [|x l].
  - intros [].
  - intros Hin Hmax.
    pose proof (py_max_ge l x) as [H1 H2].
    pose proof (py_max_in l x) as H3.
    specialize (Hmax _ H3).
    assert (m <= py_max x l)%Z by (destruct Hin as [<-|Hin]; auto).
    lia.
Qed.

Lemma next_number_above (entries : list (string * Node)) (y : Z) :
  In y (existing_version_numbers entries) -> (y < next_number entries)%Z.
Proof.
  rewrite existing_numbers_directories. intros H. apply in_map_iff in H.
  destruct H as (name & <- & Hin).
  now apply (proj2 (proj2 (next_number_spec entries))).
Qed.

Lemma next_number_max (entries : list (string * Node)) :
  existing_version_numbers entries <> [] ->
  In (next_number entries - 1)%Z (existing_version_numbers entries).
Proof.
  unfold next_number. destruct (existing_version_numbers entries) as [|x l];
    [congruence|]. intros _.
  replace (py_max x l + 1 - 1)%Z with (py_max x l) by lia. apply py_max_in.
Qed.

Lemma existing_numbers_single (name : string) (node : Node) :
  existing_version_numbers [(name, node)]
  = if isdir node && version_pattern name then [version_number name] else [].
Proof.
  unfold version_pattern, version_number. simpl.
  destruct (Py.startswith "v" name), (isdir node); simpl; try reflexivity;
    destruct (Py.int (Py.tail1 name)); reflexivity.
Qed.

Lemma next_number_new_version (entries : list (string * Node))
  (files : list (string * File)) :
  let name := ("v" ++ Py.str_of_int (next_number entries))%string in
  In name (version_directories (entries ++ [(name, NDir files)])) /\
  next_number (entries ++ [(name, NDir files)]) = (next_number entries + 1)%Z.
Proof.
  intros name.
  destruct (version_name_number (next_number entries)) as [Hv Hn]. fold name in Hv, Hn.
  assert (Hp : version_pattern name = true)
    by (unfold version_pattern; now rewrite Hv, Hn).
  assert (Hk : version_number name = next_number entries)
    by (unfold version_number; now rewrite Hn).
  split.
  - unfold version_directories. rewrite filter_app, map_app. apply in_or_app. right.
    cbn [filter fst snd isdir]. rewrite Hp. now left.
  - apply next_number_char; rewrite existing_numbers_app, existing_numbers_single;
      cbn [isdir andb]; rewrite Hp, Hk.
    + apply in_or_app. right. now left.
    + intros y Hy. apply in_app_or in Hy. destruct Hy as [Hy|[<-|[]]]; [|lia].
      apply next_number_above in Hy. lia.
Qed.

Lemma next_number_remove (before after : list (string * Node)) (removed : string * Node) :
  (version_number (fst removed) + 1 < next_number (before ++ removed :: after))%Z ->
  next_number (before ++ after) = next_number (before ++ removed :: after).
Proof.
  intros Hlt.
  set (full := before ++ removed :: after) in *.
  assert (Hfull : existing_version_numbers full
                  = existing_version_numbers before
                    ++ existing_version_numbers [removed]
                    ++ existing_version_numbers after).
  { unfold full. change (removed :: after) with ([removed] ++ after).
    now rewrite !existing_numbers_app. }
  destruct removed as [name node]. rewrite existing_numbers_single in Hfull.
  cbn [fst] in Hlt.
  destruct (isdir node && version_pattern name).
  - (* a version directory below the maximum *)
    assert (Hne : existing_version_numbers full <> [])
      by (rewrite Hfull; destruct (existing_version_numbers before); discriminate).
    pose proof (next_number_max full Hne) as Hmax.
    replace (next_number full) with (next_number full - 1 + 1)%Z by lia.
    apply next_number_char; rewrite existing_numbers_app.
    + rewrite Hfull in Hmax. apply in_app_or in Hmax.
      apply in_or_app. destruct Hmax as [H|[H|H]]; [now left | lia | now right].
    + intros y Hy.
      assert (In y (existing_version_numbers full)).
      { rewrite Hfull. apply in_app_or in Hy. apply in_or_app.
        destruct Hy; [now left | right; now right]. }
      apply next_number_above in H. lia.
  - unfold next_number. rewrite Hfull, existing_numbers_app. reflexivity.
Qed.

Lemma create_version_ok_inv (self : System) (input : string) (q : option Q)
  (w w' : World) (name : string) :
  create_version self input q w = (Ok name, w') ->
  (exists text, lookup input (outside w) = Some text) /\
  match q with Some q => quality_in_range q = true | None => True end.
Proof.
  unfold create_version. unfold bind at 1. unfold exists_file, read.
  cbn [file_at].
  destruct (lookup input (outside w)) as [text|]; cbn [option_map negb];
    [|discriminate].
  intros H. split; [eauto|].
  destruct q as [q0|]; [|exact I].
  destruct (quality_in_range q0); [reflexivity | discriminate].
Qed.

(** C4: [get_next_version_number] returns 1 when there is no version
    directory and otherwise 1 plus the largest number among them, so the
    number is above every existing one; [create_version], when it
    succeeds, names the new version after that number, creates its
    directory, and the allocation that follows is larger by one; removing a
    version directory whose number is below the largest leaves the
    allocation as it was, so the number of a removed earlier version is not
    handed out again. *)
Theorem create_version_allocates_next_number (self : System) :
  (forall w, get_next_version_number w = (Ok (next_number (listdir w)), w)) /\
  (forall entries,
     (version_directories entries = [] -> next_number entries = 1%Z) /\
     (version_directories entries <> [] ->
      exists name, In name (version_directories entries) /\
                   next_number entries = (version_number name + 1)%Z) /\
     (forall name, In name (version_directories entries) ->
                   (version_number name < next_number entries)%Z)) /\
  (forall input q w name w',
     create_version self input q w = (Ok name, w') ->
     name = ("v" ++ Py.str_of_int (next_number (listdir w)))%string /\
     In name (version_directories (listdir w')) /\
     next_number (listdir w') = (next_number (listdir w) + 1)%Z) /\
  (forall before removed after,
     (version_number (fst removed) + 1 < next_number (before ++ removed :: after))%Z ->
     next_number (before ++ after) = next_number (before ++ removed :: after)).
Proof.
  split; [exact get_next_version_number_run|].
  split; [exact next_number_spec|].
  split; [|intros before removed after; apply next_number_remove].
  intros input q w name w' Hrun.
  destruct (create_version_ok_inv _ _ _ _ _ _ Hrun) as [[text Hin] Hq].
  destruct (create_version_run self input q w text Hin Hq)
    as (r & w1 & E & _ & _ & Hfile & Hnew).
  rewrite Hrun in E. injection E as <- <-.
  destruct (lookup _ (listdir w)) as [[f|files]|] eqn:El.
  - destruct (Hfile f eq_refl) as [Hr _]. discriminate.
  - now elim (new_version_absent (listdir w) files).
  - destruct (Hnew eq_refl) as (Hv & _ & Hname).
    destruct (Hname name eq_refl) as [Ename _].
    assert (Hl : listdir w' = listdir w ++ [(name, NDir
                   (store "metadata.json"
                      (FJson (JObj (metadata_for self name
                                      (InVersion name (basename input)) input q text
                                      (clock w (ticks w)))))
                      [(basename input, FText text)]))]).
    { unfold listdir at 1. rewrite Hv, <- Ename. reflexivity. }
    rewrite Hl. split; [exact Ename|]. rewrite Ename.
    apply next_number_new_version.
Qed.

Lemma create_version_allocates_next_number_witness :
  let w := world_with_input "data/sales.csv" (line "id,amount" ++ line "1,10") in
  let w' := snd (create_version sample_system "data/sales.csv" None w) in
  next_number (listdir w) = 1%Z /\
  In "v1" (version_directories (listdir w')) /\
  next_number (listdir w') = 2%Z /\
  next_number [empty_dir "v1"; empty_dir "v3"] = next_number [empty_dir "v1"; empty_dir "v2"; empty_dir "v3"].
Proof.
  intros w w'.
  destruct (create_version_allocates_next_number sample_system)
    as (_ & _ & Hcreate & Hremove).
  destruct (Hcreate "data/sales.csv" None w "v1" w') as (_ & Hin & Hnext);
    [vm_compute; reflexivity|].
  split; [reflexivity|]. split; [exact Hin|]. split; [exact Hnext|].
  apply (Hremove [empty_dir "v1"] (empty_dir "v2") [empty_dir "v3"]).
  vm_compute. reflexivity.
Defined.

(** ** Type inference *)















Lemma lookup_fold_store {V} (f : string -> V) (col : string) (cols : list string)
  (d : list (string * V)) :
  In col cols ->
  lookup col (fold_left (fun d c => store c (f c) d) cols d) = Some (f col).
Proof.
  revert d. induction cols as [|c rest IH]; intros d; [intros []|].
  intros Hin. cbn [fold_left].
  destruct (in_dec string_dec col rest) as [Hr|Hr]; [now apply IH|].
  destruct Hin as [->|Hin]; [|contradiction].
  clear IH. revert d.
  assert (Hkeep : forall l d0, ~ In col l ->
            lookup col (fold_left (fun d c => store c (f c) d) l d0) = lookup col d0).
  { induction l as [|c l IHl]; intros d0 Hn; [reflexivity|].
    cbn [fold_left]. rewrite IHl by (intros H; apply Hn; now right).
    apply lookup_store_other. apply String.eqb_neq. intros ->. apply Hn. now left. }
  intros d. rewrite (Hkeep rest _ Hr). apply lookup_store_same.
Qed.



(** ** Analysis of the CSV file *)

Lemma iterate_complete (lines : list string) :
  Forall (fun l => line_record l <> None) lines ->
  Csv.iterate initial_reader lines = rows_of (map line_record lines).
Proof.
  induction 1 as [|l lines Hl _ IH]; [reflexivity|].
  cbn [Csv.iterate map]. unfold line_record in *.
  destruct (Csv.feed_chars initial_reader l) as [r|]; [|congruence].
  destruct (Csv.state r); try congruence.
  cbn [rows_of]. f_equal. exact IH.
Qed.

Lemma count_rows_complete (lines : list string) :
  Forall (fun l => line_record l <> None) lines ->
  count_rows (rows_of (map line_record lines)) = Ok (List.length lines).
Proof.
  induction 1 as [|l lines Hl _ IH]; [reflexivity|].
  cbn [map rows_of]. destruct (line_record l); [|congruence].
  cbn [count_rows List.length]. now rewrite IH.
Qed.

Lemma analyze_complete (text : string) (header : string) (rest : list string) :
  Csv.file_lines text = header :: rest ->
  complete_lines text ->
  exists columns,
    line_record header = Some columns /\
    analyze_rows (Csv.reader text) = (List.length rest, columns, None).
Proof.
  unfold complete_lines, Csv.reader. intros -> H.
  change (Csv.parse_reset _) with initial_reader.
  rewrite (iterate_complete _ H). inversion H as [|? ? Hh Hr]; subst.
  cbn [map rows_of]. destruct (line_record header) as [columns|]; [|congruence].
  exists columns. split; [reflexivity|].
  cbn [analyze_rows]. now rewrite (count_rows_complete _ Hr).
Qed.

Lemma analyze_rows_degraded (rows : Csv.Rows) (e : Exn) :
  snd (analyze_rows rows) = Some e ->
  fst (analyze_rows rows) = (0, header_read rows).
Proof.
  destruct rows as [| |header rest]; cbn; try discriminate; [reflexivity|].
  destruct (count_rows rest); cbn; [discriminate | reflexivity].
Qed.

Lemma endswith_app (p a b : string) :
  Py.endswith p b = true -> Py.endswith p (a ++ b) = true.
Proof.
  intros H. induction a as [|c a IH]; [exact H|].
  cbn [append Py.endswith]. rewrite IH. apply orb_true_r.
Qed.

Lemma endswith_path_join (p a b : string) :
  Py.endswith p b = true -> Py.endswith p (path_join a b) = true.
Proof.
  intros H. unfold path_join. destruct a as [|c a]; [exact H|].
  destruct (Py.endswith "/" (String c a)).
  - now apply endswith_app.
  - apply endswith_app. now apply (endswith_app p "/" b).
Qed.

Lemma metadata_for_analysis (self : System) (version_name name source_file : string)
  (q : option Q) (text created_at : string) :
  Py.endswith ".csv" name = true ->
  let md := metadata_for self version_name (InVersion version_name name)
                         source_file q text created_at in
  let '(row_count, columns, _) := analyze_rows (Csv.reader text) in
  (metadata_include_row_count (config self) = true ->
   lookup "row_count" md = Some (JInt (Z.of_nat row_count))) /\
  (metadata_include_columns (config self) = true ->
   lookup "columns" md = Some (JArr (map JStr columns)) /\
   lookup "column_count" md = Some (JInt (Z.of_nat (List.length columns)))) /\
  (metadata_include_data_types (config self) = true ->
   lookup "data_types" md
   = Some (JObj (fst (infer_from_rows columns (DictReader text))))).
Proof.
  intros Hcsv md. unfold md, metadata_for.
  cbn [path_str]. rewrite (endswith_path_join _ _ _ Hcsv).
  destruct (analyze_rows (Csv.reader text)) as [[row_count columns] e].
  destruct (metadata_include_row_count (config self)),
           (metadata_include_columns (config self)),
           (metadata_include_data_types (config self)),
           (metadata_include_file_hash (config self)),
           (metadata_include_file_size (config self)), q;
    repeat split; intros; try discriminate; reflexivity.
Qed.

Lemma get_version_metadata_run (self : System) (v : string) (j : json) (w : World) :
  file_at (InVersion v "metadata.json") w = Some (FJson j) ->
  get_version_metadata self v w = (Ok j, w).
Proof.
  intros Hf. unfold get_version_metadata.
  assert (E : exists_file (InVersion v "metadata.json") w = (Ok true, w))
    by (unfold exists_file, read; now rewrite Hf).
  rewrite (bind_ok _ _ _ _ _ E). cbn [negb]. cbv iota.
  rewrite load_json_run. now rewrite Hf.
Qed.

(** A successful [create_version]: the name, the metadata file and what
    it holds. *)
Lemma create_version_success (self : System) (input : string) (q : option Q)
  (w w' : World) (name : string) :
  create_version self input q w = (Ok name, w') ->
  exists text,
    lookup input (outside w) = Some text /\
    name = ("v" ++ Py.str_of_int (next_number (listdir w)))%string /\
    get_version_metadata self name w'
    = (Ok (JObj (metadata_for self name (InVersion name (basename input)) input q text
                              (clock w (ticks w)))), w') /\
    current_version_file w' = Some name.
Proof.
  intros Hrun.
  destruct (create_version_ok_inv _ _ _ _ _ _ Hrun) as [[text Hin] Hq].
  exists text. split; [assumption|].
  destruct (create_version_run self input q w text Hin Hq)
    as (r & w1 & E & _ & _ & Hfile & Hnew).
  rewrite Hrun in E. injection E as <- <-.
  destruct (lookup _ (listdir w)) as [[f|files]|] eqn:El.
  - destruct (Hfile f eq_refl) as [Hr _]. discriminate.
  - now elim (new_version_absent (listdir w) files).
  - destruct (Hnew eq_refl) as (Hv & _ & Hname).
    destruct (Hname name eq_refl) as [Ename Hcur]. subst name.
    split; [reflexivity|]. split; [|assumption].
    apply get_version_metadata_run.
    cbn [file_at]. rewrite Hv, (lookup_app_absent _ _ _ El).
    now rewrite lookup_store_same.
Qed.

(** C5, as stated, fails on a CSV file in which a quoted field holds a line
    break: three lines, one header, and one record after it. *)
Lemma row_count_is_records_not_lines :
  let quote := String Csv.quotechar "" in
  let text := (line "id,note" ++ line ("1," ++ quote ++ "first")
                ++ line ("second" ++ quote))%string in
  let w := world_with_input "data/notes.csv" text in
  let w' := snd (create_version sample_system "data/notes.csv" None w) in
  fst (create_version sample_system "data/notes.csv" None w) = Ok "v1" /\
  List.length (Csv.file_lines text) = 3 /\
  exists md,
    fst (get_version_metadata sample_system "v1" w') = Ok (JObj md) /\
    lookup "row_count" md = Some (JInt 1) /\
    lookup "columns" md = Some (JArr [JStr "id"; JStr "note"]).
Proof.
  split; [vm_compute; reflexivity|]. split; [reflexivity|].
  eexists. split; [vm_compute; reflexivity|]. split; reflexivity.
Qed.

Lemma count_rows_records (rows : Csv.Rows) (records : list (list string)) :
  records_read rows = Some records -> count_rows rows = Ok (List.length records).
Proof.
  revert records. induction rows as [| |row rest IH]; intros records; cbn [records_read count_rows].
  - now intros [= <-].
  - discriminate.
  - destruct (records_read rest) as [rs|]; [|discriminate].
    intros [= <-]. now rewrite (IH rs eq_refl).
Qed.

Lemma analyze_rows_records (rows : Csv.Rows) (records : list (list string)) :
  records_read rows = Some records ->
  analyze_rows rows = (List.length (tl records), hd [] records, None).
Proof.
  destruct rows as [| |header rest]; cbn [records_read analyze_rows].
  - now intros [= <-].
  - discriminate.
  - destruct (records_read rest) as [rs|] eqn:Er; [|discriminate].
    intros [= <-]. cbn [tl hd]. now rewrite (count_rows_records rest rs Er).
Qed.

(** C5 (amended): with row count and columns switched on in the
    configuration and an input file named *.csv, a successful
    [create_version] followed by [get_version_metadata] on the returned
    name yields, when the csv reader reads the file to its end without
    raising, as row_count the number of records it finds after the first
    one and as columns the fields of the first record in their order (no
    row and no column for a file without a record); when every line of the
    file is a record on its own (no quoted field runs over a line break,
    no field exceeds the limit of the csv module) and the file has a header
    line, row_count is the number of lines minus one and columns are the
    fields of the header line. *)
Theorem create_version_metadata_counts_records (self : System) (input : string)
  (q : option Q) (w w' : World) (name text : string) :
  metadata_include_row_count (config self) = true ->
  metadata_include_columns (config self) = true ->
  Py.endswith ".csv" (basename input) = true ->
  lookup input (outside w) = Some text ->
  create_version self input q w = (Ok name, w') ->
  exists md,
    get_version_metadata self name w' = (Ok (JObj md), w') /\
    (forall records,
       records_read (Csv.reader text) = Some records ->
       lookup "row_count" md = Some (JInt (Z.of_nat (List.length (tl records)))) /\
       lookup "columns" md = Some (JArr (map JStr (hd [] records)))) /\
    (forall header rest,
       Csv.file_lines text = header :: rest ->
       complete_lines text ->
       lookup "row_count" md
       = Some (JInt (Z.of_nat (List.length (Csv.file_lines text)) - 1)%Z) /\
       exists columns,
         line_record header = Some columns /\
         lookup "columns" md = Some (JArr (map JStr columns))).
Proof.
  intros Hrc Hcols Hcsv Hin Hrun.
  destruct (create_version_success _ _ _ _ _ _ Hrun) as (text' & Hin' & Hname & Hmeta & _).
  rewrite Hin in Hin'. injection Hin' as <-.
  eexists. split; [exact Hmeta|].
  pose proof (metadata_for_analysis self name (basename input) input q text
                (clock w (ticks w)) Hcsv) as Hmd.
  cbv zeta in Hmd.
  destruct (analyze_rows (Csv.reader text)) as [[row_count columns] e] eqn:Ea.
  destruct Hmd as (H1 & H2 & _). specialize (H1 Hrc). destruct (H2 Hcols) as [H2' _].
  split.
  - intros records Hrec. rewrite (analyze_rows_records _ _ Hrec) in Ea.
    injection Ea as <- <- _. split; assumption.
  - intros header rest Hlines Hcomplete.
    destruct (analyze_complete text header rest Hlines Hcomplete) as (cols & Hrec & Han).
    rewrite Ea in Han. injection Han as -> -> _.
    split.
    + rewrite H1, Hlines. cbn [List.length]. do 2 f_equal. lia.
    + exists cols. split; assumption.
Qed.

Lemma create_version_metadata_counts_records_witness :
  let text := (line "id,amount" ++ line "1,10" ++ line "2,20")%string in
  let w := world_with_input "data/sales.csv" text in
  let w' := snd (create_version sample_system "data/sales.csv" None w) in
  complete_lines text /\
  exists md,
    get_version_metadata sample_system "v1" w' = (Ok (JObj md), w') /\
    lookup "row_count" md = Some (JInt 2) /\
    lookup "columns" md = Some (JArr [JStr "id"; JStr "amount"]).
Proof.
  intros text w w'.
  assert (Hc : complete_lines text)
    by (repeat constructor; vm_compute; discriminate).
  split; [exact Hc|].
  destruct (create_version_metadata_counts_records sample_system "data/sales.csv"
              None w w' "v1" text eq_refl eq_refl eq_refl eq_refl)
    as (md & Hmeta & _ & Hlines); [vm_compute; reflexivity|].
  destruct (Hlines (line "id,amount") [line "1,10"; line "2,20"] eq_refl Hc)
    as (Hrc & cols & Hrec & Hcols).
  exists md. split; [exact Hmeta|]. split; [exact Hrc|].
  vm_compute in Hrec. injection Hrec as <-. exact Hcols.
Defined.

Lemma infer_rows_degraded (columns : list string) (reader : Csv.Iter DictRow) (e : Exn) :
  snd (infer_from_rows columns reader) = Some e ->
  fst (infer_from_rows columns reader) = default_types columns.
Proof.
  unfold infer_from_rows. destruct (take_rows _ reader); cbn; [discriminate | reflexivity].
Qed.

(** C8, as stated, fails when the exception comes after the header: a
    second record with a field beyond the limit of the csv module makes the
    reader raise while the rows are counted, and the analysis keeps the
    header it has read. *)
Lemma analysis_keeps_header_read_before_exception :
  let w := world_with_input "data/wide.csv" oversize_text in
  let w' := snd (create_version sample_system "data/wide.csv" None w) in
  analyze_rows (Csv.reader oversize_text) = (0, ["a"; "b"], Some CsvError) /\
  fst (create_version sample_system "data/wide.csv" None w) = Ok "v1" /\
  exists md,
    fst (get_version_metadata sample_system "v1" w') = Ok (JObj md) /\
    lookup "row_count" md = Some (JInt 0) /\
    lookup "columns" md = Some (JArr [JStr "a"; JStr "b"]).
Proof.
  split; [vm_compute; reflexivity|]. split; [vm_compute; reflexivity|].
  eexists. split; [vm_compute; reflexivity|]. split; reflexivity.
Qed.

(** C8 (amended): when reading the CSV rows raises during the analysis,
    [_analyze_csv] catches the exception, logs a warning and returns zero
    rows with the columns it has read so far: the header when the
    exception came after it, the empty list when the first record could not
    be read; [_infer_data_types] catches it likewise and leaves every
    column at string; [create_version] still completes (the name of the new
    version being free and the index readable) and stores this degraded
    metadata. *)
Theorem analysis_exception_degrades_metadata (self : System) :
  (forall p f w e,
     file_at p w = Some f ->
     snd (analyze_rows (Csv.reader (file_text self f))) = Some e ->
     exists w',
       _analyze_csv self p w
       = (Ok (0, header_read (Csv.reader (file_text self f))), w') /\
       same_files w w' /\
       logged w' = logged w ++ [{| level := WARNING;
                                   message := "Error analyzing CSV: ";
                                   cause := Some e |}]) /\
  (forall p f columns w e,
     file_at p w = Some f ->
     snd (infer_from_rows columns (DictReader (file_text self f))) = Some e ->
     exists w',
       _infer_data_types self p columns w = (Ok (default_types columns), w') /\
       same_files w w' /\
       logged w' = logged w ++ [{| level := WARNING;
                                   message := "Error inferring data types: ";
                                   cause := Some e |}]) /\
  (forall input q w text e,
     lookup input (outside w) = Some text ->
     match q with Some q => quality_in_range q = true | None => True end ->
     Py.endswith ".csv" (basename input) = true ->
     snd (analyze_rows (Csv.reader text)) = Some e ->
     let name := ("v" ++ Py.str_of_int (next_number (listdir w)))%string in
     lookup name (listdir w) = None ->
     appendable "versions" (index_file w) = true ->
     exists w' md,
       create_version self input q w = (Ok name, w') /\
       get_version_metadata self name w' = (Ok (JObj md), w') /\
       (metadata_include_row_count (config self) = true ->
        lookup "row_count" md = Some (JInt 0)) /\
       (metadata_include_columns (config self) = true ->
        lookup "columns" md = Some (JArr (map JStr (header_read (Csv.reader text)))))).
Proof.
  split; [|split].
  - intros p f w e Hf He.
    destruct (analyze_csv_run self p f w Hf) as (w' & E & S & Hlog).
    exists w'. rewrite E, (analyze_rows_degraded _ _ He). auto.
  - intros p f columns w e Hf He.
    destruct (infer_data_types_run self p f columns w Hf) as (w' & E & S & Hlog).
    exists w'. rewrite E, (infer_rows_degraded _ _ _ He). auto.
  - intros input q w text e Hin Hq Hcsv He name Hnew Happ.
    destruct (create_version_run self input q w text Hin Hq)
      as (r & w' & E & _ & _ & _ & Hrun).
    destruct (Hrun Hnew) as (Hv & Hok & _). specialize (Hok Happ). subst r.
    fold name in E.
    destruct (create_version_success _ _ _ _ _ _ E) as (text' & Hin' & _ & Hmeta & _).
    rewrite Hin in Hin'. injection Hin' as <-.
    exists w'. eexists. split; [exact E|]. split; [exact Hmeta|].
    pose proof (metadata_for_analysis self name (basename input) input q text
                  (clock w (ticks w)) Hcsv) as Hmd.
    cbv zeta in Hmd.
    pose proof (analyze_rows_degraded _ _ He) as Hd.
    destruct (analyze_rows (Csv.reader text)) as [[row_count columns] e'].
    cbn [fst] in Hd. injection Hd as -> ->.
    destruct Hmd as (H1 & H2 & _).
    split; [exact H1 | intros Hc; exact (proj1 (H2 Hc))].
Qed.

Lemma analysis_exception_degrades_metadata_witness :
  let w := world_with_input "data/wide.csv" oversize_text in
  snd (analyze_rows (Csv.reader oversize_text)) = Some CsvError /\
  exists w' md,
    create_version sample_system "data/wide.csv" None w = (Ok "v1", w') /\
    get_version_metadata sample_system "v1" w' = (Ok (JObj md), w') /\
    lookup "row_count" md = Some (JInt 0) /\
    lookup "columns" md = Some (JArr [JStr "a"; JStr "b"]).
Proof.
  intros w.
  assert (He : snd (analyze_rows (Csv.reader oversize_text)) = Some CsvError)
    by (vm_compute; reflexivity).
  split; [exact He|].
  destruct (proj2 (proj2 (analysis_exception_degrades_metadata sample_system))
              "data/wide.csv" None w oversize_text CsvError
              eq_refl I eq_refl He eq_refl eq_refl)
    as (w' & md & Hrun & Hmeta & Hrc & Hcols).
  exists w', md. split; [exact Hrun|]. split; [exact Hmeta|].
  split; [exact (Hrc eq_refl)|].
  rewrite (Hcols eq_refl). vm_compute. reflexivity.
Defined.

(** ** Rollback and comparison *)

Lemma str_in_iff (x : string) (l : list string) :
  Py.str_in x l = true <-> In x l.
Proof.
  unfold Py.str_in. rewrite existsb_exists. split.
  - intros (y & Hy & E). apply String.eqb_eq in E. now subst.
  - intros H. exists x. split; [assumption | apply String.eqb_refl].
Qed.

Lemma all_versions_member (w : World) (target : string) :
  exists l,
    get_all_versions w = (Ok l, w) /\
    (Py.str_in target l = true <-> In target (version_directories (listdir w))).
Proof.
  destruct (get_all_versions_run w) as (l & E & Hp & _).
  exists l. split; [assumption|]. rewrite str_in_iff. split; intros H.
  - now apply (Permutation_in _ Hp).
  - now apply (Permutation_in _ (Permutation_sym Hp)).
Qed.

Section Rollback.
Variable self : System.

Lemma get_current_version_run (w : World) :
  get_current_version self w = (Ok (current_version w), w).
Proof.
  unfold get_current_version, current_version.
  unfold bind at 1. unfold exists_file, read. cbn [file_at].
  destruct (current_version_file w) as [s|] eqn:E; cbn [option_map negb]; cbv iota;
    [|reflexivity].
  assert (Hf : file_at CurrentVersionFile w = Some (FText s))
    by (cbn [file_at]; now rewrite E).
  now rewrite (bind_ok _ _ _ _ _ (read_text_file_run self _ _ w Hf)).
Qed.

(** The log file after [_log_rollback_event]. *)
Lemma log_rollback_event_run (from_version : option string) (to_version : string)
  (w : World) :
  exists w',
    _log_rollback_event self from_version to_version w = (Ok tt, w') /\
    versions_dir w' = versions_dir w /\
    index_file w' = index_file w /\
    current_version_file w' = current_version_file w /\
    outside w' = outside w /\
    (appendable "rollbacks" (rollback_log_file w) = true ->
     recorded_rollbacks w'
     = recorded_rollbacks w
       ++ [rollback_event (clock w (ticks w)) from_version to_version]) /\
    (appendable "rollbacks" (rollback_log_file w) = false ->
     rollback_log_file w' = rollback_log_file w).
Proof.
  unfold _log_rollback_event, try_except, recorded_rollbacks, appendable.
  unfold bind at 1. unfold exists_file, read. cbn [file_at].
  destruct (rollback_log_file w) as [f|] eqn:El; cbv iota beta.
  - unfold bind at 1. rewrite load_json_run. cbn [file_at]. rewrite El.
    destruct f as [s|j]; cbv iota beta;
      [eexists; split; [reflexivity|]; cbn; rewrite El; repeat split; discriminate|].
    unfold bind at 1. unfold get_timestamp. cbv iota beta.
    unfold bind at 1. unfold lift, append_under.
    destruct j as [|b|n|q|s|items|members];
      try (eexists; split; [reflexivity|]; cbn; rewrite El; repeat split; discriminate).
    destruct (lookup "rollbacks" members) as [[|b|n|q|s|items|ms]|] eqn:Em;
      try (eexists; split; [reflexivity|]; cbn; rewrite El; repeat split; discriminate).
    eexists; split; [reflexivity|]. cbn. repeat split; try discriminate.
    intros _. unfold list_under. now rewrite lookup_store_same, Em.
  - eexists; split; [reflexivity|]. cbn. repeat split; discriminate.
Qed.

Lemma file_at_metadata_stored (v name : string) (f : File)
  (entries : list (string * Node)) (files : list (string * File)) (w : World) :
  file_at (InVersion v name)
    (with_versions_dir (Some (store v (NDir (store name f files)) entries)) w)
  = Some f.
Proof.
  cbn [file_at versions_dir with_versions_dir].
  now rewrite !lookup_store_same.
Qed.

(** The metadata of the version after [_create_rollback_backup]. *)
Lemma create_rollback_backup_run (version_name : option string) (w : World) :
  exists w',
    _create_rollback_backup self version_name w = (Ok tt, w') /\
    index_file w' = index_file w /\
    current_version_file w' = current_version_file w /\
    rollback_log_file w' = rollback_log_file w /\
    outside w' = outside w /\
    ticks w' = S (ticks w) /\ clock w' = clock w /\
    match version_name with
    | Some v =>
        (annotatable v w = true ->
         recorded_backups v w'
         = recorded_backups v w ++ [backup_info (clock w (ticks w)) version_name]) /\
        (annotatable v w = false -> versions_dir w' = versions_dir w)
    | None => versions_dir w' = versions_dir w
    end.
Proof.
  unfold _create_rollback_backup, try_except.
  unfold bind at 1. unfold get_timestamp. cbv iota beta.
  fold (backup_info (clock w (ticks w)) version_name).
  set (info := backup_info _ _).
  destruct version_name as [v|].
  2:{ eexists; split; [reflexivity|]. cbn. repeat split. }
  unfold bind at 1. unfold lift. cbv iota beta.
  unfold bind at 1. unfold exists_file, read. cbv iota beta.
  unfold annotatable, recorded_backups.
  cbn [file_at versions_dir with_ticks].
  destruct (versions_dir w) as [entries|] eqn:Ev.
  2:{ eexists; split; [reflexivity|]. cbn. rewrite Ev. repeat split; discriminate. }
  destruct (lookup v entries) as [[f0|files]|] eqn:Ed;
    try (eexists; split; [reflexivity|]; cbn; rewrite Ev; repeat split; discriminate).
  destruct (lookup "metadata.json" files) as [[s|j]|] eqn:Ef.
  - (* not JSON *)
    unfold bind at 1. unfold bind at 1. rewrite load_json_run.
    cbn [file_at versions_dir with_ticks]. rewrite Ev, Ed, Ef.
    eexists; split; [reflexivity|]. cbn. rewrite Ev. repeat split; discriminate.
  - unfold bind at 1. unfold bind at 1. rewrite load_json_run.
    cbn [file_at versions_dir with_ticks]. rewrite Ev, Ed, Ef. cbv iota beta.
    unfold bind at 1. unfold lift, add_backup, append_under, dict_has.
    destruct j as [|b|n|q|s|items|members];
      try (eexists; split; [reflexivity|]; cbn; rewrite Ev; repeat split; discriminate).
    fold (@lookup json "backups" members).
    destruct (lookup "backups" members) as [[|b|n|q|s|items|ms]|] eqn:Eb;
      cbn [negb]; rewrite ?lookup_store_same; fold (@lookup json "backups" members);
      rewrite ?Eb;
      try (eexists; split; [reflexivity|]; cbn; rewrite Ev; repeat split; discriminate).
    + (* a list of backups *)
      rewrite (save_version_json_run self v "metadata.json" _ entries files
                 (with_ticks (S (ticks w)) w) Ev Ed).
      unfold logger_info, logger, modify.
      eexists; split; [reflexivity|].
      cbn [index_file current_version_file rollback_log_file outside ticks clock
           with_logged with_versions_dir with_ticks].
      repeat split; try discriminate. intros _.
      cbn [versions_dir with_logged with_versions_dir with_ticks].
      rewrite !lookup_store_same.
      unfold list_under. now rewrite lookup_store_same, Eb.
    + (* no backups yet *)
      rewrite (save_version_json_run self v "metadata.json" _ entries files
                 (with_ticks (S (ticks w)) w) Ev Ed).
      unfold logger_info, logger, modify.
      eexists; split; [reflexivity|].
      cbn [index_file current_version_file rollback_log_file outside ticks clock
           with_logged with_versions_dir with_ticks].
      repeat split; try discriminate. intros _.
      cbn [versions_dir with_logged with_versions_dir with_ticks].
      rewrite !lookup_store_same.
      unfold list_under. now rewrite !lookup_store_same, Eb.
  - eexists; split; [reflexivity|]. cbn. rewrite Ev. repeat split; discriminate.
Qed.

Lemma recorded_backups_versions (v : string) (w w' : World) :
  versions_dir w' = versions_dir w ->
  recorded_backups v w' = recorded_backups v w /\ annotatable v w' = annotatable v w.
Proof.
  intros H. unfold recorded_backups, annotatable. cbn [file_at]. now rewrite H.
Qed.

Lemma recorded_rollbacks_log (w w' : World) :
  rollback_log_file w' = rollback_log_file w ->
  recorded_rollbacks w' = recorded_rollbacks w.
Proof. intros H. unfold recorded_rollbacks. now rewrite H. Qed.

Lemma rollback_refused_missing (target : string) (create_backup : bool) (w : World) :
  ~ In target (version_directories (listdir w)) ->
  exists w',
    rollback_to_version self target create_backup w
    = (Err (FileNotFoundError ("Target version '" ++ target ++ "' does not exist")), w') /\
    same_files w w'.
Proof.
  intros Hn. unfold rollback_to_version.
  destruct (all_versions_member w target) as (l & E & Hl).
  rewrite (bind_ok _ _ _ _ _ E).
  destruct (Py.str_in target l) eqn:Es; [now elim Hn; apply Hl|].
  cbn [negb]. cbv iota.
  eexists. split; [reflexivity|]. apply same_files_logged.
Qed.

Lemma rollback_refused_current (target : string) (create_backup : bool) (w : World) :
  In target (version_directories (listdir w)) ->
  current_version w = Some target ->
  exists w',
    rollback_to_version self target create_backup w
    = (Err (ValueError ("Already at version " ++ target)), w') /\
    same_files w w'.
Proof.
  intros Hin Hc. unfold rollback_to_version.
  destruct (all_versions_member w target) as (l & E & Hl).
  rewrite (bind_ok _ _ _ _ _ E).
  rewrite (proj2 Hl Hin). cbn [negb]. cbv iota.
  rewrite (bind_ok _ _ _ _ _ (get_current_version_run w)), Hc, String.eqb_refl.
  eexists. split; [reflexivity|]. apply same_files_logged.
Qed.

Lemma rollback_run (target : string) (create_backup : bool) (w : World) :
  In target (version_directories (listdir w)) ->
  current_version w <> Some target ->
  exists w',
    rollback_to_version self target create_backup w = (Ok true, w') /\
    current_version_file w' = Some target /\
    index_file w' = index_file w /\
    outside w' = outside w /\
    (appendable "rollbacks" (rollback_log_file w) = true ->
     exists ts, recorded_rollbacks w'
                = recorded_rollbacks w ++ [rollback_event ts (current_version w) target]) /\
    (appendable "rollbacks" (rollback_log_file w) = false ->
     rollback_log_file w' = rollback_log_file w) /\
    (create_backup && version_management_backup_before_rollback (config self) = false ->
     versions_dir w' = versions_dir w) /\
    (create_backup && version_management_backup_before_rollback (config self) = true ->
     match current_version w with
     | Some current =>
         (annotatable current w = true ->
          exists ts, recorded_backups current w'
                     = recorded_backups current w ++ [backup_info ts (Some current)]) /\
         (annotatable current w = false -> versions_dir w' = versions_dir w)
     | None => versions_dir w' = versions_dir w
     end).
Proof.
  intros Hin Hc. unfold rollback_to_version.
  destruct (all_versions_member w target) as (l & E & Hl).
  rewrite (bind_ok _ _ _ _ _ E).
  rewrite (proj2 Hl Hin). cbn [negb]. cbv iota.
  rewrite (bind_ok _ _ _ _ _ (get_current_version_run w)).
  assert (Hne : match current_version w with
                | Some c => String.eqb c target
                | None => false
                end = false).
  { destruct (current_version w) as [c|]; [|reflexivity].
    apply String.eqb_neq. congruence. }
  rewrite Hne. clear Hne.
  unfold logger_info at 1, logger. unfold bind at 1, modify.
  set (w1 := with_logged _ w).
  (* the backup *)
  assert (Hbackup : exists w2,
    (if create_backup && version_management_backup_before_rollback (config self)
     then _create_rollback_backup self (current_version w)
     else ret tt) w1 = (Ok tt, w2) /\
    index_file w2 = index_file w /\
    current_version_file w2 = current_version_file w /\
    rollback_log_file w2 = rollback_log_file w /\
    outside w2 = outside w /\
    (create_backup && version_management_backup_before_rollback (config self) = false ->
     versions_dir w2 = versions_dir w) /\
    (create_backup && version_management_backup_before_rollback (config self) = true ->
     match current_version w with
     | Some current =>
         (annotatable current w = true ->
          exists ts, recorded_backups current w2
                     = recorded_backups current w ++ [backup_info ts (Some current)]) /\
         (annotatable current w = false -> versions_dir w2 = versions_dir w)
     | None => versions_dir w2 = versions_dir w
     end)).
  { destruct (create_backup && _).
    - destruct (create_rollback_backup_run (current_version w) w1)
        as (w2 & E2 & Hi & Hcur & Hr & Ho & _ & _ & Hv).
      exists w2. split; [exact E2|]. repeat split; try assumption; try discriminate.
      intros _. destruct (current_version w) as [c|]; [|exact Hv].
      destruct (recorded_backups_versions c w w1 eq_refl) as [Hb Ha].
      rewrite Hb, Ha in Hv. destruct Hv as [Hv1 Hv2].
      split; [intros H; eexists; exact (Hv1 H) | exact Hv2].
    - exists w1. split; [reflexivity|]. repeat split; discriminate. }
  destruct Hbackup as (w2 & E2 & Hi2 & Hc2 & Hr2 & Ho2 & Hv2f & Hv2t).
  rewrite (bind_ok _ _ _ _ _ E2).
  destruct (set_current_version_run self target w2)
    as (w3 & E3 & Hv3 & Hi3 & Hc3 & Hr3 & Ho3).
  rewrite (bind_ok _ _ _ _ _ E3).
  destruct (log_rollback_event_run (current_version w) target w3)
    as (w4 & E4 & Hv4 & Hi4 & Hc4 & Ho4 & Hl4t & Hl4f).
  rewrite (bind_ok _ _ _ _ _ E4).
  unfold logger_info, logger, modify, bind, ret.
  eexists. split; [reflexivity|].
  cbn [current_version_file index_file outside versions_dir rollback_log_file with_logged].
  assert (Hr : rollback_log_file w3 = rollback_log_file w) by congruence.
  assert (Hv : versions_dir w4 = versions_dir w2) by congruence.
  split; [congruence|]. split; [congruence|]. split; [congruence|].
  split; [|split; [|split]].
  - intros Ha. rewrite <- Hr in Ha. specialize (Hl4t Ha).
    exists (clock w3 (ticks w3)).
    rewrite <- (recorded_rollbacks_log w w3 Hr), <- Hl4t. reflexivity.
  - intros Ha. rewrite <- Hr in Ha. rewrite (Hl4f Ha). exact Hr.
  - intros Hb. rewrite Hv. auto.
  - intros Hb. specialize (Hv2t Hb).
    destruct (current_version w) as [c|]; [|rewrite Hv; exact Hv2t].
    destruct Hv2t as [Ht Hf]. split.
    + intros Ha. destruct (Ht Ha) as [ts Hts]. exists ts.
      rewrite <- Hts. unfold recorded_backups. cbn [file_at versions_dir with_logged].
      now rewrite Hv.
    + intros Ha. rewrite Hv. auto.
Qed.

End Rollback.

Lemma get_rollback_history_run (self : System) (w : World) :
  exists w',
    get_rollback_history self w = (Ok (stored_history (rollback_log_file w)), w') /\
    same_files w w'.
Proof.
  unfold get_rollback_history, try_except, stored_history.
  unfold bind at 1. unfold exists_file, read. cbn [file_at].
  destruct (rollback_log_file w) as [f|] eqn:El; cbv iota beta.
  - unfold bind. rewrite load_json_run. cbn [file_at]. rewrite El.
    destruct f as [s|j]; cbv iota beta.
    + eexists. split; [reflexivity | apply same_files_logged].
    + unfold lift, metadata_get.
      destruct j as [|b|n|q|s|items|members];
        eexists; (split; [reflexivity|]);
        apply same_files_logged || apply same_files_refl.
  - eexists. split; [reflexivity | apply same_files_refl].
Qed.

(** C10: on a log file whose [rollbacks] is not a list,
    [get_rollback_history] returns the stored value as it is, here the
    number 5, where its docstring and its annotation promise a list. *)
Lemma rollback_history_returns_stored_value :
  let w := two_versions (Some (FJson (JObj [("rollbacks", JInt 5)]))) in
  fst (get_rollback_history sample_system w) = Ok (JInt 5) /\
  is_list (JInt 5) = false.
Proof. split; reflexivity. Qed.

(** X28: [get_rollback_history] never raises, whatever the log file
    holds, and leaves the files as they are.  It returns the list of the
    recorded events, oldest first, whenever the log can be appended to (it
    is absent, or holds an object whose [rollbacks] is a list, as in every
    log the system writes); the empty list when the file does not exist,
    when it cannot be parsed, when the document is not an object and when
    the object has no [rollbacks]; and for an object, what is stored under
    [rollbacks], unchecked. *)
Theorem get_rollback_history_never_raises (self : System) (w : World) :
  exists w',
    get_rollback_history self w = (Ok (stored_history (rollback_log_file w)), w') /\
    same_files w w' /\
    (appendable "rollbacks" (rollback_log_file w) = true ->
     stored_history (rollback_log_file w) = JArr (recorded_rollbacks w)) /\
    (rollback_log_file w = None -> stored_history (rollback_log_file w) = JArr []) /\
    (forall text, rollback_log_file w = Some (FText text) ->
                  stored_history (rollback_log_file w) = JArr []) /\
    (forall j, rollback_log_file w = Some (FJson j) ->
               (forall members, j <> JObj members) ->
               stored_history (rollback_log_file w) = JArr []) /\
    (forall members, rollback_log_file w = Some (FJson (JObj members)) ->
       stored_history (rollback_log_file w)
       = match lookup "rollbacks" members with Some v => v | None => JArr [] end).
Proof.
  destruct (get_rollback_history_run self w) as (w' & E & S).
  exists w'. split; [exact E|]. split; [exact S|].
  unfold appendable, recorded_rollbacks, stored_history, list_under.
  repeat split.
  - destruct (rollback_log_file w) as [[s|[|b|n|q|s|items|members]]|];
      try discriminate; try reflexivity.
    destruct (lookup "rollbacks" members) as [[|b|n|q|s|items|ms]|];
      try discriminate; reflexivity.
  - now intros ->.
  - now intros text ->.
  - intros j -> Hj. destruct j; try reflexivity. now elim (Hj members).
  - now intros members ->.
Qed.

Lemma get_rollback_history_never_raises_witness :
  let entry := rollback_event "T0" (Some "v2") "v1" in
  let w := two_versions (Some (FJson (JObj [("rollbacks", JArr [entry])]))) in
  appendable "rollbacks" (rollback_log_file w) = true /\
  fst (get_rollback_history sample_system w) = Ok (JArr [entry]).
Proof.
  intros entry w. split; [reflexivity|].
  destruct (get_rollback_history_never_raises sample_system w) as (w' & E & _ & H & _).
  rewrite E. cbn [fst]. now rewrite (H eq_refl).
Defined.

(** C1, as stated, fails when the log file cannot be read: the rollback
    succeeds, the marker moves, and the history has no new entry. *)
Lemma rollback_succeeds_without_audit_entry :
  let w := two_versions (Some (FText "{ truncated")) in
  let w' := snd (rollback_to_version sample_system "v1" true w) in
  current_version w = Some "v2" /\
  fst (rollback_to_version sample_system "v1" true w) = Ok true /\
  current_version_file w' = Some "v1" /\
  fst (get_rollback_history sample_system w) = Ok (JArr []) /\
  fst (get_rollback_history sample_system w') = Ok (JArr []).
Proof. repeat split; vm_compute; reflexivity. Qed.

(** C1 (amended): a call [rollback_to_version(target, create_backup)] made
    while the marker reads [current], for an existing [target] other than
    [current], returns [True] and leaves [target] in the marker file,
    whether the two bookkeeping steps succeed or not.  The rollback history
    gains exactly one entry, from [current] to [target], when the log file
    is absent or holds an object whose [rollbacks] is a list; otherwise the
    log file stays as it is.  When a backup is requested and enabled by the
    configuration, the metadata of [current] gains exactly one backup
    annotation if it is a JSON object whose [backups] is absent or a list;
    otherwise, and when no backup is requested or enabled, the versions
    directory stays as it is. *)
Theorem rollback_moves_marker_and_records (self : System) (current target : string)
  (create_backup : bool) (w : World) :
  current_version w = Some current ->
  In target (version_directories (listdir w)) ->
  current <> target ->
  exists w',
    rollback_to_version self target create_backup w = (Ok true, w') /\
    current_version_file w' = Some target /\
    (appendable "rollbacks" (rollback_log_file w) = true ->
     exists ts, recorded_rollbacks w'
                = recorded_rollbacks w ++ [rollback_event ts (Some current) target]) /\
    (appendable "rollbacks" (rollback_log_file w) = false ->
     rollback_log_file w' = rollback_log_file w) /\
    (create_backup && version_management_backup_before_rollback (config self) = true ->
     annotatable current w = true ->
     exists ts, recorded_backups current w'
                = recorded_backups current w ++ [backup_info ts (Some current)]) /\
    (create_backup && version_management_backup_before_rollback (config self) = true ->
     annotatable current w = false ->
     versions_dir w' = versions_dir w) /\
    (create_backup && version_management_backup_before_rollback (config self) = false ->
     versions_dir w' = versions_dir w).
Proof.
  intros Hc Hin Hne.
  destruct (rollback_run self target create_backup w Hin)
    as (w' & E & Hm & _ & _ & Hlt & Hlf & Hbf & Hbt); [congruence|].
  rewrite Hc in *.
  exists w'. split; [exact E|]. split; [exact Hm|]. split; [exact Hlt|].
  split; [exact Hlf|].
  split; [intros Hb; exact (proj1 (Hbt Hb))|].
  split; [intros Hb; exact (proj2 (Hbt Hb)) | exact Hbf].
Qed.

Lemma rollback_moves_marker_and_records_witness :
  let w := two_versions None in
  exists w',
    rollback_to_version sample_system "v1" true w = (Ok true, w') /\
    current_version_file w' = Some "v1" /\
    (exists ts, recorded_rollbacks w' = [rollback_event ts (Some "v2") "v1"]) /\
    (exists ts, recorded_backups "v2" w' = [backup_info ts (Some "v2")]).
Proof.
  intros w.
  assert (Hin : In "v1" (version_directories (listdir w))) by (left; reflexivity).
  assert (Hne : "v2" <> "v1") by discriminate.
  destruct (rollback_moves_marker_and_records sample_system "v2" "v1" true w
              eq_refl Hin Hne)
    as (w' & E & Hm & Hl & _ & Hb & _).
  exists w'. split; [exact E|]. split; [exact Hm|].
  split; [exact (Hl eq_refl) | exact (Hb eq_refl eq_refl)].
Defined.

(** C2, as stated, fails when the marker names a version whose directory is
    gone: a rollback to it, the current version, raises not-found. *)
Lemma rollback_to_missing_current_version :
  let w := with_current_version_file (Some "v9") (two_versions None) in
  current_version w = Some "v9" /\
  fst (rollback_to_version sample_system "v9" true w)
  = Err (FileNotFoundError "Target version 'v9' does not exist").
Proof. split; reflexivity. Qed.

(** C2 (amended): for every target, [rollback_to_version] raises
    [FileNotFoundError] ("Target version ... does not exist") when the
    target is not among the versions on disk, and raises [ValueError]
    ("Already at version X") when the target is among the versions on disk
    and is the current version; in both cases the versions directory, hence
    the metadata of every version, the index, the marker and the rollback
    history are exactly as before the call. *)
Theorem rollback_failures_change_nothing (self : System) (target : string)
  (create_backup : bool) (w : World) :
  (~ In target (version_directories (listdir w)) ->
   exists w',
     rollback_to_version self target create_backup w
     = (Err (FileNotFoundError ("Target version '" ++ target ++ "' does not exist")), w') /\
     persisted w' = persisted w /\ outside w' = outside w) /\
  (In target (version_directories (listdir w)) ->
   current_version w = Some target ->
   exists w',
     rollback_to_version self target create_backup w
     = (Err (ValueError ("Already at version " ++ target)), w') /\
     persisted w' = persisted w /\ outside w' = outside w).
Proof.
  split.
  - intros Hn. destruct (rollback_refused_missing self target create_backup w Hn)
      as (w' & E & S). exists w'. split; [exact E | exact S].
  - intros Hin Hc.
    destruct (rollback_refused_current self target create_backup w Hin Hc)
      as (w' & E & S). exists w'. split; [exact E | exact S].
Qed.

Lemma rollback_failures_change_nothing_witness :
  let w := two_versions None in
  (~ In "v7" (version_directories (listdir w))) /\
  In "v2" (version_directories (listdir w)) /\
  current_version w = Some "v2" /\
  (exists w', rollback_to_version sample_system "v7" true w
              = (Err (FileNotFoundError "Target version 'v7' does not exist"), w')
              /\ persisted w' = persisted w) /\
  (exists w', rollback_to_version sample_system "v2" true w
              = (Err (ValueError "Already at version v2"), w')
              /\ persisted w' = persisted w).
Proof.
  intros w.
  assert (Hn : ~ In "v7" (version_directories (listdir w))).
  { intros [H|[H|[]]]; discriminate. }
  assert (Hin : In "v2" (version_directories (listdir w))) by (right; left; reflexivity).
  split; [exact Hn|]. split; [exact Hin|]. split; [reflexivity|].
  split.
  - destruct (proj1 (rollback_failures_change_nothing sample_system "v7" true w) Hn)
      as (w' & E & P & _). exists w'. split; [exact E | exact P].
  - destruct (proj2 (rollback_failures_change_nothing sample_system "v2" true w)
                Hin eq_refl)
      as (w' & E & P & _). exists w'. split; [exact E | exact P].
Defined.



Lemma set_diff_self (l : list string) : set_diff l l = [].
Proof.
  unfold set_diff.
  assert (H : forall a, (forall x, In x a -> In x l) ->
                        filter (fun x => negb (Py.str_in x l)) a = []).
  { induction a as [|x a IH]; intros Ha; [reflexivity|].
    cbn [filter]. rewrite (proj2 (str_in_iff x l)) by (apply Ha; now left).
    cbn [negb]. apply IH. intros y Hy. apply Ha. now right. }
  apply H. auto.
Qed.

Lemma dict_get_nodup {V} (k : string) (v : V) (d : list (string * V)) :
  NoDup (map fst d) -> In (k, v) d -> dict_get String.eqb k d = Some v.
Proof.
  induction d as [|[k' v'] d IH]; intros Hnd Hin; [contradiction|].
  cbn [map fst] in Hnd. inversion Hnd as [|? ? Hk Hd]; subst.
  cbn [dict_get]. destruct Hin as [[= -> ->]|Hin].
  - now rewrite String.eqb_refl.
  - destruct (String.eqb_spec k k') as [->|_]; [|auto].
    elim Hk. apply in_map_iff. now exists (k', v).
Qed.

Lemma changed_types_unchanged (types1 types2 : list (string * string))
  (acc : list (string * (string * string))) :
  (forall c t, In (c, t) types1 -> dict_get String.eqb c types2 = Some t) ->
  changed_types_loop types1 types2 acc = acc.
Proof.
  revert acc. induction types1 as [|[c t] rest IH]; intros acc H; [reflexivity|].
  cbn [changed_types_loop]. rewrite (H c t) by now left.
  rewrite String.eqb_refl. cbn [negb]. apply IH.
  intros c' t' Hin. apply H. now right.
Qed.

Lemma compare_row_counts_same (metadata : json) (row_count : Z) :
  rbind (metadata_get "row_count" (JInt 0) metadata) as_int = Ok row_count ->
  exists rc, _compare_row_counts metadata metadata = Ok rc /\
             difference rc = 0%Z /\ direction rc = "no change".
Proof.
  intros H. unfold _compare_row_counts. rewrite H. cbn [rbind].
  eexists. split; [reflexivity|]. cbn [difference direction].
  rewrite Z.sub_diag. split; reflexivity.
Qed.

Lemma compare_columns_same (metadata : json) (columns : list string) :
  rbind (metadata_get "columns" (JArr []) metadata) as_string_list = Ok columns ->
  exists cc, _compare_columns metadata metadata = Ok cc /\
             added_columns cc = [] /\ removed_columns cc = [] /\
             columns_added_count cc = 0 /\ columns_removed_count cc = 0.
Proof.
  intros H. unfold _compare_columns. rewrite H. cbn [rbind].
  eexists. split; [reflexivity|].
  cbn [added_columns removed_columns columns_added_count columns_removed_count].
  rewrite !set_diff_self. repeat split.
Qed.

Lemma compare_data_types_same (metadata : json) (types : list (string * string)) :
  rbind (metadata_get "data_types" (JObj []) metadata) as_type_map = Ok types ->
  NoDup (map fst types) ->
  exists dt, _compare_data_types metadata metadata = Ok dt /\
             changed_columns dt = [] /\ total_changes dt = 0.
Proof.
  intros H Hnd. unfold _compare_data_types. rewrite H. cbn [rbind].
  eexists. split; [reflexivity|]. cbn [changed_columns total_changes].
  rewrite changed_types_unchanged; [split; reflexivity|].
  intros c t Hin. now apply dict_get_nodup.
Qed.

Lemma summary_of_no_difference (self : System) (c : Comparison) :
  (forall rc, row_count_comparison c = Some rc -> difference rc = 0%Z) ->
  (forall cc, column_comparison c = Some cc ->
              columns_added_count cc = 0 /\ columns_removed_count cc = 0) ->
  (forall dt, data_type_comparison c = Some dt -> total_changes dt = 0) ->
  _generate_summary self c
  = {| total_differences := 0;
       key_changes := ["No significant differences found"] |}.
Proof.
  intros Hrc Hcc Hdt. unfold _generate_summary.
  destruct (row_count_comparison c) as [rc|];
    [rewrite (Hrc rc eq_refl); cbn [Z.eqb negb count_change]|];
  (destruct (column_comparison c) as [cc|];
    [destruct (Hcc cc eq_refl) as [-> ->]; cbn [Nat.ltb Nat.leb count_change]|]);
  (destruct (data_type_comparison c) as [dt|];
    [rewrite (Hdt dt eq_refl); cbn [Nat.ltb Nat.leb count_change]|]);
  reflexivity.
Qed.

Section Compare.
Variable self : System.

Lemma read_csv_sample_run (p : Path) (n : Z) (w : World) :
  exists sample w',
    _read_csv_sample self p n w = (Ok sample, w') /\ same_files w w'.
Proof.
  unfold _read_csv_sample, bind, read.
  destruct (file_at p w) as [f|].
  - destruct (sample_loop n 0 (DictReader (file_text self f))) as [sample [e|]];
      eexists; eexists; (split; [reflexivity|]);
      apply same_files_logged || apply same_files_refl.
  - eexists; eexists; split; [reflexivity | apply same_files_logged].
Qed.

Lemma get_version_dataset_path_run (v file : string)
  (entries : list (string * Node)) (files : list (string * File)) (w : World) :
  versions_dir w = Some entries ->
  lookup v entries = Some (NDir files) ->
  first_csv files = Some file ->
  get_version_dataset_path self v w = (Ok (InVersion v file), w).
Proof.
  intros Hv Hl Hf. unfold get_version_dataset_path, bind, read.
  cbv beta iota. now rewrite Hv, Hl, Hf.
Qed.

End Compare.

Lemma when_pure {A} (cond : bool) (a : A) (w : World) :
  when cond (lift (Ok a)) w = (Ok (if cond then Some a else None), w).
Proof. destruct cond; reflexivity. Qed.

Lemma compare_sample_data_run (self : System) (p1 p2 : Path) (cond : bool) (w : World) :
  exists sd w',
    when cond (_compare_sample_data self p1 p2) w = (Ok sd, w') /\ same_files w w'.
Proof.
  destruct cond; [|eexists; eexists; split; [reflexivity | apply same_files_refl]].
  unfold when, _compare_sample_data.
  destruct (read_csv_sample_run self p1 (comparison_sample_size (config self)) w)
    as (s1 & wa & Ea & Sa).
  destruct (read_csv_sample_run self p2 (comparison_sample_size (config self)) wa)
    as (s2 & wb & Eb & Sb).
  rewrite bind_assoc, (bind_ok _ _ _ _ _ Ea).
  rewrite bind_assoc, (bind_ok _ _ _ _ _ Eb).
  eexists; eexists; split; [reflexivity|].
  eapply same_files_trans; eassumption.
Qed.

Lemma store_keys {V} (k : string) (v : V) (d : list (string * V)) :
  map fst (store k v d) = if dict_has String.eqb k d then map fst d else map fst d ++ [k].
Proof.
  unfold store, dict_has. induction d as [|[k' v'] d IH]; [reflexivity|].
  cbn [dict_set dict_get]. destruct (String.eqb k k') eqn:E; [reflexivity|].
  cbn [map fst]. rewrite IH.
  destruct (dict_get String.eqb k d); reflexivity.
Qed.

Lemma dict_has_in {V} (k : string) (d : list (string * V)) :
  dict_has String.eqb k d = false -> ~ In k (map fst d).
Proof.
  unfold dict_has. induction d as [|[k' v'] d IH]; [intros _ []|].
  cbn [dict_get map fst]. destruct (String.eqb_spec k k') as [->|Hne]; [discriminate|].
  intros H [Hk|Hk]; [congruence | exact (IH H Hk)].
Qed.

Lemma string_dict_store (k s : string) (d : list (string * json)) :
  string_dict d -> string_dict (store k (JStr s) d).
Proof.
  intros [Hnd Hall]. split.
  - rewrite store_keys. destruct (dict_has String.eqb k d) eqn:E; [assumption|].
    apply NoDup_app; [assumption | repeat constructor; intros [] | ].
    intros x Hx [<-|[]]. exact (dict_has_in _ _ E Hx).
  - unfold store. induction Hall as [|[k' v'] d Hkv Hall IH]; cbn [dict_set].
    + repeat constructor. now exists s.
    + inversion Hnd; subst.
      destruct (String.eqb k k'); constructor; auto. now exists s.
Qed.

Lemma string_dict_fold (f : string -> string) (cols : list string)
  (d : list (string * json)) :
  string_dict d ->
  string_dict (fold_left (fun d c => store c (JStr (f c)) d) cols d).
Proof.
  revert d. induction cols as [|c cols IH]; intros d H; [exact H|].
  cbn [fold_left]. apply IH. now apply string_dict_store.
Qed.

Lemma string_dict_types (d : list (string * json)) :
  string_dict d ->
  exists types, as_string_dict d = Ok types /\ NoDup (map fst types).
Proof.
  intros [Hnd Hall]. induction Hall as [|[k v] d [s Hs] Hall IH].
  - exists []. split; [reflexivity | constructor].
  - cbn [snd] in Hs. subst v. cbn [map fst] in Hnd. inversion Hnd as [|? ? Hk Hd]; subst.
    destruct (IH Hd) as (types & E & Hn).
    assert (Hkeys : map fst types = map fst d).
    { clear - E. revert types E. induction d as [|[k' v'] d IHd]; intros types E.
      - now inversion E.
      - cbn [as_string_dict] in E. destruct v'; try discriminate.
        destruct (as_string_dict d) as [l|]; [|discriminate].
        inversion E; subst. cbn [map fst]. f_equal. now apply IHd. }
    exists ((k, s) :: types). cbn [as_string_dict]. rewrite E. split; [reflexivity|].
    cbn [map fst]. constructor; [now rewrite Hkeys | assumption].
Qed.

Lemma inferred_types_dict (columns : list string) (reader : Csv.Iter DictRow) :
  string_dict (fst (infer_from_rows columns reader)).
Proof.
  assert (Hd : string_dict (default_types columns)).
  { unfold default_types.
    apply (string_dict_fold (fun _ => "string")). split; constructor. }
  unfold infer_from_rows. destruct (take_rows _ reader) as [sample|e]; [|exact Hd].
  cbn [fst]. now apply (string_dict_fold (fun c => column_type c sample)).
Qed.

Lemma as_strings_map (l : list string) : as_strings (map JStr l) = Ok l.
Proof.
  induction l as [|x l IH]; [reflexivity|]. cbn [map as_strings]. now rewrite IH.
Qed.

(** The metadata [create_version] writes has the types the comparator
    reads. *)
Lemma created_metadata_well_typed (self : System) (version_name : string)
  (dataset_path : Path) (source_file : string) (q : option Q) (text created_at : string) :
  well_typed_metadata
    (JObj (metadata_for self version_name dataset_path source_file q text created_at)).
Proof.
  unfold well_typed_metadata, metadata_for, metadata_get.
  destruct (analyze_rows (Csv.reader text)) as [[row_count columns] e].
  destruct (string_dict_types _ (inferred_types_dict columns (DictReader text)))
    as (types & Et & Hn).
  pose proof (as_strings_map columns) as Hc.
  destruct (Py.endswith ".csv" (path_str self dataset_path)),
           (metadata_include_row_count (config self)),
           (metadata_include_columns (config self)),
           (metadata_include_data_types (config self)),
           (metadata_include_file_hash (config self)),
           (metadata_include_file_size (config self)), q;
    cbn; rewrite ?Hc, ?Et;
    (split; [eexists; reflexivity|]);
    (split; [eexists; reflexivity|]);
    eexists; (split; [reflexivity|]); (exact Hn || constructor).
Qed.

(** C7, as stated, fails on a version whose dataset is not named *.csv:
    [create_version] has stored the dataset and the metadata, and comparing
    the version with itself raises.  It fails as well on a version whose
    metadata file holds [null] for the row count: the subtraction of
    [_compare_row_counts] raises. *)
Lemma comparing_with_itself_can_raise :
  let text := (line "id,amount" ++ line "1,10")%string in
  let w := world_with_input "data/SALES.CSV" text in
  let w' := snd (create_version sample_system "data/SALES.CSV" None w) in
  let untyped :=
    {| outside := [];
       versions_dir :=
         Some [("v1", NDir [("sales.csv", FText text);
                            ("metadata.json",
                             FJson (JObj [("version", JStr "v1");
                                          ("row_count", JNull)]))])];
       index_file := None;
       current_version_file := Some "v1";
       rollback_log_file := None;
       clock := fun n => ("T" ++ Py.str_of_int (Z.of_nat n))%string;
       ticks := 0; logged := [] |} in
  (fst (create_version sample_system "data/SALES.CSV" None w) = Ok "v1" /\
   file_at (InVersion "v1" "SALES.CSV") w' = Some (FText text) /\
   (exists md, fst (get_version_metadata sample_system "v1" w') = Ok (JObj md)) /\
   fst (compare_versions sample_system "v1" "v1" w')
   = Err (FileNotFoundError "No dataset file found in versions/v1")) /\
  (fst (get_version_dataset_path sample_system "v1" untyped)
   = Ok (InVersion "v1" "sales.csv") /\
   (exists md, fst (get_version_metadata sample_system "v1" untyped) = Ok (JObj md)) /\
   fst (compare_versions sample_system "v1" "v1" untyped) = Err TypeError).
Proof.
  split.
  - split; [vm_compute; reflexivity|]. split; [vm_compute; reflexivity|].
    split; [eexists; vm_compute; reflexivity | vm_compute; reflexivity].
  - split; [vm_compute; reflexivity|].
    split; [eexists; vm_compute; reflexivity | vm_compute; reflexivity].
Qed.

(** C7 (amended): for a version whose directory holds a dataset file
    named *.csv and a metadata file holding a JSON object with fields
    of the types [create_version] writes, [compare_versions(v, v)]
    returns a report (and changes no file) in which every comparison
    switched on by the configuration shows no difference: a row-count
    difference of 0 with direction "no change", no added and no removed
    columns, no changed data type; the summary counts 0 differences and
    its key changes are the one line "No significant differences found". *)
Theorem compare_version_with_itself (self : System) (v file : string)
  (entries : list (string * Node)) (files : list (string * File))
  (metadata : json) (w : World) :
  versions_dir w = Some entries ->
  lookup v entries = Some (NDir files) ->
  lookup "metadata.json" files = Some (FJson metadata) ->
  first_csv files = Some file ->
  well_typed_metadata metadata ->
  exists comparison summary w',
    compare_versions self v v w = (Ok (comparison, summary), w') /\
    same_files w w' /\
    (comparison_compare_row_count (config self) = true ->
     exists rc, row_count_comparison comparison = Some rc /\
                difference rc = 0%Z /\ direction rc = "no change") /\
    (comparison_compare_columns (config self) = true ->
     exists cc, column_comparison comparison = Some cc /\
                added_columns cc = [] /\ removed_columns cc = []) /\
    (comparison_compare_data_types (config self) = true ->
     exists dt, data_type_comparison comparison = Some dt /\
                changed_columns dt = [] /\ total_changes dt = 0) /\
    total_differences summary = 0 /\
    key_changes summary = ["No significant differences found"].
Proof.
  intros Hv Hl Hm Hf ((row_count & Hrc) & (columns & Hcols) & (types & Hty & Hnd)).
  unfold compare_versions.
  unfold logger_info at 1, logger. unfold bind at 1, modify.
  set (w1 := with_logged _ w).
  assert (Hmeta : file_at (InVersion v "metadata.json") w1 = Some (FJson metadata))
    by (cbn [file_at]; change (versions_dir w1) with (versions_dir w);
        now rewrite Hv, Hl).
  rewrite (bind_ok _ _ _ _ _ (get_version_metadata_run self v metadata w1 Hmeta)).
  rewrite (bind_ok _ _ _ _ _ (get_version_metadata_run self v metadata w1 Hmeta)).
  rewrite (bind_ok _ _ _ _ _
             (get_version_dataset_path_run self v file entries files w1 Hv Hl Hf)).
  rewrite (bind_ok _ _ _ _ _
             (get_version_dataset_path_run self v file entries files w1 Hv Hl Hf)).
  unfold bind at 1. unfold get_timestamp. cbv iota beta.
  set (w2 := with_ticks _ w1).
  assert (Hobj : exists created, metadata_get "created_at" JNull metadata = Ok created).
  { unfold metadata_get in *. destruct metadata; try discriminate. eauto. }
  destruct Hobj as [created Hcreated].
  rewrite Hcreated.
  assert (El : forall (x : json), lift (Ok x) w2 = (Ok x, w2)) by reflexivity.
  rewrite (bind_ok _ _ _ _ _ (El created)).
  rewrite (bind_ok _ _ _ _ _ (El created)).
  destruct (compare_row_counts_same metadata row_count Hrc) as (rc & Erc & Hd & Hdir).
  destruct (compare_columns_same metadata columns Hcols)
    as (cc & Ecc & Hadd & Hrem & Hna & Hnr).
  destruct (compare_data_types_same metadata types Hty Hnd) as (dt & Edt & Hch & Htot).
  rewrite Erc, Ecc, Edt.
  rewrite (bind_ok _ _ _ _ _ (when_pure _ rc w2)).
  rewrite (bind_ok _ _ _ _ _ (when_pure _ cc w2)).
  rewrite (bind_ok _ _ _ _ _ (when_pure _ dt w2)).
  destruct (compare_sample_data_run self (InVersion v file) (InVersion v file)
              (comparison_include_sample_data (config self)) w2)
    as (sd & w3 & Esd & S3).
  rewrite (bind_ok _ _ _ _ _ Esd).
  unfold logger_info, logger, modify, bind, ret.
  eexists; eexists; eexists; split; [reflexivity|].
  split; [eapply same_files_trans; [|apply same_files_logged];
          eapply same_files_trans; [|exact S3]; split; reflexivity|].
  cbn [row_count_comparison column_comparison data_type_comparison].
  split; [intros ->; eauto|].
  split; [intros ->; eauto|].
  split; [intros ->; eauto|].
  rewrite summary_of_no_difference; [split; reflexivity| | |];
    cbn [row_count_comparison column_comparison data_type_comparison].
  - intros x. destruct (comparison_compare_row_count (config self));
      [intros [= <-]; assumption | discriminate].
  - intros x. destruct (comparison_compare_columns (config self));
      [intros [= <-]; auto | discriminate].
  - intros x. destruct (comparison_compare_data_types (config self));
      [intros [= <-]; assumption | discriminate].
Qed.

Lemma compare_version_with_itself_witness :
  exists comparison summary w',
    compare_versions sample_system "v1" "v1" one_version
    = (Ok (comparison, summary), w') /\
    (exists rc, row_count_comparison comparison = Some rc /\ difference rc = 0%Z) /\
    total_differences summary = 0 /\
    key_changes summary = ["No significant differences found"].
Proof.
  pose (entries := listdir one_version).
  pose (files := match lookup "v1" entries with Some (NDir f) => f | _ => [] end).
  pose (metadata := match lookup "metadata.json" files with
                    | Some (FJson j) => j
                    | _ => JNull
                    end).
  assert (H1 : versions_dir one_version = Some entries) by reflexivity.
  assert (H2 : lookup "v1" entries = Some (NDir files)) by reflexivity.
  assert (H3 : lookup "metadata.json" files = Some (FJson metadata)) by reflexivity.
  assert (H4 : first_csv files = Some "sales.csv") by reflexivity.
  assert (H5 : well_typed_metadata metadata).
  { (split; [eexists; reflexivity|]). (split; [eexists; reflexivity|]).
    eexists. (split; [reflexivity|]).
    (cbn [map fst]).
    (repeat constructor; cbn [In]; intros H;
      repeat (destruct H as [H|H]; [discriminate|]); exact H). }
  destruct (compare_version_with_itself sample_system "v1" "sales.csv" entries files
              metadata one_version H1 H2 H3 H4 H5)
    as (c & s & w' & E & _ & Hrc & _ & _ & Ht & Hk).
  exists c, s, w'. (split; [exact E|]).
  destruct (Hrc eq_refl) as (rc & Hr1 & Hr2 & _).
  (split; [exists rc; split; [exact Hr1 | exact Hr2]|]). (split; [exact Ht | exact Hk]).
Defined.

(* ================================================================= *)
(** * Further properties of the code *)

(** ** Further properties of [create_version] *)

Lemma isdigit_not_isspace (c : ascii) :
  Py.isdigit c = true -> Py.isspace c = false.
Proof.
  unfold Py.isdigit, Py.isspace.
  intros H. apply andb_true_iff in H. destruct H as [H1 H2].
  apply Nat.leb_le in H1.
  apply orb_false_iff; split; apply andb_false_iff; right; apply Nat.leb_gt; lia.
Qed.

Lemma str_of_int_chars (n : Z) (c : ascii) :
  Py.contains_char c (Py.str_of_int n) = true -> Py.isspace c = false.
Proof.
  unfold Py.str_of_int.
  destruct n as [|p|p]; cbn [Z.to_int NilZero.string_of_int].
  - cbn. rewrite orb_false_r. intros H. apply Ascii.eqb_eq in H. now subst c.
  - rewrite nilzero_nonnil by apply DecimalPos.Unsigned.to_uint_nonnil.
    intros H. apply isdigit_not_isspace. now apply digits_of_uint with (Pos.to_uint p).
  - rewrite nilzero_nonnil by apply DecimalPos.Unsigned.to_uint_nonnil.
    cbn [Py.contains_char]. intros H. apply orb_true_iff in H. destruct H as [H|H].
    + apply Ascii.eqb_eq in H. now subst c.
    + apply isdigit_not_isspace. now apply digits_of_uint with (Pos.to_uint p).
Qed.

(** The name of a version the system creates has no white space to strip. *)
Lemma strip_version_name (n : Z) :
  Py.strip ("v" ++ Py.str_of_int n) = ("v" ++ Py.str_of_int n)%string.
Proof.
  unfold Py.strip, Py.strip_by. cbn [append Py.lstrip_by].
  change (Py.isspace "v") with false. cbv iota.
  apply rstrip_by_id. intros c H. cbn [Py.contains_char] in H.
  apply orb_true_iff in H. destruct H as [H|H].
  - apply Ascii.eqb_eq in H. now subst c.
  - now apply str_of_int_chars with n.
Qed.

Lemma universal_newlines_id (s : string) :
  (forall c, Py.contains_char c s = true -> Py.isspace c = false) ->
  Csv.universal_newlines s = s.
Proof.
  induction s as [|c r IH]; intros H; cbn [Csv.universal_newlines]; [reflexivity|].
  destruct (Ascii.eqb_spec c Csv.CR) as [->|_].
  - specialize (H Csv.CR). cbn [Py.contains_char] in H.
    rewrite Ascii.eqb_refl in H. specialize (H eq_refl). discriminate.
  - rewrite IH; [reflexivity|]. intros d Hd. apply H.
    cbn [Py.contains_char]. rewrite Hd. apply orb_true_r.
Qed.

(** The name of a version the system creates is read back from the marker
    as it was written. *)
Lemma version_name_reads_back (n : Z) :
  Py.strip (Csv.universal_newlines ("v" ++ Py.str_of_int n))
  = ("v" ++ Py.str_of_int n)%string.
Proof.
  rewrite universal_newlines_id; [apply strip_version_name|].
  intros c H. cbn [append Py.contains_char] in H.
  apply orb_true_iff in H. destruct H as [H|H].
  - apply Ascii.eqb_eq in H. now subst c.
  - now apply str_of_int_chars with n.
Qed.

Lemma lookup_app_present {V} (k : string) (l l' : list (string * V)) (v : V) :
  lookup k l = Some v -> lookup k (l ++ l') = Some v.
Proof.
  unfold lookup. induction l as [|[k' v'] l IH]; simpl; [discriminate|].
  destruct (String.eqb k k'); auto.
Qed.

(** What a successful [create_version] leaves in the versions directory. *)
Lemma create_version_listing (self : System) (input : string) (q : option Q)
  (w w' : World) (name : string) :
  create_version self input q w = (Ok name, w') ->
  exists text,
    lookup input (outside w) = Some text /\
    name = ("v" ++ Py.str_of_int (next_number (listdir w)))%string /\
    lookup name (listdir w) = None /\
    outside w' = outside w /\
    rollback_log_file w' = rollback_log_file w /\
    current_version_file w' = Some name /\
    versions_dir w'
    = Some (listdir w ++
            [(name, NDir (store "metadata.json"
                            (FJson (JObj (metadata_for self name
                                            (InVersion name (basename input)) input q text
                                            (clock w (ticks w)))))
                            [(basename input, FText text)]))]).
Proof.
  intros Hrun.
  destruct (create_version_ok_inv _ _ _ _ _ _ Hrun) as [[text Hin] Hq].
  exists text. split; [assumption|].
  destruct (create_version_run self input q w text Hin Hq)
    as (r & w1 & E & Ho & Hr & Hfile & Hnew).
  rewrite Hrun in E. injection E as <- <-.
  destruct (lookup _ (listdir w)) as [[f|files]|] eqn:El.
  - destruct (Hfile f eq_refl) as [Hx _]. discriminate.
  - now elim (new_version_absent (listdir w) files).
  - destruct (Hnew eq_refl) as (Hv & _ & Hname).
    destruct (Hname name eq_refl) as [Ename Hcur]. subst name.
    repeat split; assumption.
Qed.

(** X1: [create_version] on a path at which there is no file raises
    [FileNotFoundError] ("Input file not found: <path>"), whatever the
    quality score; no file or directory is created or changed, and the one
    record it logs is the error. *)
Theorem create_version_missing_input (self : System) (input : string)
  (q : option Q) (w : World) :
  lookup input (outside w) = None ->
  exists w',
    create_version self input q w
    = (Err (FileNotFoundError ("Input file not found: " ++ input)), w') /\
    same_files w w' /\
    logged w' = logged w ++ [{| level := ERROR;
                                message := ("Input file not found: " ++ input)%string;
                                cause := None |}].
Proof.
  intros Hin. unfold create_version.
  assert (E0 : exists_file (Outside input) w = (Ok false, w))
    by (unfold exists_file, read; cbn [file_at]; now rewrite Hin).
  rewrite (bind_ok _ _ _ _ _ E0). cbn [negb]. cbv iota.
  eexists. split; [reflexivity|]. split; [apply same_files_logged | reflexivity].
Qed.

Lemma create_version_missing_input_witness :
  exists w',
    create_version sample_system "data/none.csv" (Some (5 # 1)%Q) (two_versions None)
    = (Err (FileNotFoundError "Input file not found: data/none.csv"), w') /\
    same_files (two_versions None) w'.
Proof.
  destruct (create_version_missing_input sample_system "data/none.csv" (Some (5 # 1)%Q)
              (two_versions None) eq_refl) as (w' & E & S & _).
  exists w'. split; [exact E | exact S].
Defined.

Lemma quality_out_of_range (q : Q) :
  (q < 0 \/ 100 < q)%Q -> quality_in_range q = false.
Proof.
  intros H. unfold quality_in_range. apply andb_false_iff.
  destruct H as [H|H]; [left | right];
    apply not_true_is_false; intros E; apply Qle_bool_iff in E;
    apply (Qlt_not_le _ _ H E).
Qed.

(** X2: [create_version] on an existing file with a quality score below 0
    or above 100 raises [ValueError] ("Quality score must be between 0 and
    100") before anything is allocated: no file or directory is created or
    changed. *)
Theorem create_version_invalid_quality_score (self : System) (input text : string)
  (q : Q) (w : World) :
  lookup input (outside w) = Some text ->
  (q < 0 \/ 100 < q)%Q ->
  exists w',
    create_version self input (Some q) w
    = (Err (ValueError "Quality score must be between 0 and 100"), w') /\
    same_files w w'.
Proof.
  intros Hin Hq. unfold create_version.
  assert (E0 : exists_file (Outside input) w = (Ok true, w))
    by (unfold exists_file, read; cbn [file_at]; now rewrite Hin).
  rewrite (bind_ok _ _ _ _ _ E0). cbn [negb]. cbv iota.
  rewrite (quality_out_of_range q Hq). cbn [negb]. cbv iota.
  eexists. split; [reflexivity | apply same_files_logged].
Qed.

Lemma create_version_invalid_quality_score_witness :
  exists w',
    create_version sample_system "in.csv" (Some (201 # 2)%Q)
      (world_with_input "in.csv" (line "a"))
    = (Err (ValueError "Quality score must be between 0 and 100"), w') /\
    same_files (world_with_input "in.csv" (line "a")) w'.
Proof.
  apply (create_version_invalid_quality_score sample_system "in.csv" (line "a")
           (201 # 2)%Q (world_with_input "in.csv" (line "a")) eq_refl).
  right. reflexivity.
Defined.

(** X3: a successful [create_version] adds one directory to the versions
    directory, under a name that was not in use, and changes nothing else
    there: every entry that existed is as before.  The input file and the
    rollback log are untouched, and the new directory holds, under the base
    name of the input, the text of the input as it was. *)
Theorem create_version_adds_one_directory (self : System) (input : string)
  (q : option Q) (w w' : World) (name : string) :
  create_version self input q w = (Ok name, w') ->
  lookup name (listdir w) = None /\
  (forall v node, lookup v (listdir w) = Some node -> lookup v (listdir w') = Some node) /\
  map fst (listdir w') = map fst (listdir w) ++ [name] /\
  outside w' = outside w /\
  rollback_log_file w' = rollback_log_file w /\
  (basename input <> "metadata.json" ->
   exists text,
     lookup input (outside w) = Some text /\
     file_at (InVersion name (basename input)) w' = Some (FText text)).
Proof.
  intros Hrun.
  destruct (create_version_listing _ _ _ _ _ _ Hrun)
    as (text & Hin & Hname & Habs & Ho & Hr & _ & Hv).
  split; [assumption|].
  assert (Hl : listdir w' = listdir w ++ [(name, NDir (store "metadata.json"
                            (FJson (JObj (metadata_for self name
                                            (InVersion name (basename input)) input q text
                                            (clock w (ticks w)))))
                            [(basename input, FText text)]))])
    by (unfold listdir at 1; now rewrite Hv).
  split; [intros v node H; rewrite Hl; now apply lookup_app_present|].
  split; [rewrite Hl, map_app; reflexivity|].
  split; [assumption|]. split; [assumption|].
  intros Hb. exists text. split; [assumption|].
  cbn [file_at]. rewrite Hv, (lookup_app_absent _ _ _ Habs).
  rewrite lookup_store_other by now apply String.eqb_neq.
  unfold lookup. cbn [dict_get]. now rewrite String.eqb_refl.
Qed.

Lemma create_version_adds_one_directory_witness :
  map fst (listdir one_version) = ["v1"] /\
  file_at (InVersion "v1" "sales.csv") one_version
  = Some (FText (line "id,amount" ++ line "1,10" ++ line "2,2.5")).
Proof.
  destruct (create_version_adds_one_directory sample_system "data/sales.csv" None
              (world_with_input "data/sales.csv"
                 (line "id,amount" ++ line "1,10" ++ line "2,2.5")) one_version "v1")
    as (_ & _ & Hnames & _ & _ & Hcopy); [vm_compute; reflexivity|].
  split; [exact Hnames|].
  destruct Hcopy as (text & Hin & Hf); [discriminate|].
  vm_compute in Hin. injection Hin as <-. exact Hf.
Defined.

(** X4: after a successful [create_version], [get_current_version] returns
    the name of the new version: the marker is moved to it at each
    creation. *)
Theorem create_version_becomes_current (self : System) (input : string)
  (q : option Q) (w w' : World) (name : string) :
  create_version self input q w = (Ok name, w') ->
  get_current_version self w' = (Ok (Some name), w').
Proof.
  intros Hrun.
  destruct (create_version_listing _ _ _ _ _ _ Hrun)
    as (text & _ & Hname & _ & _ & _ & Hc & _).
  rewrite get_current_version_run. unfold current_version. rewrite Hc.
  cbn [option_map]. subst name. now rewrite version_name_reads_back.
Qed.

Lemma create_version_becomes_current_witness :
  get_current_version sample_system one_version = (Ok (Some "v1"), one_version).
Proof.
  apply (create_version_becomes_current sample_system "data/sales.csv" None
           (world_with_input "data/sales.csv"
              (line "id,amount" ++ line "1,10" ++ line "2,2.5")) one_version "v1").
  vm_compute; reflexivity.
Defined.

Section Index.
Variable self : System.

Lemma update_index_appends (version_name : string) (metadata : list (string * json))
  (w : World) :
  appendable "versions" (index_file w) = true ->
  exists w',
    _update_index self version_name metadata w = (Ok tt, w') /\
    indexed_versions w' = indexed_versions w ++ [index_entry version_name metadata] /\
    appendable "versions" (index_file w') = true /\
    versions_dir w' = versions_dir w /\
    current_version_file w' = current_version_file w /\
    rollback_log_file w' = rollback_log_file w /\
    outside w' = outside w.
Proof.
  unfold _update_index. unfold bind at 1. unfold exists_file, read.
  cbn [file_at]. unfold appendable, indexed_versions.
  fold (index_entry version_name metadata).
  destruct (index_file w) as [f|] eqn:Ei; cbv iota beta.
  - unfold bind at 1. rewrite load_json_run. cbn [file_at]. rewrite Ei.
    destruct f as [s|j]; [discriminate|].
    destruct j as [|b|n|q|s|items|members]; try discriminate.
    destruct (lookup "versions" members) as [[|b|n|q|s|items|ms]|] eqn:Em;
      try discriminate.
    intros _. cbv iota beta.
    unfold bind at 1. unfold lift, append_under. rewrite Em. cbv iota beta.
    eexists. split; [reflexivity|].
    cbn [index_file with_index_file with_logged with_ticks versions_dir
         current_version_file rollback_log_file outside].
    unfold list_under.
    rewrite (lookup_store_other "versions" "last_updated") by reflexivity.
    rewrite lookup_store_same, Em. repeat split.
  - intros _. eexists. split; [reflexivity|]. cbn. repeat split.
Qed.

Lemma update_index_fails (version_name : string) (metadata : list (string * json))
  (w : World) :
  appendable "versions" (index_file w) = false ->
  exists e w',
    _update_index self version_name metadata w = (Err e, w') /\ same_files w w'.
Proof.
  unfold _update_index. unfold bind at 1. unfold exists_file, read.
  cbn [file_at]. unfold appendable.
  destruct (index_file w) as [f|] eqn:Ei; cbv iota beta; [|discriminate].
  unfold bind at 1. rewrite load_json_run. cbn [file_at]. rewrite Ei.
  destruct f as [s|j]; cbv iota beta;
    [intros _; eexists; eexists; split; [reflexivity | apply same_files_refl]|].
  unfold bind at 1. unfold lift, append_under.
  destruct j as [|b|n|q|s|items|members];
    try (intros _; eexists; eexists; split; [reflexivity | apply same_files_refl]).
  destruct (lookup "versions" members) as [[|b|n|q|s|items|ms]|]; try discriminate;
    intros _; eexists; eexists; (split; [reflexivity | apply same_files_refl]).
Qed.

Lemma get_version_history_run (w : World) :
  exists w',
    get_version_history self w
    = (Ok match index_file w with
          | Some (FJson (JObj members)) =>
              match lookup "versions" members with Some v => v | None => JArr [] end
          | _ => JArr []
          end, w') /\
    same_files w w'.
Proof.
  unfold get_version_history, try_except.
  unfold bind at 1. unfold exists_file, read. cbn [file_at].
  destruct (index_file w) as [f|] eqn:El; cbv iota beta.
  - unfold bind. rewrite load_json_run. cbn [file_at]. rewrite El.
    destruct f as [s|j]; cbv iota beta.
    + eexists. split; [reflexivity | apply same_files_logged].
    + unfold lift, metadata_get.
      destruct j as [|b|n|q|s|items|members];
        eexists; (split; [reflexivity|]);
        apply same_files_logged || apply same_files_refl.
  - eexists. split; [reflexivity | apply same_files_refl].
Qed.

Lemma history_of_appendable (w : World) :
  appendable "versions" (index_file w) = true ->
  match index_file w with
  | Some (FJson (JObj members)) =>
      match lookup "versions" members with Some v => v | None => JArr [] end
  | _ => JArr []
  end = JArr (indexed_versions w).
Proof.
  unfold appendable, indexed_versions, list_under.
  destruct (index_file w) as [[s|j]|]; try discriminate; [|reflexivity].
  destruct j as [|b|n|q|s|items|members]; try discriminate.
  destruct (lookup "versions" members) as [[|b|n|q|s|items|ms]|]; try discriminate.
  reflexivity.
Qed.

End Index.

(** [create_version] from the allocation of the name on, with what becomes
    of the index. *)
Lemma create_version_index_run (self : System) (input : string) (q : option Q)
  (w : World) (text : string) :
  lookup input (outside w) = Some text ->
  match q with Some q => quality_in_range q = true | None => True end ->
  let name := ("v" ++ Py.str_of_int (next_number (listdir w)))%string in
  let md := metadata_for self name (InVersion name (basename input)) input q text
                         (clock w (ticks w)) in
  lookup name (listdir w) = None ->
  exists r w',
    create_version self input q w = (r, w') /\
    versions_dir w'
    = Some (listdir w ++
            [(name, NDir (store "metadata.json" (FJson (JObj md))
                                [(basename input, FText text)]))]) /\
    (appendable "versions" (index_file w) = true ->
       r = Ok name /\
       indexed_versions w' = indexed_versions w ++ [index_entry name md] /\
       appendable "versions" (index_file w') = true) /\
    (appendable "versions" (index_file w) = false ->
       (exists e, r = Err e) /\
       index_file w' = index_file w /\
       current_version_file w' = current_version_file w).
Proof.
  intros Hin Hq name md El.
  unfold create_version.
  assert (E0 : exists_file (Outside input) w = (Ok true, w))
    by (unfold exists_file, read; cbn [file_at]; now rewrite Hin).
  rewrite (bind_ok _ _ _ _ _ E0). cbn [negb]. cbv iota.
  assert (Hq' : match q with Some q0 => negb (quality_in_range q0) | None => false end = false).
  { destruct q as [q0|]; [now rewrite Hq | reflexivity]. }
  rewrite Hq'. clear Hq'.
  rewrite (bind_ok _ _ _ _ _ (get_next_version_number_run w)).
  fold name.
  rewrite (bind_ok _ _ _ _ _ (ensure_new_directory_run name w El)).
  set (w1 := with_versions_dir (Some (listdir w ++ [(name, NDir [])])) w).
  assert (Hin1 : file_at (Outside input) w1 = Some (FText text))
    by (unfold w1; cbn [file_at outside with_versions_dir]; now rewrite Hin).
  rewrite (bind_ok _ _ _ _ _
             (copy2_run self (Outside input) name (basename input) (FText text)
                _ [] w1 Hin1 eq_refl (lookup_app_absent _ _ _ El))).
  cbn [file_text].
  rewrite (store_app_absent _ _ _ _ El). cbn [store dict_set].
  set (w2 := with_versions_dir _ w1).
  unfold logger_info at 1, logger. unfold bind at 1, modify.
  set (w3 := with_logged _ w2).
  assert (Hf3 : file_at (InVersion name (basename input)) w3 = Some (FText text)).
  { unfold w3, w2, w1.
    cbn [file_at versions_dir with_versions_dir with_logged].
    rewrite (lookup_app_absent _ _ _ El). unfold lookup. cbn [dict_get].
    now rewrite String.eqb_refl. }
  destruct (generate_metadata_run self name (basename input) input q _ w3 Hf3)
    as (w4 & E4 & S4).
  cbn [file_text] in E4.
  change (clock w3 (ticks w3)) with (clock w (ticks w)) in E4. fold md in E4.
  rewrite (bind_ok _ _ _ _ _ E4).
  assert (Hv4 : versions_dir w4
                = Some (listdir w ++ [(name, NDir [(basename input, FText text)])])).
  { rewrite (same_files_versions _ _ S4). reflexivity. }
  rewrite (bind_ok _ _ _ _ _
             (save_version_json_run self name "metadata.json" (JObj md)
                _ _ w4 Hv4 (lookup_app_absent _ _ _ El))).
  rewrite (store_app_absent _ _ _ _ El).
  set (w5 := with_versions_dir _ w4).
  unfold logger_info at 1, logger. unfold bind at 1, modify.
  set (w6 := with_logged _ w5).
  assert (Hp4 : index_file w4 = index_file w /\
                current_version_file w4 = current_version_file w).
  { destruct S4 as [S4 _]. unfold persisted in S4. inversion S4. split; reflexivity. }
  destruct Hp4 as [Hi4 Hc4].
  assert (Hi : index_file w6 = index_file w) by exact Hi4.
  assert (Hx : indexed_versions w6 = indexed_versions w)
    by (unfold indexed_versions; now rewrite Hi).
  destruct (appendable "versions" (index_file w)) eqn:Ea.
  - rewrite <- Hi in Ea.
    destruct (update_index_appends self name md w6 Ea)
      as (w7 & E7 & Hl7 & Ha7 & Hv7 & Hc7 & Hr7 & Ho7).
    rewrite (bind_ok _ _ _ _ _ E7).
    destruct (set_current_version_run self name w7)
      as (w8 & E8 & Hv8 & Hi8 & Hc8 & Hr8 & Ho8).
    rewrite (bind_ok _ _ _ _ _ E8).
    unfold logger_info, logger, modify, ret, bind.
    eexists; eexists; split; [reflexivity|].
    cbn [versions_dir with_logged].
    split; [rewrite Hv8, Hv7; reflexivity|].
    split; [|discriminate]. intros _.
    split; [reflexivity|].
    unfold indexed_versions in *. cbn [index_file with_logged].
    rewrite Hi8. split; [now rewrite Hl7, Hx | exact Ha7].
  - rewrite <- Hi in Ea.
    destruct (update_index_fails self name md w6 Ea) as (e & w7 & E7 & S7).
    rewrite (bind_err _ _ _ _ _ E7).
    eexists; eexists; split; [reflexivity|].
    split; [rewrite (same_files_versions _ _ S7); reflexivity|].
    split; [discriminate|]. intros _. split; [eauto|].
    destruct S7 as [S7 _]. unfold persisted in S7. inversion S7 as [[H1 H2 H3 H4]].
    rewrite H2, H3. split; [exact Hi4 | exact Hc4].
Qed.

(** X5: a successful [create_version] appends one entry to the versions of
    the index, built from the metadata of the new version, and keeps the
    entries that were there: [get_version_history] then returns the earlier
    entries followed by the new one. *)
Theorem create_version_recorded_in_history (self : System) (input : string)
  (q : option Q) (w w' : World) (name : string) :
  create_version self input q w = (Ok name, w') ->
  exists text w'',
    lookup input (outside w) = Some text /\
    get_version_history self w'
    = (Ok (JArr (indexed_versions w ++
                 [index_entry name
                    (metadata_for self name (InVersion name (basename input)) input q
                                  text (clock w (ticks w)))])), w'') /\
    same_files w' w''.
Proof.
  intros Hrun.
  destruct (create_version_listing _ _ _ _ _ _ Hrun)
    as (text & Hin & Hname & Habs & _).
  destruct (create_version_ok_inv _ _ _ _ _ _ Hrun) as [_ Hq].
  subst name.
  destruct (create_version_index_run self input q w text Hin Hq Habs)
    as (r & w1 & E & _ & Hgood & Hbad).
  rewrite Hrun in E. injection E as <- <-.
  destruct (appendable "versions" (index_file w)) eqn:Ea.
  - destruct (Hgood eq_refl) as (_ & Hl & Ha).
    destruct (get_version_history_run self w') as (w'' & E & S).
    exists text, w''. split; [assumption|]. split; [|assumption].
    rewrite E, (history_of_appendable w' Ha), Hl. reflexivity.
  - destruct (Hbad eq_refl) as ([e He] & _). discriminate.
Qed.

Lemma create_version_recorded_in_history_witness :
  exists w'',
    get_version_history sample_system one_version
    = (Ok (JArr [JObj [("version", JStr "v1"); ("created_at", JStr "T0");
                       ("row_count", JInt 2); ("column_count", JInt 2);
                       ("quality_score", JNull); ("file_hash", JStr "0000")]]), w'').
Proof.
  destruct (create_version_recorded_in_history sample_system "data/sales.csv" None
              (world_with_input "data/sales.csv"
                 (line "id,amount" ++ line "1,10" ++ line "2,2.5")) one_version "v1")
    as (text & w'' & Hin & E & _); [vm_compute; reflexivity|].
  exists w''. rewrite E. vm_compute in Hin. injection Hin as <-.
  vm_compute. reflexivity.
Defined.

(** X6: [create_version] is not atomic.  When the index file exists but
    cannot take a new entry (it is not JSON, or not an object whose
    [versions] is a list), the exception of [_update_index] is raised after
    the version directory has been written: the directory with the dataset
    and the metadata stays, the index and the current-version marker are
    as before, and the next allocation skips the number. *)
Theorem create_version_unreadable_index (self : System) (input text : string)
  (q : option Q) (w : World) :
  lookup input (outside w) = Some text ->
  match q with Some q => quality_in_range q = true | None => True end ->
  (forall f, lookup ("v" ++ Py.str_of_int (next_number (listdir w)))%string (listdir w)
             <> Some (NFile f)) ->
  appendable "versions" (index_file w) = false ->
  let name := ("v" ++ Py.str_of_int (next_number (listdir w)))%string in
  exists e w',
    create_version self input q w = (Err e, w') /\
    In name (version_directories (listdir w')) /\
    file_at (InVersion name "metadata.json") w'
    = Some (FJson (JObj (metadata_for self name (InVersion name (basename input)) input q
                                      text (clock w (ticks w))))) /\
    index_file w' = index_file w /\
    current_version_file w' = current_version_file w /\
    next_number (listdir w') = (next_number (listdir w) + 1)%Z.
Proof.
  intros Hin Hq Hfile Ha name.
  assert (Habs : lookup name (listdir w) = None).
  { destruct (lookup name (listdir w)) as [[f|files]|] eqn:El; [| |reflexivity].
    - now elim (Hfile f).
    - now elim (new_version_absent (listdir w) files). }
  destruct (create_version_index_run self input q w text Hin Hq Habs)
    as (r & w' & E & Hv & _ & Hbad).
  destruct (Hbad Ha) as ([e He] & Hi & Hc). subst r.
  exists e, w'. split; [exact E|].
  assert (Hl : listdir w' = listdir w ++ [(name, NDir (store "metadata.json"
                  (FJson (JObj (metadata_for self name (InVersion name (basename input))
                                             input q text (clock w (ticks w)))))
                  [(basename input, FText text)]))])
    by (unfold listdir at 1; now rewrite Hv).
  destruct (next_number_new_version (listdir w)
              (store "metadata.json"
                 (FJson (JObj (metadata_for self name (InVersion name (basename input))
                                            input q text (clock w (ticks w)))))
                 [(basename input, FText text)])) as [Hmem Hnext].
  fold name in Hmem, Hnext.
  split; [rewrite Hl; exact Hmem|].
  split; [|split; [exact Hi | split; [exact Hc | rewrite Hl; exact Hnext]]].
  cbn [file_at]. rewrite Hv, (lookup_app_absent _ _ _ Habs).
  now rewrite lookup_store_same.
Qed.

Lemma create_version_unreadable_index_witness :
  let w := with_index_file (Some (FText "{")) (world_with_input "in.csv" (line "a")) in
  exists e w',
    create_version sample_system "in.csv" None w = (Err e, w') /\
    In "v1" (version_directories (listdir w')) /\
    index_file w' = Some (FText "{") /\
    current_version_file w' = None.
Proof.
  intros w.
  destruct (create_version_unreadable_index sample_system "in.csv" (line "a") None w
              eq_refl I) as (e & w' & E & Hmem & _ & Hi & Hc & _).
  - intros f. vm_compute. discriminate.
  - reflexivity.
  - exists e, w'. split; [exact E|]. split; [exact Hmem|]. split; [exact Hi | exact Hc].
Defined.

(** X7: when a regular file of the versions directory bears the name of
    the version to create, [create_version] raises [FileExistsError]
    ([os.makedirs] finds the name taken by a file) and changes no file;
    the numbering looks at directories only, so every later call fails the
    same way. *)
Theorem create_version_name_taken_by_file (self : System) (input text : string)
  (q : option Q) (f : File) (w : World) :
  lookup input (outside w) = Some text ->
  match q with Some q => quality_in_range q = true | None => True end ->
  lookup ("v" ++ Py.str_of_int (next_number (listdir w)))%string (listdir w)
  = Some (NFile f) ->
  exists w',
    create_version self input q w = (Err FileExistsError, w') /\
    same_files w w' /\
    next_number (listdir w') = next_number (listdir w).
Proof.
  intros Hin Hq Hf.
  destruct (create_version_run self input q w text Hin Hq)
    as (r & w' & E & _ & _ & Hfile & _).
  destruct (Hfile f Hf) as [-> S].
  exists w'. split; [exact E|]. split; [exact S|].
  now rewrite (same_files_listdir _ _ S).
Qed.

Lemma create_version_name_taken_by_file_witness :
  let w := with_versions_dir (Some [("v1", NDir []); ("v2", NFile (FText "x"))])
             (world_with_input "in.csv" (line "a")) in
  exists w',
    create_version sample_system "in.csv" None w = (Err FileExistsError, w') /\
    same_files w w'.
Proof.
  intros w.
  destruct (create_version_name_taken_by_file sample_system "in.csv" (line "a") None
              (FText "x") w eq_refl I eq_refl) as (w' & E & S & _).
  exists w'. split; [exact E | exact S].
Defined.

(** ** The metadata of a new version *)

Lemma contains_separator (pre b : string) :
  Py.contains_char "/" (pre ++ String "/" b) = true.
Proof.
  induction pre as [|c pre IH]; cbn [append Py.contains_char]; [reflexivity|].
  rewrite IH. apply orb_true_r.
Qed.

Lemma endswith_after_separator (pre b : string) :
  Py.endswith ".csv" (pre ++ String "/" b) = Py.endswith ".csv" b.
Proof.
  induction pre as [|c pre IH]; cbn [append].
  - reflexivity.
  - cbn [Py.endswith]. rewrite IH.
    destruct (String.eqb_spec ".csv" (String c (pre ++ String "/" b))) as [E|_];
      [|reflexivity].
    assert (H : Py.contains_char "/" ".csv" = true)
      by (rewrite E; apply (contains_separator (String c pre) b)).
    discriminate.
Qed.

Lemma endswith_separator_split (a : string) :
  Py.endswith "/" a = true -> exists pre, a = (pre ++ "/")%string.
Proof.
  induction a as [|c a IH]; [discriminate|].
  cbn [Py.endswith]. intros H. apply orb_true_iff in H. destruct H as [H|H].
  - apply String.eqb_eq in H. exists "". now rewrite <- H.
  - destruct (IH H) as [pre ->]. now exists (String c pre).
Qed.

Lemma append_assoc_sep (pre b : string) :
  ((pre ++ "/") ++ b)%string = (pre ++ String "/" b)%string.
Proof. induction pre as [|c pre IH]; cbn [append]; [reflexivity | now rewrite IH]. Qed.

(** Whether a path below a directory ends with [.csv] is decided by its
    last component. *)
Lemma endswith_csv_path_join (a b : string) :
  Py.endswith ".csv" (path_join a b) = Py.endswith ".csv" b.
Proof.
  unfold path_join. destruct a as [|c a]; [reflexivity|].
  destruct (Py.endswith "/" (String c a)) eqn:E.
  - destruct (endswith_separator_split _ E) as [pre ->].
    now rewrite append_assoc_sep, endswith_after_separator.
  - change (String c a ++ "/" ++ b)%string with (String c a ++ String "/" b)%string.
    apply endswith_after_separator.
Qed.

Lemma metadata_for_fields (self : System) (version_name name source_file : string)
  (q : option Q) (text created_at : string) :
  let md := metadata_for self version_name (InVersion version_name name)
                         source_file q text created_at in
  lookup "version" md = Some (JStr version_name) /\
  lookup "created_at" md = Some (JStr created_at) /\
  lookup "source_file" md = Some (JStr source_file) /\
  lookup "quality_score" md = option_map JFloat q /\
  lookup "file_hash" md
  = (if metadata_include_file_hash (config self)
     then Some (JStr (sha256_hexdigest self text)) else None) /\
  lookup "file_size_bytes" md
  = (if metadata_include_file_size (config self)
     then Some (JInt (Z.of_nat (String.length text))) else None).
Proof.
  intros md. unfold md, metadata_for.
  destruct (Py.endswith ".csv" _);
    [destruct (analyze_rows (Csv.reader text)) as [[row_count columns] e]|];
    destruct (metadata_include_row_count (config self)),
             (metadata_include_columns (config self)),
             (metadata_include_data_types (config self)),
             (metadata_include_file_hash (config self)),
             (metadata_include_file_size (config self)), q;
    repeat split; reflexivity.
Qed.

Lemma metadata_for_not_csv (self : System) (version_name name source_file : string)
  (q : option Q) (text created_at : string) :
  Py.endswith ".csv" name = false ->
  let md := metadata_for self version_name (InVersion version_name name)
                         source_file q text created_at in
  lookup "row_count" md = None /\ lookup "columns" md = None /\
  lookup "column_count" md = None /\ lookup "data_types" md = None.
Proof.
  intros Hcsv md. unfold md, metadata_for.
  cbn [path_str]. rewrite endswith_csv_path_join, Hcsv.
  destruct (metadata_include_file_hash (config self)),
           (metadata_include_file_size (config self)), q;
    repeat split; reflexivity.
Qed.

(** X8: the metadata stored by a successful [create_version] describes the
    call: [version] is the name returned, [source_file] the input path as
    it was given, [created_at] the clock reading taken when the metadata
    was built, [quality_score] the score when one was given and absent
    otherwise; when the configuration asks for them, [file_hash] is the
    digest of the text of the input and [file_size_bytes] its length, and
    they are absent otherwise. *)
Theorem created_metadata_describes_input (self : System) (input : string)
  (q : option Q) (w w' : World) (name : string) :
  create_version self input q w = (Ok name, w') ->
  exists text md,
    lookup input (outside w) = Some text /\
    get_version_metadata self name w' = (Ok (JObj md), w') /\
    lookup "version" md = Some (JStr name) /\
    lookup "created_at" md = Some (JStr (clock w (ticks w))) /\
    lookup "source_file" md = Some (JStr input) /\
    lookup "quality_score" md = option_map JFloat q /\
    lookup "file_hash" md
    = (if metadata_include_file_hash (config self)
       then Some (JStr (sha256_hexdigest self text)) else None) /\
    lookup "file_size_bytes" md
    = (if metadata_include_file_size (config self)
       then Some (JInt (Z.of_nat (String.length text))) else None).
Proof.
  intros Hrun.
  destruct (create_version_success _ _ _ _ _ _ Hrun) as (text & Hin & _ & Hmeta & _).
  exists text. eexists. split; [exact Hin|]. split; [exact Hmeta|].
  apply metadata_for_fields.
Qed.

Lemma created_metadata_describes_input_witness :
  exists md,
    get_version_metadata sample_system "v1" one_version = (Ok (JObj md), one_version) /\
    lookup "version" md = Some (JStr "v1") /\
    lookup "source_file" md = Some (JStr "data/sales.csv") /\
    lookup "file_size_bytes" md = Some (JInt 21).
Proof.
  destruct (created_metadata_describes_input sample_system "data/sales.csv" None
              (world_with_input "data/sales.csv"
                 (line "id,amount" ++ line "1,10" ++ line "2,2.5")) one_version "v1")
    as (text & md & Hin & Hmeta & Hv & _ & Hs & _ & _ & Hsize);
    [vm_compute; reflexivity|].
  exists md. split; [exact Hmeta|]. split; [exact Hv|]. split; [exact Hs|].
  vm_compute in Hin. injection Hin as <-. exact Hsize.
Defined.

(** X9: the analysis of the dataset depends on the name of the input
    alone: when the base name of the input does not end with [.csv] (in
    this letter case), the metadata of the new version has no [row_count],
    [columns], [column_count] or [data_types], whatever the configuration
    and whatever the file holds. *)
Theorem created_metadata_skips_analysis (self : System) (input : string)
  (q : option Q) (w w' : World) (name : string) :
  create_version self input q w = (Ok name, w') ->
  Py.endswith ".csv" (basename input) = false ->
  exists md,
    get_version_metadata self name w' = (Ok (JObj md), w') /\
    lookup "row_count" md = None /\ lookup "columns" md = None /\
    lookup "column_count" md = None /\ lookup "data_types" md = None.
Proof.
  intros Hrun Hcsv.
  destruct (create_version_success _ _ _ _ _ _ Hrun) as (text & Hin & _ & Hmeta & _).
  eexists. split; [exact Hmeta|].
  now apply metadata_for_not_csv.
Qed.

Lemma created_metadata_skips_analysis_witness :
  let w := world_with_input "data/SALES.CSV" (line "id,amount" ++ line "1,10") in
  let w' := snd (create_version sample_system "data/SALES.CSV" None w) in
  exists md,
    get_version_metadata sample_system "v1" w' = (Ok (JObj md), w') /\
    lookup "row_count" md = None /\ lookup "columns" md = None.
Proof.
  intros w w'.
  destruct (created_metadata_skips_analysis sample_system "data/SALES.CSV" None w w' "v1")
    as (md & Hmeta & Hr & Hc & _); [vm_compute; reflexivity | reflexivity |].
  exists md. split; [exact Hmeta|]. split; [exact Hr | exact Hc].
Defined.

Lemma first_csv_of_new_version (b : string) (text : string) (j : json) :
  first_csv (store "metadata.json" (FJson j) [(b, FText text)])
  = if Py.endswith ".csv" b then Some b else None.
Proof.
  unfold store. cbn [dict_set].
  destruct (String.eqb_spec "metadata.json" b) as [<-|_]; cbn [first_csv];
    [reflexivity|].
  destruct (Py.endswith ".csv" b); reflexivity.
Qed.

(** X10: [create_version] takes an input of any name, but the dataset of a
    version is looked up by the ending [.csv]: after a successful
    [create_version], [get_version_dataset_path] returns the path of the
    copy when the base name of the input ends with [.csv], and otherwise
    raises [FileNotFoundError] ("No dataset file found in ..."), as does
    [compare_versions] of the new version with itself. *)
Theorem created_version_dataset_path (self : System) (input : string)
  (q : option Q) (w w' : World) (name : string) :
  create_version self input q w = (Ok name, w') ->
  let missing :=
    FileNotFoundError ("No dataset file found in "
                       ++ path_join (storage_versions_dir (config self)) name) in
  (Py.endswith ".csv" (basename input) = true ->
   get_version_dataset_path self name w' = (Ok (InVersion name (basename input)), w')) /\
  (Py.endswith ".csv" (basename input) = false ->
   get_version_dataset_path self name w' = (Err missing, w') /\
   exists w'', compare_versions self name name w' = (Err missing, w'')).
Proof.
  intros Hrun missing.
  destruct (create_version_listing _ _ _ _ _ _ Hrun)
    as (text & _ & _ & Habs & _ & _ & _ & Hv).
  destruct (create_version_success _ _ _ _ _ _ Hrun) as (text' & _ & _ & Hmeta & _).
  assert (Hpath : get_version_dataset_path self name w'
                  = (if Py.endswith ".csv" (basename input)
                     then Ok (InVersion name (basename input)) else Err missing, w')).
  { unfold get_version_dataset_path, bind, read. cbv beta iota.
    rewrite Hv, (lookup_app_absent _ _ _ Habs), first_csv_of_new_version.
    destruct (Py.endswith ".csv" (basename input)); reflexivity. }
  split; intros Hcsv; rewrite Hcsv in Hpath; [exact Hpath|].
  split; [exact Hpath|].
  unfold compare_versions.
  unfold logger_info at 1, logger. unfold bind at 1, modify.
  set (w1 := with_logged _ w').
  assert (S1 : same_files w' w1) by apply same_files_logged.
  assert (Hmeta1 : exists j, get_version_metadata self name w1 = (Ok j, w1)).
  { unfold get_version_metadata, bind, exists_file, read in Hmeta |- *.
    rewrite (file_at_same _ _ _ S1) in *.
    destruct (file_at (InVersion name "metadata.json") w') as [f|];
      cbn [negb] in Hmeta |- *; cbv iota in Hmeta |- *; [|discriminate].
    rewrite load_json_run in Hmeta |- *. rewrite (file_at_same _ _ _ S1).
    destruct (file_at (InVersion name "metadata.json") w') as [[s|j]|];
      try discriminate. now exists j. }
  destruct Hmeta1 as [j Hj].
  rewrite (bind_ok _ _ _ _ _ Hj), (bind_ok _ _ _ _ _ Hj).
  assert (Hpath1 : get_version_dataset_path self name w1 = (Err missing, w1)).
  { unfold get_version_dataset_path, bind, read. cbv beta iota.
    change (versions_dir w1) with (versions_dir w').
    rewrite Hv, (lookup_app_absent _ _ _ Habs), first_csv_of_new_version, Hcsv.
    reflexivity. }
  rewrite (bind_err _ _ _ _ _ Hpath1). now exists w1.
Qed.

Lemma created_version_dataset_path_witness :
  get_version_dataset_path sample_system "v1" one_version
  = (Ok (InVersion "v1" "sales.csv"), one_version).
Proof.
  apply (created_version_dataset_path sample_system "data/sales.csv" None
           (world_with_input "data/sales.csv"
              (line "id,amount" ++ line "1,10" ++ line "2,2.5")) one_version "v1").
  - vm_compute; reflexivity.
  - reflexivity.
Defined.

Lemma fold_store_keys {V} (f : string -> V) (cols : list string)
  (d : list (string * V)) (k : string) :
  In k (map fst (fold_left (fun d c => store c (f c) d) cols d))
  <-> In k (map fst d) \/ In k cols.
Proof.
  revert d. induction cols as [|c cols IH]; intros d; cbn [fold_left].
  - split; [now left | now intros [H|[]]].
  - rewrite IH, store_keys.
    destruct (dict_has String.eqb c d) eqn:E.
    + split; [intros [H|H]; [now left | right; now right]|].
      intros [H|[<-|H]]; [now left | | now right].
      left. unfold dict_has in E.
      destruct (dict_get String.eqb c d) as [v|] eqn:Ev; [|discriminate].
      exact (in_map fst _ _ (lookup_in c d v Ev)).
    + rewrite in_app_iff. cbn [In]. tauto.
Qed.

Lemma final_type_names (types_found : list string) :
  In (final_type types_found) ["float"; "integer"; "boolean"; "string"].
Proof.
  unfold final_type.
  destruct (Py.str_in "float" types_found); [now left|].
  destruct (Py.str_in "integer" types_found); [right; now left|].
  destruct (Py.str_in "boolean" types_found); [right; right; now left|].
  right; right; right; now left.
Qed.

Lemma inferred_types_values (columns : list string) (reader : Csv.Iter DictRow)
  (col : string) (t : json) :
  lookup col (fst (infer_from_rows columns reader)) = Some t ->
  In col columns /\
  In t [JStr "float"; JStr "integer"; JStr "boolean"; JStr "string"].
Proof.
  intros Hl.
  assert (Hk : In col (map fst (fst (infer_from_rows columns reader))))
    by exact (in_map fst _ _ (lookup_in _ _ _ Hl)).
  unfold infer_from_rows, default_types in *.
  destruct (take_rows _ reader) as [sample|e]; cbn [fst] in *.
  - apply fold_store_keys in Hk. destruct Hk as [Hk|Hk];
      [apply fold_store_keys in Hk; destruct Hk as [[]|Hk]|]; (split; [exact Hk|]);
      rewrite (lookup_fold_store (fun c => JStr (column_type c sample)) col columns _ Hk)
        in Hl; injection Hl as <-; unfold column_type;
      destruct (final_type_names (map classify (sampled_values col sample)))
        as [<-|[<-|[<-|[<-|[]]]]]; cbn; tauto.
  - apply fold_store_keys in Hk. destruct Hk as [[]|Hk]. split; [exact Hk|].
    rewrite (lookup_fold_store (fun _ => JStr "string") col columns _ Hk) in Hl.
    injection Hl as <-. cbn; tauto.
Qed.

(** X11: [_infer_data_types] never raises and changes no file, whether the
    dataset can be read or not; the dictionary it returns has one entry
    for each distinct column name it was given and no other, and every
    type in it is one of float, integer, boolean and string, never null. *)
Theorem infer_data_types_covers_columns (self : System) (csv_path : Path)
  (columns : list string) (w : World) :
  exists types w',
    _infer_data_types self csv_path columns w = (Ok types, w') /\
    same_files w w' /\
    NoDup (map fst types) /\
    (forall col, In col (map fst types) <-> In col columns) /\
    (forall col t, lookup col types = Some t ->
       In t [JStr "float"; JStr "integer"; JStr "boolean"; JStr "string"]).
Proof.
  assert (Hdefault : fst (infer_from_rows columns Csv.Raise) = default_types columns)
    by reflexivity.
  assert (Hall : forall reader,
    NoDup (map fst (fst (infer_from_rows columns reader))) /\
    (forall col, In col (map fst (fst (infer_from_rows columns reader)))
                 <-> In col columns) /\
    (forall col t, lookup col (fst (infer_from_rows columns reader)) = Some t ->
       In t [JStr "float"; JStr "integer"; JStr "boolean"; JStr "string"])).
  { intros reader. split; [apply inferred_types_dict|]. split.
    - intros col. unfold infer_from_rows, default_types.
      destruct (take_rows _ reader) as [sample|e]; cbn [fst];
        rewrite ?fold_store_keys; cbn [map In]; tauto.
    - intros col t H. exact (proj2 (inferred_types_values _ _ _ _ H)). }
  destruct (file_at csv_path w) as [f|] eqn:Ef.
  - destruct (infer_data_types_run self csv_path f columns w Ef) as (w' & E & S & _).
    eexists; exists w'. split; [exact E|]. split; [exact S|]. apply Hall.
  - unfold _infer_data_types, bind, read. rewrite Ef.
    eexists; eexists. split; [reflexivity|]. split; [apply same_files_logged|].
    rewrite <- Hdefault. apply Hall.
Qed.

Lemma infer_data_types_covers_columns_witness :
  exists types w',
    _infer_data_types sample_system (InVersion "v1" "sales.csv") ["id"; "amount"] one_version
    = (Ok types, w') /\
    map fst types = ["id"; "amount"] /\
    In (JStr "integer") [JStr "float"; JStr "integer"; JStr "boolean"; JStr "string"].
Proof.
  destruct (infer_data_types_covers_columns sample_system (InVersion "v1" "sales.csv")
              ["id"; "amount"] one_version) as (types & w' & E & _ & _ & _ & Hv).
  exists types, w'. split; [exact E|].
  vm_compute in E. injection E as <- _.
  split; [reflexivity | exact (Hv "id" (JStr "integer") eq_refl)].
Defined.

(** ** Further properties of the rollback manager *)

Lemma store_store {V} (k : string) (v v' : V) (d : list (string * V)) :
  store k v (store k v' d) = store k v d.
Proof.
  unfold store. induction d as [|[k0 v0] d IH]; cbn [dict_set].
  - now rewrite String.eqb_refl.
  - destruct (String.eqb k k0) eqn:E; cbn [dict_set]; rewrite E; [reflexivity|].
    now rewrite IH.
Qed.

Section RollbackFrame.
Variable self : System.

Lemma create_rollback_backup_frame (version_name : option string) (w : World) :
  exists w',
    _create_rollback_backup self version_name w = (Ok tt, w') /\
    metadata_rewritten version_name w w'.
Proof.
  unfold _create_rollback_backup, try_except, metadata_rewritten.
  unfold bind at 1. unfold get_timestamp. cbv iota beta.
  set (info := JObj _).
  destruct version_name as [v|].
  2:{ eexists; split; [reflexivity|]. left. reflexivity. }
  unfold bind at 1. unfold lift. cbv iota beta.
  unfold bind at 1. unfold exists_file, read. cbv iota beta.
  cbn [file_at versions_dir with_ticks].
  destruct (versions_dir w) as [entries|] eqn:Ev.
  2:{ eexists; split; [reflexivity|]. left. cbn. now rewrite Ev. }
  destruct (lookup v entries) as [[f0|files]|] eqn:Ed;
    try (eexists; split; [reflexivity|]; left; cbn; now rewrite Ev).
  destruct (lookup "metadata.json" files) as [[s|j]|] eqn:Ef.
  - unfold bind at 1. unfold bind at 1. rewrite load_json_run.
    cbn [file_at versions_dir with_ticks]. rewrite Ev, Ed, Ef.
    eexists; split; [reflexivity|]. left. cbn. now rewrite Ev.
  - unfold bind at 1. unfold bind at 1. rewrite load_json_run.
    cbn [file_at versions_dir with_ticks]. rewrite Ev, Ed, Ef. cbv iota beta.
    unfold bind at 1. unfold lift, add_backup, append_under, dict_has.
    destruct j as [|b|n|q|s|items|members];
      try (eexists; split; [reflexivity|]; left; cbn; now rewrite Ev).
    fold (@lookup json "backups" members).
    destruct (lookup "backups" members) as [[|b|n|q|s|items|ms]|] eqn:Eb;
      cbn [negb]; rewrite ?lookup_store_same; fold (@lookup json "backups" members);
      rewrite ?Eb;
      try (eexists; split; [reflexivity|]; left; cbn; now rewrite Ev).
    + rewrite (save_version_json_run self v "metadata.json" _ entries files
                 (with_ticks (S (ticks w)) w) Ev Ed).
      unfold logger_info, logger, modify.
      eexists; split; [reflexivity|]. right.
      exists v, entries, files, members. eexists.
      split; [reflexivity|]. split; [reflexivity|]. split; [exact Ed|].
      split; [exact Ef | reflexivity].
    + rewrite (save_version_json_run self v "metadata.json" _ entries files
                 (with_ticks (S (ticks w)) w) Ev Ed).
      unfold logger_info, logger, modify.
      eexists; split; [reflexivity|]. right.
      exists v, entries, files, members. eexists.
      split; [reflexivity|]. split; [reflexivity|]. split; [exact Ed|].
      split; [exact Ef|]. rewrite store_store. reflexivity.
  - eexists; split; [reflexivity|]. left. cbn. now rewrite Ev.
Qed.

Lemma rollback_frame (target : string) (create_backup : bool) (w : World) :
  In target (version_directories (listdir w)) ->
  current_version w <> Some target ->
  exists w',
    rollback_to_version self target create_backup w = (Ok true, w') /\
    metadata_rewritten (current_version w) w w' /\
    (create_backup && version_management_backup_before_rollback (config self) = false ->
     versions_dir w' = versions_dir w).
Proof.
  intros Hin Hc. unfold rollback_to_version.
  destruct (all_versions_member w target) as (l & E & Hl).
  rewrite (bind_ok _ _ _ _ _ E).
  rewrite (proj2 Hl Hin). cbn [negb]. cbv iota.
  rewrite (bind_ok _ _ _ _ _ (get_current_version_run self w)).
  assert (Hne : match current_version w with
                | Some c => String.eqb c target
                | None => false
                end = false).
  { destruct (current_version w) as [c|]; [|reflexivity].
    apply String.eqb_neq. congruence. }
  rewrite Hne. clear Hne.
  unfold logger_info at 1, logger. unfold bind at 1, modify.
  set (w1 := with_logged _ w).
  assert (Hbackup : exists w2,
    (if create_backup && version_management_backup_before_rollback (config self)
     then _create_rollback_backup self (current_version w)
     else ret tt) w1 = (Ok tt, w2) /\
    metadata_rewritten (current_version w) w w2 /\
    (create_backup && version_management_backup_before_rollback (config self) = false ->
     versions_dir w2 = versions_dir w)).
  { destruct (create_backup && _).
    - destruct (create_rollback_backup_frame (current_version w) w1) as (w2 & E2 & F2).
      exists w2. split; [exact E2|]. split; [exact F2 | discriminate].
    - exists w1. split; [reflexivity|]. split; [left|]; reflexivity. }
  destruct Hbackup as (w2 & E2 & F2 & Hoff).
  rewrite (bind_ok _ _ _ _ _ E2).
  destruct (set_current_version_run self target w2)
    as (w3 & E3 & Hv3 & _).
  rewrite (bind_ok _ _ _ _ _ E3).
  destruct (log_rollback_event_run self (current_version w) target w3)
    as (w4 & E4 & Hv4 & _).
  rewrite (bind_ok _ _ _ _ _ E4).
  unfold logger_info, logger, modify, bind, ret.
  eexists. split; [reflexivity|].
  assert (Hv : versions_dir w4 = versions_dir w2) by congruence.
  unfold metadata_rewritten in *. cbn [versions_dir with_logged].
  rewrite Hv. split; [exact F2 | exact Hoff].
Qed.

End RollbackFrame.

Lemma version_directories_store (v : string) (files files' : list (string * File))
  (entries : list (string * Node)) :
  lookup v entries = Some (NDir files) ->
  version_directories (store v (NDir files') entries) = version_directories entries.
Proof.
  unfold lookup, store, version_directories.
  induction entries as [|[k n] entries IH]; [discriminate|].
  cbn [dict_get dict_set]. destruct (String.eqb v k) eqn:E.
  - intros [= ->]. cbn [filter fst snd isdir].
    destruct (true && version_pattern k); reflexivity.
  - intros H. cbn [filter fst snd map]. specialize (IH H).
    destruct (isdir n && version_pattern k); cbn [map fst]; now rewrite IH.
Qed.

Lemma metadata_rewritten_directories (version : option string) (w w' : World) :
  metadata_rewritten version w w' ->
  version_directories (listdir w') = version_directories (listdir w).
Proof.
  intros [H|(v & entries & files & members & backups & _ & Hv & Hl & _ & Hv')];
    unfold listdir.
  - now rewrite H.
  - rewrite Hv, Hv'. now apply version_directories_store with files.
Qed.


Lemma recorded_rollbacks_appendable (w : World) :
  recorded_rollbacks w <> [] -> appendable "rollbacks" (rollback_log_file w) = true.
Proof.
  unfold recorded_rollbacks, appendable, list_under.
  destruct (rollback_log_file w) as [[s|j]|]; try congruence.
  destruct j as [|b|n|q|s|items|members]; try congruence.
  destruct (lookup "rollbacks" members) as [[|b|n|q|s|items|ms]|]; congruence.
Qed.

(** X12: [is_safe_to_rollback] never raises and changes nothing.  It
    answers no, with the reason, when the target is not among the versions
    ("Version ... does not exist"), else when it is the current version
    ("Already at version ..."), else when its directory has no metadata
    file ("Metadata file not found for ..."), and yes otherwise; whenever
    it answers yes, [rollback_to_version] to that target succeeds. *)
Theorem is_safe_to_rollback_guards_rollback (self : System) (target : string)
  (create_backup : bool) (w : World) :
  is_safe_to_rollback self target w
  = (Ok (if negb (Py.str_in target (version_directories (listdir w)))
         then (false, ("Version '" ++ target ++ "' does not exist")%string)
         else if match current_version w with
                 | Some c => String.eqb c target
                 | None => false
                 end
         then (false, ("Already at version " ++ target)%string)
         else match file_at (InVersion target "metadata.json") w with
              | None => (false, ("Metadata file not found for " ++ target)%string)
              | Some _ => (true, "Safe to rollback")
              end), w) /\
  (forall reason, is_safe_to_rollback self target w = (Ok (true, reason), w) ->
     exists w', rollback_to_version self target create_backup w = (Ok true, w')).
Proof.
  assert (Hrun : is_safe_to_rollback self target w
  = (Ok (if negb (Py.str_in target (version_directories (listdir w)))
         then (false, ("Version '" ++ target ++ "' does not exist")%string)
         else if match current_version w with
                 | Some c => String.eqb c target
                 | None => false
                 end
         then (false, ("Already at version " ++ target)%string)
         else match file_at (InVersion target "metadata.json") w with
              | None => (false, ("Metadata file not found for " ++ target)%string)
              | Some _ => (true, "Safe to rollback")
              end), w)).
  { unfold is_safe_to_rollback.
    destruct (all_versions_member w target) as (l & E & Hl).
    rewrite (bind_ok _ _ _ _ _ E).
    assert (Hs : Py.str_in target l = Py.str_in target (version_directories (listdir w))).
    { destruct (Py.str_in target (version_directories (listdir w))) eqn:Es.
      - apply Hl. now apply str_in_iff.
      - apply not_true_is_false. intros H. apply Hl in H. apply str_in_iff in H. congruence. }
    rewrite Hs.
    destruct (Py.str_in target (version_directories (listdir w))); cbn [negb]; cbv iota;
      [|reflexivity].
    rewrite (bind_ok _ _ _ _ _ (get_current_version_run self w)).
    destruct (match current_version w with
              | Some c => String.eqb c target
              | None => false
              end); [reflexivity|].
    unfold bind, exists_file, read.
    destruct (file_at (InVersion target "metadata.json") w); reflexivity. }
  split; [exact Hrun|].
  intros reason H. rewrite Hrun in H.
  destruct (Py.str_in target (version_directories (listdir w))) eqn:Es;
    cbn [negb] in H; [|discriminate].
  apply str_in_iff in Es.
  destruct (current_version w) as [c|] eqn:Ec.
  - destruct (String.eqb_spec c target) as [->|Hne]; [discriminate|].
    destruct (rollback_run self target create_backup w Es) as (w' & E & _);
      [rewrite Ec; congruence | now exists w'].
  - destruct (rollback_run self target create_backup w Es) as (w' & E & _);
      [rewrite Ec; congruence | now exists w'].
Qed.

Lemma is_safe_to_rollback_guards_rollback_witness :
  is_safe_to_rollback sample_system "v1" (two_versions None)
  = (Ok (true, "Safe to rollback"), two_versions None) /\
  exists w', rollback_to_version sample_system "v1" true (two_versions None) = (Ok true, w').
Proof.
  split; [reflexivity|].
  apply (proj2 (is_safe_to_rollback_guards_rollback sample_system "v1" true
                  (two_versions None)) "Safe to rollback").
  reflexivity.
Defined.

Example read_back_examples :
  read_back "v12" = "v12" /\ read_back "v1 " = "v1" /\
  read_back ("v" ++ String Csv.CR "1") = ("v" ++ String Csv.LF "1")%string /\
  current_version (with_current_version_file (Some ("v2" ++ String Csv.CR (String Csv.LF ""))%string)
                     (two_versions None)) = Some "v2".
Proof. repeat split; reflexivity. Qed.

(** X13: after a successful rollback, [get_current_version] returns the
    target as the marker file gives it back: with its line endings
    translated to LF and the white space around it stripped.  For a target
    that reads back as itself, which is every name the system creates, a
    second rollback to it is refused with [ValueError] ("Already at
    version ..."); for a directory whose name does not (it ends with white
    space, or holds a carriage return) the marker never reads back as the
    target, and the second rollback is carried out again. *)
Theorem rollback_then_current_version (self : System) (target : string)
  (create_backup : bool) (w : World) :
  In target (version_directories (listdir w)) ->
  current_version w <> Some target ->
  exists w',
    rollback_to_version self target create_backup w = (Ok true, w') /\
    get_current_version self w' = (Ok (Some (read_back target)), w') /\
    (read_back target = target ->
     exists w'', rollback_to_version self target create_backup w'
                 = (Err (ValueError ("Already at version " ++ target)), w'')) /\
    (read_back target <> target ->
     exists w'', rollback_to_version self target create_backup w' = (Ok true, w'')).
Proof.
  intros Hin Hc.
  destruct (rollback_run self target create_backup w Hin Hc) as (w' & E & Hm & _).
  destruct (rollback_frame self target create_backup w Hin Hc) as (w1 & E1 & F & _).
  rewrite E in E1. injection E1 as <-.
  assert (Hcur : current_version w' = Some (read_back target))
    by (unfold current_version; now rewrite Hm).
  assert (Hin' : In target (version_directories (listdir w')))
    by now rewrite (metadata_rewritten_directories _ _ _ F).
  exists w'. split; [exact E|].
  split; [rewrite get_current_version_run; now rewrite Hcur|].
  split; intros Hs.
  - destruct (rollback_refused_current self target create_backup w' Hin')
      as (w'' & E2 & _); [now rewrite Hcur, Hs | now exists w''].
  - destruct (rollback_run self target create_backup w' Hin') as (w'' & E2 & _);
      [rewrite Hcur; congruence | now exists w''].
Qed.

Lemma rollback_then_current_version_witness :
  exists w',
    rollback_to_version sample_system "v1" true (two_versions None) = (Ok true, w') /\
    get_current_version sample_system w' = (Ok (Some "v1"), w') /\
    exists w'', rollback_to_version sample_system "v1" true w'
                = (Err (ValueError "Already at version v1"), w'').
Proof.
  destruct (rollback_then_current_version sample_system "v1" true (two_versions None))
    as (w' & E & Hc & Hs & _).
  - left. reflexivity.
  - discriminate.
  - exists w'. split; [exact E|]. split; [exact Hc|]. exact (Hs eq_refl).
Defined.



(** X15: rolling back from A to B and then back to A, for names that the
    marker file gives back as they are written (no carriage return, no
    white space around, as every name the system creates), restores the
    marker, and the two moves are recorded in order at the end of the
    rollback history (when the log file can be appended to), nothing
    recorded before being lost. *)
Theorem rollback_there_and_back (self : System) (a b : string)
  (create_backup : bool) (w : World) :
  In a (version_directories (listdir w)) ->
  In b (version_directories (listdir w)) ->
  a <> b ->
  current_version w = Some a ->
  read_back a = a ->
  read_back b = b ->
  exists w1 w2,
    rollback_to_version self b create_backup w = (Ok true, w1) /\
    rollback_to_version self a create_backup w1 = (Ok true, w2) /\
    get_current_version self w2 = (Ok (Some a), w2) /\
    (appendable "rollbacks" (rollback_log_file w) = true ->
     exists t1 t2,
       recorded_rollbacks w2
       = recorded_rollbacks w ++ [rollback_event t1 (Some a) b;
                                  rollback_event t2 (Some b) a]).
Proof.
  intros Ha Hb Hab Hc Hsa Hsb.
  assert (Hc1 : current_version w <> Some b) by (rewrite Hc; congruence).
  destruct (rollback_run self b create_backup w Hb Hc1)
    as (w1 & E1 & Hm1 & _ & _ & Hl1 & _).
  destruct (rollback_frame self b create_backup w Hb Hc1) as (w1' & E1' & F1 & _).
  rewrite E1 in E1'. injection E1' as <-.
  assert (Hcur1 : current_version w1 = Some b)
    by (unfold current_version; rewrite Hm1; cbn [option_map];
        fold (read_back b); now rewrite Hsb).
  assert (Ha1 : In a (version_directories (listdir w1)))
    by now rewrite (metadata_rewritten_directories _ _ _ F1).
  assert (Hc2 : current_version w1 <> Some a) by (rewrite Hcur1; congruence).
  destruct (rollback_run self a create_backup w1 Ha1 Hc2)
    as (w2 & E2 & Hm2 & _ & _ & Hl2 & _).
  exists w1, w2. split; [exact E1|]. split; [exact E2|].
  split.
  - rewrite get_current_version_run. unfold current_version. rewrite Hm2.
    cbn [option_map]. fold (read_back a). now rewrite Hsa.
  - intros Happ. destruct (Hl1 Happ) as [t1 Ht1]. rewrite Hc in Ht1.
    assert (Happ1 : appendable "rollbacks" (rollback_log_file w1) = true).
    { apply recorded_rollbacks_appendable. rewrite Ht1.
      intros H. apply app_eq_nil in H. destruct H as [_ H]. discriminate. }
    destruct (Hl2 Happ1) as [t2 Ht2]. rewrite Hcur1 in Ht2.
    exists t1, t2. rewrite Ht2, Ht1, <- app_assoc. reflexivity.
Qed.

Lemma rollback_there_and_back_witness :
  exists w1 w2,
    rollback_to_version sample_system "v1" true (two_versions None) = (Ok true, w1) /\
    rollback_to_version sample_system "v2" true w1 = (Ok true, w2) /\
    get_current_version sample_system w2 = (Ok (Some "v2"), w2).
Proof.
  destruct (rollback_there_and_back sample_system "v2" "v1" true (two_versions None))
    as (w1 & w2 & E1 & E2 & Hc & _).
  - right. left. reflexivity.
  - left. reflexivity.
  - discriminate.
  - reflexivity.
  - reflexivity.
  - reflexivity.
  - exists w1, w2. split; [exact E1|]. split; [exact E2 | exact Hc].
Defined.

(** ** Operations that only read *)

Lemma read_only_ret {A} (a : A) : read_only (ret a).
Proof. intros w. apply same_files_refl. Qed.

Lemma read_only_raise {A} (e : Exn) : read_only (@raise A e).
Proof. intros w. apply same_files_refl. Qed.

Lemma read_only_lift {A} (r : Result A) : read_only (lift r).
Proof. intros w. apply same_files_refl. Qed.

Lemma read_only_read {A} (f : World -> A) : read_only (read f).
Proof. intros w. apply same_files_refl. Qed.

Lemma read_only_logger (lvl : Level) (msg : string) (e : option Exn) :
  read_only (logger lvl msg e).
Proof. intros w. apply same_files_logged. Qed.

Lemma read_only_get_timestamp : read_only get_timestamp.
Proof. intros w. apply same_files_ticks. Qed.

Lemma read_only_bind {A B} (m : M A) (k : A -> M B) :
  read_only m -> (forall a, read_only (k a)) -> read_only (bind m k).
Proof.
  intros Hm Hk w. unfold bind. specialize (Hm w).
  destruct (m w) as [[a|e] w1]; cbn [snd] in Hm; [|exact Hm].
  eapply same_files_trans; [exact Hm | apply Hk].
Qed.

Lemma read_only_try_except {A} (body : M A) (handler : Exn -> M A) :
  read_only body -> (forall e, read_only (handler e)) -> read_only (try_except body handler).
Proof.
  intros Hm Hk w. unfold try_except. specialize (Hm w).
  destruct (body w) as [[a|e] w1]; cbn [snd] in Hm; [exact Hm|].
  eapply same_files_trans; [exact Hm | apply Hk].
Qed.

Lemma read_only_when {A} (cond : bool) (m : M A) :
  read_only m -> read_only (when cond m).
Proof.
  intros Hm. unfold when. destruct cond; [|apply read_only_ret].
  apply read_only_bind; [exact Hm | intros a; apply read_only_ret].
Qed.

Create HintDb readonly.
#[local] Hint Resolve read_only_ret read_only_raise read_only_lift read_only_read
  read_only_logger read_only_get_timestamp read_only_when : readonly.

Ltac read_only_step :=
  match goal with
  | |- read_only (bind _ _) => apply read_only_bind; [|intros ?]
  | |- read_only (try_except _ _) => apply read_only_try_except; [|intros ?]
  | |- read_only (match ?x with _ => _ end) => destruct x
  | |- read_only (let (_, _) := ?x in _) => destruct x
  | |- read_only _ => solve [auto with readonly]
  | |- read_only (logger_info _) => apply read_only_logger
  | |- read_only (logger_debug _) => apply read_only_logger
  | |- read_only (logger_warning _ _) => apply read_only_logger
  | |- read_only (logger_error _ _) => apply read_only_logger
  end.

Section ReadOnly.
Variable self : System.

Lemma read_only_exists_file (p : Path) : read_only (exists_file p).
Proof. unfold exists_file. auto with readonly. Qed.

Lemma read_only_load_json (p : Path) : read_only (load_json self p).
Proof. unfold load_json, exists_file. repeat read_only_step. Qed.

Lemma read_only_read_text_file (p : Path) : read_only (read_text_file self p).
Proof. unfold read_text_file, exists_file. repeat read_only_step. Qed.

Lemma read_only_get_all_versions : read_only get_all_versions.
Proof. unfold get_all_versions. repeat read_only_step. Qed.

Lemma read_only_get_current_version : read_only (get_current_version self).
Proof.
  unfold get_current_version, exists_file.
  repeat (read_only_step || apply read_only_read_text_file).
Qed.

Lemma read_only_get_version_metadata (v : string) :
  read_only (get_version_metadata self v).
Proof.
  unfold get_version_metadata, exists_file.
  repeat (read_only_step || apply read_only_load_json).
Qed.

Lemma read_only_get_version_dataset_path (v : string) :
  read_only (get_version_dataset_path self v).
Proof. unfold get_version_dataset_path. repeat read_only_step. Qed.

Lemma read_only_read_csv_sample (p : Path) (n : Z) :
  read_only (_read_csv_sample self p n).
Proof. unfold _read_csv_sample. repeat read_only_step. Qed.

Lemma read_only_compare_versions (v1 v2 : string) :
  read_only (compare_versions self v1 v2).
Proof.
  unfold compare_versions, _compare_sample_data.
  repeat (read_only_step
          || apply read_only_get_version_metadata
          || apply read_only_get_version_dataset_path
          || apply read_only_when
          || apply read_only_read_csv_sample).
Qed.

Lemma read_only_get_rollback_history : read_only (get_rollback_history self).
Proof.
  unfold get_rollback_history, exists_file.
  repeat (read_only_step || apply read_only_load_json).
Qed.

Lemma read_only_get_version_history : read_only (get_version_history self).
Proof.
  unfold get_version_history, exists_file.
  repeat (read_only_step || apply read_only_load_json).
Qed.

Lemma read_only_is_safe_to_rollback (target : string) :
  read_only (is_safe_to_rollback self target).
Proof.
  unfold is_safe_to_rollback, exists_file.
  repeat (read_only_step || apply read_only_get_all_versions
          || apply read_only_get_current_version).
Qed.

Lemma read_only_validate_version_exists (v : string) :
  read_only (validate_version_exists self v).
Proof. unfold validate_version_exists. repeat read_only_step. Qed.

End ReadOnly.

(** X16: the operations that answer a question change no file, whether
    they return or raise: [get_all_versions], [get_current_version],
    [get_version_metadata], [get_version_dataset_path],
    [get_next_version_number], [validate_version_exists],
    [compare_versions], [get_rollback_history], [get_version_history] and
    [is_safe_to_rollback] leave the versions directory, the index, the
    marker, the rollback log and the input files exactly as they were. *)
Theorem queries_change_no_file (self : System) (v v' : string) :
  read_only get_all_versions /\
  read_only (get_current_version self) /\
  read_only (get_version_metadata self v) /\
  read_only (get_version_dataset_path self v) /\
  read_only get_next_version_number /\
  read_only (validate_version_exists self v) /\
  read_only (compare_versions self v v') /\
  read_only (get_rollback_history self) /\
  read_only (get_version_history self) /\
  read_only (is_safe_to_rollback self v).
Proof.
  split; [apply read_only_get_all_versions|].
  split; [apply read_only_get_current_version|].
  split; [apply read_only_get_version_metadata|].
  split; [apply read_only_get_version_dataset_path|].
  split; [unfold get_next_version_number; apply read_only_read|].
  split; [apply read_only_validate_version_exists|].
  split; [apply read_only_compare_versions|].
  split; [apply read_only_get_rollback_history|].
  split; [apply read_only_get_version_history|].
  apply read_only_is_safe_to_rollback.
Qed.

(** X17: [compare_versions] reads the metadata of both versions before
    anything else.  When the first version has no metadata file it raises
    [FileNotFoundError] ("Metadata file not found for <first>"), whatever
    the second is; when the first has one that parses and the second has
    none, the error names the second. *)
Theorem compare_versions_missing_metadata (self : System) (v1 v2 : string) (w : World) :
  (file_at (InVersion v1 "metadata.json") w = None ->
   exists w',
     compare_versions self v1 v2 w
     = (Err (FileNotFoundError ("Metadata file not found for " ++ v1)), w')) /\
  (forall j,
     file_at (InVersion v1 "metadata.json") w = Some (FJson j) ->
     file_at (InVersion v2 "metadata.json") w = None ->
     exists w',
       compare_versions self v1 v2 w
       = (Err (FileNotFoundError ("Metadata file not found for " ++ v2)), w')).
Proof.
  assert (Hmissing : forall v w0,
            file_at (InVersion v "metadata.json") w0 = None ->
            exists w1, get_version_metadata self v w0
                       = (Err (FileNotFoundError ("Metadata file not found for " ++ v)), w1)).
  { intros v w0 H. unfold get_version_metadata, bind, exists_file, read.
    rewrite H. cbn [negb]. cbv iota. eexists. reflexivity. }
  assert (Hsame : forall l p, file_at p (with_logged l w) = file_at p w)
    by (intros l p; apply file_at_same; apply same_files_logged).
  split.
  - intros H1. unfold compare_versions.
    unfold logger_info at 1, logger. unfold bind at 1, modify.
    set (w1 := with_logged _ w). rewrite <- (Hsame (logged w1)) in H1. fold w1 in H1.
    destruct (Hmissing v1 w1 H1) as (w2 & E).
    rewrite (bind_err _ _ _ _ _ E). now exists w2.
  - intros j H1 H2. unfold compare_versions.
    unfold logger_info at 1, logger. unfold bind at 1, modify.
    set (w1 := with_logged _ w).
    rewrite <- (Hsame (logged w1)) in H1, H2. fold w1 in H1, H2.
    rewrite (bind_ok _ _ _ _ _ (get_version_metadata_run self v1 j w1 H1)).
    destruct (Hmissing v2 w1 H2) as (w2 & E).
    rewrite (bind_err _ _ _ _ _ E). now exists w2.
Qed.

Lemma compare_versions_missing_metadata_witness :
  exists w',
    compare_versions sample_system "v7" "v8" (two_versions None)
    = (Err (FileNotFoundError "Metadata file not found for v7"), w').
Proof.
  apply (proj1 (compare_versions_missing_metadata sample_system "v7" "v8"
                  (two_versions None))).
  reflexivity.
Defined.

(** ** The comparisons of the report *)

(** X18: [_compare_row_counts] reports the second count minus the first,
    with direction "increase", "decrease" or "no change" according to its
    sign; the percentage is the constant 0, with no division, when the
    first count is not positive; exchanging the two versions negates the
    difference.  A version without [row_count] counts as 0 rows. *)
Theorem compare_row_counts_direction (metadata1 metadata2 : json) (n1 n2 : Z) :
  row_count_of metadata1 = Ok n1 ->
  row_count_of metadata2 = Ok n2 ->
  exists rc rc',
    _compare_row_counts metadata1 metadata2 = Ok rc /\
    _compare_row_counts metadata2 metadata1 = Ok rc' /\
    version1_row_count rc = n1 /\ version2_row_count rc = n2 /\
    difference rc = (n2 - n1)%Z /\
    difference rc' = (- difference rc)%Z /\
    direction rc = (if (n1 <? n2)%Z then "increase"
                    else if (n2 <? n1)%Z then "decrease" else "no change") /\
    percentage_change rc = (if (0 <? n1)%Z then PctRound2 (n2 - n1) n1 else PctZero).
Proof.
  unfold row_count_of. intros H1 H2. unfold _compare_row_counts.
  rewrite H1, H2. cbn [rbind].
  eexists; eexists. split; [reflexivity|]. split; [reflexivity|].
  cbn [version1_row_count version2_row_count difference direction percentage_change].
  repeat split; try lia.
  destruct (Z.ltb_spec n1 n2), (Z.ltb_spec 0 (n2 - n1)), (Z.ltb_spec n2 n1),
           (Z.ltb_spec (n2 - n1) 0); try reflexivity; lia.
Qed.

Lemma compare_row_counts_direction_witness :
  exists rc,
    _compare_row_counts (JObj []) (JObj [("row_count", JInt 3)]) = Ok rc /\
    difference rc = 3%Z /\ direction rc = "increase" /\ percentage_change rc = PctZero.
Proof.
  destruct (compare_row_counts_direction (JObj []) (JObj [("row_count", JInt 3)]) 0 3
              eq_refl eq_refl) as (rc & rc' & E & _ & _ & _ & Hd & _ & Hdir & Hp).
  exists rc. split; [exact E|]. split; [exact Hd|]. split; [exact Hdir | exact Hp].
Defined.

Lemma py_set_in (x : string) (l : list string) : In x (py_set l) <-> In x l.
Proof.
  induction l as [|y l IH]; cbn [py_set In]; [tauto|].
  rewrite filter_In, IH. split.
  - intros [H|[H _]]; auto.
  - intros [H|H]; [now left|].
    destruct (String.eqb_spec y x) as [E|E]; [now left|].
    right. split; [exact H | reflexivity].
Qed.

Lemma py_set_nodup (l : list string) : NoDup (py_set l).
Proof.
  induction l as [|y l IH]; cbn [py_set]; constructor.
  - rewrite filter_In. intros [_ H]. now rewrite String.eqb_refl in H.
  - now apply NoDup_filter.
Qed.

Lemma set_diff_in (x : string) (a b : list string) :
  In x (set_diff a b) <-> In x a /\ ~ In x b.
Proof.
  unfold set_diff. rewrite filter_In, negb_true_iff.
  rewrite <- (str_in_iff x b). destruct (Py.str_in x b); intuition congruence.
Qed.

Lemma set_inter_in (x : string) (a b : list string) :
  In x (set_inter a b) <-> In x a /\ In x b.
Proof. unfold set_inter. now rewrite filter_In, str_in_iff. Qed.

Lemma set_split_length (a b : list string) :
  List.length a = (List.length (set_diff a b) + List.length (set_inter a b))%nat.
Proof.
  unfold set_diff, set_inter.
  rewrite <- (filter_length (fun x => Py.str_in x b) a). lia.
Qed.

Lemma set_inter_length (a b : list string) :
  NoDup a -> NoDup b -> List.length (set_inter a b) = List.length (set_inter b a).
Proof.
  intros Ha Hb. apply Permutation_length. apply NoDup_Permutation.
  - now apply NoDup_filter.
  - now apply NoDup_filter.
  - intros x. rewrite !set_inter_in. tauto.
Qed.

(** X19: [_compare_columns] compares the columns as sets.  The added
    columns are those of the second version absent from the first, the
    removed ones those of the first absent from the second, the common
    ones those of both, each listed once; the column counts are counts of
    distinct names, and each is the number of common columns plus the
    number of columns removed, or added. *)
Theorem compare_columns_partition (metadata1 metadata2 : json) (l1 l2 : list string) :
  columns_of metadata1 = Ok l1 ->
  columns_of metadata2 = Ok l2 ->
  exists cc,
    _compare_columns metadata1 metadata2 = Ok cc /\
    (forall x, In x (added_columns cc) <-> In x l2 /\ ~ In x l1) /\
    (forall x, In x (removed_columns cc) <-> In x l1 /\ ~ In x l2) /\
    (forall x, In x (common_columns cc) <-> In x l1 /\ In x l2) /\
    NoDup (added_columns cc) /\ NoDup (removed_columns cc) /\ NoDup (common_columns cc) /\
    columns_added_count cc = List.length (added_columns cc) /\
    columns_removed_count cc = List.length (removed_columns cc) /\
    version1_column_count cc
    = (columns_removed_count cc + List.length (common_columns cc))%nat /\
    version2_column_count cc
    = (columns_added_count cc + List.length (common_columns cc))%nat.
Proof.
  unfold columns_of. intros H1 H2. unfold _compare_columns.
  rewrite H1, H2. cbn [rbind].
  eexists. split; [reflexivity|].
  cbn [added_columns removed_columns common_columns columns_added_count
       columns_removed_count version1_column_count version2_column_count].
  split; [intros x; now rewrite set_diff_in, !py_set_in|].
  split; [intros x; now rewrite set_diff_in, !py_set_in|].
  split; [intros x; now rewrite set_inter_in, !py_set_in|].
  split; [apply NoDup_filter, py_set_nodup|].
  split; [apply NoDup_filter, py_set_nodup|].
  split; [apply NoDup_filter, py_set_nodup|].
  split; [reflexivity|]. split; [reflexivity|].
  split; [apply set_split_length|].
  rewrite (set_inter_length (py_set l1) (py_set l2)) by apply py_set_nodup.
  apply set_split_length.
Qed.

Lemma compare_columns_partition_witness :
  exists cc,
    _compare_columns (JObj [("columns", JArr [JStr "id"; JStr "name"])])
                     (JObj [("columns", JArr [JStr "id"; JStr "age"; JStr "age"])])
    = Ok cc /\
    added_columns cc = ["age"] /\ removed_columns cc = ["name"] /\
    version2_column_count cc = 2%nat.
Proof.
  destruct (compare_columns_partition
              (JObj [("columns", JArr [JStr "id"; JStr "name"])])
              (JObj [("columns", JArr [JStr "id"; JStr "age"; JStr "age"])])
              ["id"; "name"] ["id"; "age"; "age"] eq_refl eq_refl)
    as (cc & E & _).
  exists cc. split; [exact E|].
  vm_compute in E. injection E as <-. repeat split.
Defined.

Lemma dict_set_absent {V} (k : string) (v : V) (d : list (string * V)) :
  ~ In k (map fst d) -> dict_set String.eqb k v d = d ++ [(k, v)].
Proof.
  induction d as [|[k' v'] d IH]; cbn [dict_set map fst In app]; [reflexivity|].
  intros H. destruct (String.eqb_spec k k') as [->|_]; [elim H; now left|].
  rewrite IH; [reflexivity|]. intros Hd. apply H. now right.
Qed.

Lemma type_change_keys (types2 : list (string * string)) (l : list (string * string))
  (k : string) :
  In k (map fst (flat_map (type_change types2) l)) -> In k (map fst l).
Proof.
  induction l as [|[c t1] l IH]; cbn [flat_map map fst In]; [tauto|].
  rewrite map_app, in_app_iff. intros [H|H]; [left | right; auto].
  unfold type_change in H. cbn [fst snd] in H.
  destruct (dict_get String.eqb c types2) as [t2|]; [|contradiction].
  destruct (String.eqb t1 t2); [contradiction|].
  destruct H as [H|[]]. exact H.
Qed.

Lemma changed_types_loop_spec (types1 types2 : list (string * string))
  (acc : list (string * (string * string))) :
  NoDup (map fst types1) ->
  (forall k, In k (map fst types1) -> ~ In k (map fst acc)) ->
  changed_types_loop types1 types2 acc = acc ++ flat_map (type_change types2) types1.
Proof.
  revert acc. induction types1 as [|[c t1] types1 IH]; intros acc Hnd Hdis;
    cbn [changed_types_loop flat_map]; [now rewrite app_nil_r|].
  cbn [map fst] in Hnd. inversion Hnd as [|? ? Hc Hnd']; subst.
  assert (Htc : type_change types2 (c, t1)
                = match dict_get String.eqb c types2 with
                  | Some t2 => if String.eqb t1 t2 then [] else [(c, (t1, t2))]
                  | None => []
                  end) by reflexivity.
  rewrite Htc. clear Htc.
  destruct (dict_get String.eqb c types2) as [t2|].
  - destruct (String.eqb t1 t2); cbn [negb app].
    + apply IH; [assumption|]. intros k Hk. apply Hdis. now right.
    + rewrite dict_set_absent by (apply Hdis; now left).
      rewrite IH; [now rewrite <- app_assoc | assumption |].
      intros k Hk. rewrite map_app, in_app_iff. intros [H|[<-|[]]].
      * revert H. apply Hdis. now right.
      * contradiction.
  - apply IH; [assumption|]. intros k Hk. apply Hdis. now right.
Qed.

(** X20: [_compare_data_types] reports a column exactly when both versions
    give it a type and the two types differ, with both types, in the
    order of the first version; a column that only one version has is not
    a type change, and [total_changes] is the number of columns
    reported. *)
Theorem compare_data_types_changes (metadata1 metadata2 : json)
  (types1 types2 : list (string * string)) :
  data_types_of metadata1 = Ok types1 ->
  data_types_of metadata2 = Ok types2 ->
  NoDup (map fst types1) ->
  exists dt,
    _compare_data_types metadata1 metadata2 = Ok dt /\
    changed_columns dt = flat_map (type_change types2) types1 /\
    total_changes dt = List.length (changed_columns dt) /\
    (forall column t1 t2,
       In (column, (t1, t2)) (changed_columns dt) <->
       In (column, t1) types1 /\ dict_get String.eqb column types2 = Some t2 /\ t1 <> t2).
Proof.
  unfold data_types_of. intros H1 H2 Hnd. unfold _compare_data_types.
  rewrite H1, H2. cbn [rbind].
  eexists. split; [reflexivity|].
  cbn [changed_columns total_changes].
  rewrite (changed_types_loop_spec types1 types2 [] Hnd) by (intros k _ []).
  cbn [app]. split; [reflexivity|]. split; [reflexivity|].
  intros column t1 t2. rewrite in_flat_map. split.
  - intros ([c t] & Hin & Hch). unfold type_change in Hch. cbn [fst snd] in Hch.
    destruct (dict_get String.eqb c types2) as [t'|] eqn:Eg; [|contradiction].
    destruct (String.eqb_spec t t') as [_|Hne]; [contradiction|].
    destruct Hch as [[= <- <- <-]|[]]. auto.
  - intros (Hin & Hg & Hne). exists (column, t1). split; [exact Hin|].
    unfold type_change. cbn [fst snd]. rewrite Hg.
    destruct (String.eqb_spec t1 t2) as [E|_]; [contradiction | now left].
Qed.

Lemma compare_data_types_changes_witness :
  exists dt,
    _compare_data_types
      (JObj [("data_types", JObj [("id", JStr "integer"); ("amount", JStr "integer");
                                  ("note", JStr "string")])])
      (JObj [("data_types", JObj [("id", JStr "integer"); ("amount", JStr "float")])])
    = Ok dt /\
    changed_columns dt = [("amount", ("integer", "float"))] /\
    total_changes dt = 1%nat.
Proof.
  destruct (compare_data_types_changes
      (JObj [("data_types", JObj [("id", JStr "integer"); ("amount", JStr "integer");
                                  ("note", JStr "string")])])
      (JObj [("data_types", JObj [("id", JStr "integer"); ("amount", JStr "float")])])
      [("id", "integer"); ("amount", "integer"); ("note", "string")]
      [("id", "integer"); ("amount", "float")] eq_refl eq_refl)
    as (dt & E & Hc & Ht & _).
  - repeat constructor; cbn; intuition discriminate.
  - exists dt. split; [exact E|]. split; [exact Hc|]. rewrite Ht, Hc. reflexivity.
Defined.

(** X21: the summary of a report counts its lines.  [_generate_summary]
    writes one line for a row-count difference other than 0, one for
    columns added, one for columns removed and one for changed data types,
    in this order and only for the comparisons the report has;
    [total_differences] is the number of these lines, at most 4, and
    [key_changes] holds them, or the one line "No significant differences
    found" when there is none. *)
Theorem summary_counts_its_lines (self : System) (c : Comparison) :
  let summary := _generate_summary self c in
  total_differences summary = List.length (change_lines self c) /\
  total_differences summary <= 4 /\
  key_changes summary
  = match change_lines self c with
    | [] => ["No significant differences found"]
    | lines => lines
    end.
Proof.
  intros summary.
  assert (H : total_differences summary = List.length (change_lines self c) /\
              key_changes summary
              = match change_lines self c with
                | [] => ["No significant differences found"]
                | lines => lines
                end).
  { unfold summary, _generate_summary, change_lines, count_change.
    destruct (row_count_comparison c) as [rc|];
      [destruct (difference rc =? 0)%Z|];
      (destruct (column_comparison c) as [cc|];
       [destruct (0 <? columns_added_count cc)%nat,
                 (0 <? columns_removed_count cc)%nat|]);
      (destruct (data_type_comparison c) as [dt|];
       [destruct (0 <? total_changes dt)%nat|]);
      split; reflexivity. }
  destruct H as [Ht Hk]. split; [exact Ht|]. split; [|exact Hk].
  rewrite Ht. unfold change_lines. rewrite !length_app.
  destruct (row_count_comparison c) as [rc|];
    [destruct (difference rc =? 0)%Z|];
    (destruct (column_comparison c) as [cc|];
     [destruct (0 <? columns_added_count cc)%nat,
               (0 <? columns_removed_count cc)%nat|]);
    (destruct (data_type_comparison c) as [dt|];
     [destruct (0 <? total_changes dt)%nat|]);
    cbn; lia.
Qed.

Lemma sample_loop_first_rows (n i : Z) (reader : Csv.Iter DictRow) :
  fst (sample_loop n i reader) = first_rows (Z.to_nat (n - i)) reader.
Proof.
  revert i. induction reader as [| |row rest IH]; intros i; cbn [sample_loop].
  - destruct (Z.to_nat (n - i)); reflexivity.
  - destruct (Z.to_nat (n - i)); reflexivity.
  - destruct (Z.leb_spec n i) as [Hle|Hlt].
    + replace (Z.to_nat (n - i)) with 0%nat by lia. reflexivity.
    + replace (Z.to_nat (n - i)) with (S (Z.to_nat (n - (i + 1)))) by lia.
      specialize (IH (i + 1)%Z).
      destruct (sample_loop n (i + 1) rest) as [sample e]. cbn [fst] in *.
      cbn [first_rows]. now rewrite IH.
Qed.

Lemma first_rows_length {A} (n : nat) (reader : Csv.Iter A) :
  List.length (first_rows n reader) <= n.
Proof.
  revert reader. induction n as [|n IH]; intros reader; [destruct reader; cbn; lia|].
  destruct reader as [| |row rest]; cbn [first_rows List.length]; try lia.
  specialize (IH rest). lia.
Qed.

(** X22: [_read_csv_sample] never raises and changes no file.  It returns
    the first [sample_size] rows of the [DictReader] over the file, fewer
    when the file has fewer or when reading raises (the rows read before
    the exception are kept), and no row when the file is missing or the
    size is not positive. *)
Theorem read_csv_sample_first_rows (self : System) (csv_path : Path)
  (sample_size : Z) (w : World) :
  exists (sample : list DictRow) w',
    _read_csv_sample self csv_path sample_size w = (Ok sample, w') /\
    same_files w w' /\
    sample = match file_at csv_path w with
             | Some f => first_rows (Z.to_nat sample_size) (DictReader (file_text self f))
             | None => []
             end /\
    (Z.of_nat (List.length sample) <= Z.max 0 sample_size)%Z.
Proof.
  assert (Hlen : forall reader : Csv.Iter DictRow,
            (Z.of_nat (List.length (first_rows (Z.to_nat sample_size) reader))
             <= Z.max 0 sample_size)%Z).
  { intros reader. pose proof (first_rows_length (Z.to_nat sample_size) reader). lia. }
  unfold _read_csv_sample, bind, read.
  destruct (file_at csv_path w) as [f|].
  - pose proof (sample_loop_first_rows sample_size 0 (DictReader (file_text self f))) as Hs.
    rewrite Z.sub_0_r in Hs.
    destruct (sample_loop sample_size 0 (DictReader (file_text self f))) as [sample [e|]];
      cbn [fst] in Hs; subst sample;
      eexists; eexists; (split; [reflexivity|]);
      (split; [apply same_files_logged || apply same_files_refl|]);
      (split; [reflexivity | apply Hlen]).
  - eexists; eexists. split; [reflexivity|]. split; [apply same_files_logged|].
    split; [reflexivity | cbn; lia].
Qed.

Lemma well_typed_metadata_keys (members members' : list (string * json)) :
  (forall key, key <> "backups" -> lookup key members' = lookup key members) ->
  well_typed_metadata (JObj members) -> well_typed_metadata (JObj members').
Proof.
  intros H. unfold well_typed_metadata, metadata_get.
  rewrite !H by discriminate. tauto.
Qed.

(** X23: the backup annotation of a rollback keeps the rest of the
    metadata.  After a successful rollback away from a version whose
    metadata file holds a JSON object, that file still holds an object
    with the same value under every key other than [backups]; in
    particular, metadata with the fields the comparator reads still has
    them. *)
Theorem rollback_backup_keeps_metadata (self : System) (current target : string)
  (create_backup : bool) (members : list (string * json)) (w : World) :
  In target (version_directories (listdir w)) ->
  current_version w = Some current ->
  current <> target ->
  file_at (InVersion current "metadata.json") w = Some (FJson (JObj members)) ->
  exists w' members',
    rollback_to_version self target create_backup w = (Ok true, w') /\
    file_at (InVersion current "metadata.json") w' = Some (FJson (JObj members')) /\
    (forall key, key <> "backups" -> lookup key members' = lookup key members) /\
    (well_typed_metadata (JObj members) -> well_typed_metadata (JObj members')).
Proof.
  intros Hin Hc Hne Hf.
  assert (Hc' : current_version w <> Some target) by (rewrite Hc; congruence).
  destruct (rollback_frame self target create_backup w Hin Hc') as (w' & E & F & _).
  exists w'.
  assert (Hm : exists members',
            file_at (InVersion current "metadata.json") w' = Some (FJson (JObj members')) /\
            (forall key, key <> "backups" -> lookup key members' = lookup key members)).
  { destruct F as [Hv|(v & entries & files & ms & backups & Hver & Hv & Hl & Hmf & Hv')].
    - exists members. split; [|reflexivity]. cbn [file_at] in *. now rewrite Hv.
    - rewrite Hc in Hver. injection Hver as <-.
      cbn [file_at] in Hf. rewrite Hv, Hl, Hmf in Hf. injection Hf as ->.
      exists (store "backups" (JArr backups) members). split.
      + cbn [file_at]. rewrite Hv'. now rewrite !lookup_store_same.
      + intros key Hk. apply lookup_store_other. now apply String.eqb_neq. }
  destruct Hm as (members' & Hf' & Hk).
  exists members'. split; [exact E|]. split; [exact Hf'|]. split; [exact Hk|].
  now apply well_typed_metadata_keys.
Qed.

Lemma rollback_backup_keeps_metadata_witness :
  exists w' members',
    rollback_to_version sample_system "v1" true (two_versions None) = (Ok true, w') /\
    file_at (InVersion "v2" "metadata.json") w' = Some (FJson (JObj members')) /\
    lookup "version" members' = Some (JStr "v2").
Proof.
  destruct (rollback_backup_keeps_metadata sample_system "v2" "v1" true
              [("version", JStr "v2")] (two_versions None))
    as (w' & members' & E & Hf & Hk & _).
  - left. reflexivity.
  - reflexivity.
  - discriminate.
  - reflexivity.
  - exists w', members'. split; [exact E|]. split; [exact Hf|].
    rewrite Hk; [reflexivity | discriminate].
Defined.

Lemma version_items_app (a b : list (string * Node)) :
  version_items (a ++ b) = version_items a ++ version_items b.
Proof.
  induction a as [|[item node] a IH]; cbn [app version_items]; [reflexivity|].
  destruct (Py.startswith "v" item && isdir node); [|exact IH].
  destruct (Py.int (Py.tail1 item)); [|exact IH].
  cbn [app]. now rewrite IH.
Qed.

Lemma insert_by_key_last {A} (k : Z) (x : A) (l : list (Z * A)) :
  Forall (fun kx => (fst kx <= k)%Z) l -> insert_by_key k x l = l ++ [(k, x)].
Proof.
  induction 1 as [|[k' y] l Hk _ IH]; cbn [insert_by_key app]; [reflexivity|].
  cbn [fst] in Hk. destruct (Z.ltb_spec k k'); [lia|]. now rewrite IH.
Qed.

(** Sorting a list of versions followed by one of a larger number. *)
Lemma sort_versions_last (l : list string) (name : string) (sorted : list string) :
  Forall (fun x => version_pattern x = true) l ->
  version_pattern name = true ->
  (forall x, In x l -> (version_number x <= version_number name)%Z) ->
  sort_by_key version_key l = Ok sorted ->
  sort_by_key version_key (l ++ [name]) = Ok (sorted ++ [name]).
Proof.
  intros Hl Hn Hmax. unfold sort_by_key.
  rewrite (decorate_versions l Hl).
  assert (Hl' : Forall (fun x => version_pattern x = true) (l ++ [name]))
    by (apply Forall_app; split; [assumption | now constructor]).
  rewrite (decorate_versions _ Hl'). intros [= <-]. f_equal.
  rewrite map_app, fold_left_app. cbn [map fold_left fst snd].
  set (d := map (fun x => (version_number x, x)) l).
  rewrite insert_by_key_last; [now rewrite map_app|].
  rewrite Forall_forall. intros kx Hkx.
  apply (Permutation_in _ (fold_insert_perm d [])) in Hkx.
  unfold d in Hkx. apply in_map_iff in Hkx.
  destruct Hkx as (x & <- & Hx). cbn [fst]. now apply Hmax.
Qed.

(** X24: the version a successful [create_version] returns comes last in
    [get_all_versions]: the list is the one from before the call, in the
    same order, followed by the new name. *)
Theorem create_version_listed_last (self : System) (input : string)
  (q : option Q) (w w' : World) (name : string) :
  create_version self input q w = (Ok name, w') ->
  exists l,
    get_all_versions w = (Ok l, w) /\
    get_all_versions w' = (Ok (l ++ [name]), w').
Proof.
  intros Hrun.
  destruct (create_version_listing _ _ _ _ _ _ Hrun)
    as (text & _ & Hname & _ & _ & _ & _ & Hv).
  destruct (get_all_versions_run w) as (l & E & Hp & _).
  exists l. split; [exact E|].
  assert (Hsort : sort_by_key version_key (version_items (listdir w)) = Ok l).
  { unfold get_all_versions, bind, read, listdir, lift, ret in E |- *.
    destruct (versions_dir w) as [entries|]; [|now injection E as <-].
    destruct (sort_by_key version_key (version_items entries)); now injection E as <-. }
  unfold get_all_versions, bind, read, lift. rewrite Hv.
  rewrite version_items_app. cbn [version_items isdir].
  destruct (version_name_number (next_number (listdir w))) as [Hs Hi].
  rewrite <- Hname in Hs, Hi. rewrite Hs, Hi. cbn [andb app].
  assert (Hpat : version_pattern name = true)
    by (unfold version_pattern; now rewrite Hs, Hi).
  rewrite (sort_versions_last (version_items (listdir w)) name l); [reflexivity| | | |].
  - rewrite Forall_forall. intros x Hx. rewrite version_items_filter in Hx.
    now apply version_directories_pattern with (listdir w).
  - exact Hpat.
  - intros x Hx. rewrite version_items_filter in Hx.
    pose proof (proj2 (proj2 (next_number_spec (listdir w))) x Hx) as Hlt.
    unfold version_number at 2. rewrite Hi. lia.
  - exact Hsort.
Qed.

Lemma create_version_listed_last_witness :
  get_all_versions one_version = (Ok ["v1"], one_version).
Proof.
  destruct (create_version_listed_last sample_system "data/sales.csv" None
              (world_with_input "data/sales.csv"
                 (line "id,amount" ++ line "1,10" ++ line "2,2.5")) one_version "v1")
    as (l & E & E'); [vm_compute; reflexivity|].
  vm_compute in E. injection E as <-. exact E'.
Defined.

(** X26: [compare_versions] returns a report for any two versions that
    each have a dataset and metadata of the types [create_version] writes.
    The report names the two versions in the order given, holds the
    row-count, column and data-type comparisons of the two metadata
    exactly when the configuration switches them on, the samples when it
    asks for them, and its summary is the one computed from these
    comparisons; no file is changed. *)
Theorem compare_versions_report (self : System) (v1 v2 file1 file2 : string)
  (entries : list (string * Node)) (files1 files2 : list (string * File))
  (metadata1 metadata2 : json) (w : World) :
  versions_dir w = Some entries ->
  lookup v1 entries = Some (NDir files1) ->
  lookup v2 entries = Some (NDir files2) ->
  lookup "metadata.json" files1 = Some (FJson metadata1) ->
  lookup "metadata.json" files2 = Some (FJson metadata2) ->
  first_csv files1 = Some file1 ->
  first_csv files2 = Some file2 ->
  well_typed_metadata metadata1 ->
  well_typed_metadata metadata2 ->
  exists comparison summary w' rc cc dt,
    compare_versions self v1 v2 w = (Ok (comparison, summary), w') /\
    same_files w w' /\
    version1 comparison = v1 /\ version2 comparison = v2 /\
    comparison_timestamp comparison = clock w (ticks w) /\
    _compare_row_counts metadata1 metadata2 = Ok rc /\
    _compare_columns metadata1 metadata2 = Ok cc /\
    _compare_data_types metadata1 metadata2 = Ok dt /\
    row_count_comparison comparison
    = (if comparison_compare_row_count (config self) then Some rc else None) /\
    column_comparison comparison
    = (if comparison_compare_columns (config self) then Some cc else None) /\
    data_type_comparison comparison
    = (if comparison_compare_data_types (config self) then Some dt else None) /\
    (sample_data_comparison comparison <> None
     <-> comparison_include_sample_data (config self) = true) /\
    summary = _generate_summary self comparison.
Proof.
  intros Hv Hl1 Hl2 Hm1 Hm2 Hf1 Hf2
    ((n1 & Hrc1) & (l1 & Hc1) & (t1 & Ht1 & _))
    ((n2 & Hrc2) & (l2 & Hc2) & (t2 & Ht2 & _)).
  unfold compare_versions.
  unfold logger_info at 1, logger. unfold bind at 1, modify.
  set (w1 := with_logged _ w).
  assert (Hmeta1 : file_at (InVersion v1 "metadata.json") w1 = Some (FJson metadata1))
    by (cbn [file_at]; change (versions_dir w1) with (versions_dir w);
        now rewrite Hv, Hl1).
  assert (Hmeta2 : file_at (InVersion v2 "metadata.json") w1 = Some (FJson metadata2))
    by (cbn [file_at]; change (versions_dir w1) with (versions_dir w);
        now rewrite Hv, Hl2).
  rewrite (bind_ok _ _ _ _ _ (get_version_metadata_run self v1 metadata1 w1 Hmeta1)).
  rewrite (bind_ok _ _ _ _ _ (get_version_metadata_run self v2 metadata2 w1 Hmeta2)).
  rewrite (bind_ok _ _ _ _ _
             (get_version_dataset_path_run self v1 file1 entries files1 w1 Hv Hl1 Hf1)).
  rewrite (bind_ok _ _ _ _ _
             (get_version_dataset_path_run self v2 file2 entries files2 w1 Hv Hl2 Hf2)).
  unfold bind at 1. unfold get_timestamp. cbv iota beta.
  set (w2 := with_ticks _ w1).
  assert (Hobj : forall metadata n,
            rbind (metadata_get "row_count" (JInt 0) metadata) as_int = Ok n ->
            exists created, metadata_get "created_at" JNull metadata = Ok created).
  { intros metadata n H. unfold metadata_get in *.
    destruct metadata; try discriminate. eauto. }
  destruct (Hobj _ _ Hrc1) as [created1 Hcreated1].
  destruct (Hobj _ _ Hrc2) as [created2 Hcreated2].
  rewrite Hcreated1, Hcreated2.
  assert (El : forall (x : json), lift (Ok x) w2 = (Ok x, w2)) by reflexivity.
  rewrite (bind_ok _ _ _ _ _ (El created1)).
  rewrite (bind_ok _ _ _ _ _ (El created2)).
  assert (Erc : exists rc, _compare_row_counts metadata1 metadata2 = Ok rc)
    by (unfold _compare_row_counts; rewrite Hrc1, Hrc2; cbn [rbind]; eauto).
  assert (Ecc : exists cc, _compare_columns metadata1 metadata2 = Ok cc)
    by (unfold _compare_columns; rewrite Hc1, Hc2; cbn [rbind]; eauto).
  assert (Edt : exists dt, _compare_data_types metadata1 metadata2 = Ok dt)
    by (unfold _compare_data_types; rewrite Ht1, Ht2; cbn [rbind]; eauto).
  destruct Erc as [rc Erc], Ecc as [cc Ecc], Edt as [dt Edt].
  rewrite Erc, Ecc, Edt.
  rewrite (bind_ok _ _ _ _ _ (when_pure _ rc w2)).
  rewrite (bind_ok _ _ _ _ _ (when_pure _ cc w2)).
  rewrite (bind_ok _ _ _ _ _ (when_pure _ dt w2)).
  assert (Hsd : exists sd w3,
            when (comparison_include_sample_data (config self))
                 (_compare_sample_data self (InVersion v1 file1) (InVersion v2 file2)) w2
            = (Ok sd, w3) /\ same_files w2 w3 /\
            (sd <> None <-> comparison_include_sample_data (config self) = true)).
  { destruct (compare_sample_data_run self (InVersion v1 file1) (InVersion v2 file2)
                (comparison_include_sample_data (config self)) w2)
      as (sd & w3 & Esd & S3).
    exists sd, w3. split; [exact Esd|]. split; [exact S3|].
    unfold when in Esd. destruct (comparison_include_sample_data (config self)).
    - unfold bind, ret in Esd.
      destruct (_compare_sample_data self _ _ w2) as [[x|e] wx]; [|discriminate].
      injection Esd as <- _. split; [reflexivity | discriminate].
    - injection Esd as <- _. split; [congruence | discriminate]. }
  destruct Hsd as (sd & w3 & Esd & S3 & Hsd).
  rewrite (bind_ok _ _ _ _ _ Esd).
  unfold logger_info, logger, modify, bind, ret.
  eexists; eexists; eexists; exists rc, cc, dt. split; [reflexivity|].
  split; [eapply same_files_trans; [|apply same_files_logged];
          eapply same_files_trans; [|exact S3]; split; reflexivity|].
  cbn [version1 version2 comparison_timestamp row_count_comparison column_comparison
       data_type_comparison sample_data_comparison].
  repeat (split; [reflexivity || assumption|]). reflexivity.
Qed.

Lemma compare_versions_report_witness :
  exists comparison summary w',
    compare_versions sample_system "v1" "v2" (two_versions None)
    = (Ok (comparison, summary), w') /\
    version1 comparison = "v1" /\ version2 comparison = "v2".
Proof.
  destruct (compare_versions_report sample_system "v1" "v2" "data.csv" "data.csv"
              (listdir (two_versions None))
              [("data.csv", FText (line "id" ++ line "1"));
               ("metadata.json", FJson (JObj [("version", JStr "v1")]))]
              [("data.csv", FText (line "id" ++ line "1" ++ line "2"));
               ("metadata.json", FJson (JObj [("version", JStr "v2")]))]
              (JObj [("version", JStr "v1")]) (JObj [("version", JStr "v2")])
              (two_versions None) eq_refl eq_refl eq_refl eq_refl eq_refl eq_refl eq_refl)
    as (c & s & w' & rc & cc & dt & E & _ & H1 & H2 & _).
  - split; [eexists; reflexivity|]. split; [eexists; reflexivity|].
    eexists. split; [reflexivity | constructor].
  - split; [eexists; reflexivity|]. split; [eexists; reflexivity|].
    eexists. split; [reflexivity | constructor].
  - exists c, s, w'. split; [exact E|]. split; [exact H1 | exact H2].
Defined.

Lemma get_all_versions_listing (w w' : World) :
  version_directories (listdir w') = version_directories (listdir w) ->
  fst (get_all_versions w') = fst (get_all_versions w).
Proof.
  intros H. unfold get_all_versions, bind, read, lift, ret.
  assert (Hi : version_items (listdir w') = version_items (listdir w))
    by now rewrite !version_items_filter.
  unfold listdir in Hi.
  destruct (versions_dir w') as [e'|], (versions_dir w) as [e|]; cbn [fst];
    cbn [version_items] in Hi; [now rewrite Hi | now rewrite Hi | now rewrite <- Hi
                               | reflexivity].
Qed.

(** X27: a rollback changes neither the versions nor their numbering.
    After a successful [rollback_to_version], [get_all_versions] returns
    the same list as before and [get_next_version_number] the same number:
    the version created next is numbered after the largest one, wherever
    the marker points. *)
Theorem rollback_keeps_numbering (self : System) (target : string)
  (create_backup : bool) (w : World) :
  In target (version_directories (listdir w)) ->
  current_version w <> Some target ->
  exists w',
    rollback_to_version self target create_backup w = (Ok true, w') /\
    fst (get_all_versions w') = fst (get_all_versions w) /\
    fst (get_next_version_number w') = fst (get_next_version_number w).
Proof.
  intros Hin Hc.
  destruct (rollback_frame self target create_backup w Hin Hc) as (w' & E & F & _).
  pose proof (metadata_rewritten_directories _ _ _ F) as Hd.
  exists w'. split; [exact E|]. split; [now apply get_all_versions_listing|].
  rewrite !get_next_version_number_run. cbn [fst]. f_equal.
  unfold next_number. now rewrite !existing_numbers_directories, Hd.
Qed.

Lemma rollback_keeps_numbering_witness :
  exists w',
    rollback_to_version sample_system "v1" true (two_versions None) = (Ok true, w') /\
    fst (get_all_versions w') = Ok ["v1"; "v2"] /\
    fst (get_next_version_number w') = Ok 3%Z.
Proof.
  destruct (rollback_keeps_numbering sample_system "v1" true (two_versions None))
    as (w' & E & Hl & Hn).
  - left. reflexivity.
  - discriminate.
  - exists w'. split; [exact E|]. split; [rewrite Hl | rewrite Hn]; reflexivity.
Defined.
